(** * EcoSort backend: the token codec, the rate limiter and the bin store

    A shallow embedding of [Backend/main.py].  Python values are modelled
    as follows.

    - [str] is a list of characters; a character is a code point below
      256 ([ascii]).  [bytes] is a list of octets (also [ascii]).
    - A [float] is identified by an exact decimal numeral
      [mant / 10 ^ scale]; every finite binary float has one.  Comparisons
      are the comparisons of the denoted rationals.  Arithmetic on floats
      is exact: rounding is not modelled.
    - [datetime] and [timedelta] are integer counts of microseconds, as in
      CPython.
    - A [dict] with string keys whose order matters (it is serialised) is
      an association list; the two process-wide dictionaries are [gmap]s.
    - [time.time()] and [datetime.now()] are inputs of the functions that
      read the clock.  Logging and [print] are not modelled. *)

From Stdlib Require Import ZArith QArith Qminmax Lqa Ascii String List Bool.
From stdpp Require Import gmap strings list fin_maps.

Local Open Scope Z_scope.

(* ================================================================== *)
(** ** Strings *)

Abbreviation str := (list ascii).
Abbreviation bytes := (list ascii).

(** A string literal of the source. *)
Definition lit (s : string) : str := list_ascii_of_string s.

Definition ord (c : ascii) : Z := Z.of_N (N_of_ascii c).
Definition chr (n : Z) : ascii := ascii_of_N (Z.to_N n).

(* ================================================================== *)
(** ** Floats *)

Record pyfloat := PyF { mant : Z; scale : positive }.

(** The rational a float denotes. *)
Definition fval (x : pyfloat) : Q := mant x # (10 ^ scale x)%positive.

Definition Qlt_bool (a b : Q) : bool := negb (Qle_bool b a).

(** [x >= n], [x > y], [x < y] on floats and integers. *)
Definition f_ge_int (x : pyfloat) (n : Z) : bool := Qle_bool (inject_Z n) (fval x).
Definition f_gt (x y : pyfloat) : bool := Qlt_bool (fval y) (fval x).
Definition f_lt (x y : pyfloat) : bool := Qlt_bool (fval x) (fval y).

(** The float of an integer, e.g. the literal [80.0]. *)
Definition float_of_int (n : Z) : pyfloat := PyF (n * 10) 1.

(* ================================================================== *)
(** ** Data models *)

(** [class WasteBinData(BaseModel)]. *)
Record WasteBinData := {
  bin_id : str;
  organic_level : pyfloat;
  recyclable_level : pyfloat;
  hazardous_level : pyfloat
}.

(** The [Field] constraints of [WasteBinData]: [min_length=3],
    [max_length=50], [ge=0.0], [le=100.0]. *)
Definition level_ok (x : pyfloat) : Prop := (0 <= fval x /\ fval x <= 100)%Q.

Definition valid_reading (d : WasteBinData) : Prop :=
  (3 <= length (bin_id d) <= 50)%nat /\
  level_ok (organic_level d) /\
  level_ok (recyclable_level d) /\
  level_ok (hazardous_level d).

Inductive Status := LOW | MEDIUM | HIGH | CRITICAL.

(** The string the code stores for a status. *)
Definition status_name (s : Status) : str :=
  match s with
  | LOW => lit "LOW"
  | MEDIUM => lit "MEDIUM"
  | HIGH => lit "HIGH"
  | CRITICAL => lit "CRITICAL"
  end.

(** The ordering of the bands, LOW < MEDIUM < HIGH < CRITICAL. *)
Definition band (s : Status) : nat :=
  match s with LOW => 0 | MEDIUM => 1 | HIGH => 2 | CRITICAL => 3 end.

(** The dictionary [store_bin_data] writes for a bin. *)
Record BinRecord := {
  rec_bin_id : str;
  rec_organic_level : pyfloat;
  rec_recyclable_level : pyfloat;
  rec_hazardous_level : pyfloat;
  rec_last_updated : Z;
  rec_status : Status;
  rec_alerts : list str
}.

(** The three waste categories, in the order the code tests them. *)
Inductive Category := Organic | Recyclable | Hazardous.

Definition categories : list Category := [Organic; Recyclable; Hazardous].

Definition level_of (d : WasteBinData) (c : Category) : pyfloat :=
  match c with
  | Organic => organic_level d
  | Recyclable => recyclable_level d
  | Hazardous => hazardous_level d
  end.

(* ================================================================== *)
(** ** Printing numbers *)

Definition digit_char (d : Z) : ascii := chr (48 + d).

(** The decimal digits of [n >= 0], most significant first, in front of
    [acc].  [fuel] bounds the number of digits. *)
Fixpoint digits_fuel (fuel : nat) (n : Z) (acc : str) : str :=
  match fuel with
  | O => acc
  | S f =>
      if n <? 10 then digit_char n :: acc
      else digits_fuel f (n / 10) (digit_char (n mod 10) :: acc)
  end.

Definition digits_of (n : Z) : str :=
  digits_fuel (S (Z.to_nat (Z.log2 n))) n [].

(** [str(n)] for an integer. *)
Definition int_repr (n : Z) : str :=
  if n <? 0 then "-"%char :: digits_of (- n) else digits_of n.

(** [repr(x)] for a float, as [json.dumps] and f-strings print it: the
    numeral of the float in positional notation, with [scale x] digits
    after the point.  (CPython prints the shortest numeral that reads
    back as the same float; the model prints the numeral the float is
    given by, which reads back as the same float too.) *)
Definition float_repr (x : pyfloat) : str :=
  let k := Pos.to_nat (scale x) in
  let ds := digits_of (Z.abs (mant x)) in
  let n := length ds in
  (if mant x <? 0 then ["-"%char] else []) ++
  (if (n <=? k)%nat
   then "0"%char :: "."%char :: repeat "0"%char (k - n) ++ ds
   else firstn (n - k) ds ++ "."%char :: skipn (n - k) ds).

(* ================================================================== *)
(** ** [class RateLimiter] *)

Module RateLimiter.

(** [self.requests]: the recorded request times of each identifier. *)
Abbreviation requests_t := (gmap str (list pyfloat)).

(** [RateLimiter.__init__]. *)
Definition init : requests_t := ∅.

(** [now - req_time < window]. *)
Definition in_window (now : pyfloat) (window : Z) (req_time : pyfloat) : bool :=
  Qlt_bool (fval now - fval req_time) (inject_Z window).

(** [RateLimiter.is_allowed], with [now] the value [time.time()]
    returns.  The result is the returned boolean and [self.requests]
    after the call. *)
Definition is_allowed (requests : requests_t) (now : pyfloat)
    (identifier : str) (limit : Z) (window : Z) : bool * requests_t :=
  let requests :=
    match requests !! identifier with
    | None => <[identifier := []]> requests
    | Some _ => requests
    end in
  let kept :=
    List.filter (in_window now window) (default [] (requests !! identifier)) in
  let requests := <[identifier := kept]> requests in
  if Z.of_nat (length kept) <? limit
  then (true, <[identifier := kept ++ [now]]> requests)
  else (false, requests).

End RateLimiter.

(** The defaults [RATE_LIMIT_REQUESTS] and [RATE_LIMIT_WINDOW]. *)
Definition RATE_LIMIT_REQUESTS : Z := 100.
Definition RATE_LIMIT_WINDOW : Z := 3600.

(* ================================================================== *)
(** ** [class WasteDatabase] *)

(** [max(a, b, c)]: the first argument is kept until a later one is
    strictly greater. *)
Definition py_max3 (a b c : pyfloat) : pyfloat :=
  let m := a in
  let m := if f_gt b m then b else m in
  if f_gt c m then c else m.

Module WasteDatabase.

(** [self.bins]. *)
Abbreviation bins_t := (gmap str BinRecord).

Definition init : bins_t := ∅.

Definition _calculate_bin_status (data : WasteBinData) : Status :=
  let max_level :=
    py_max3 (organic_level data) (recyclable_level data) (hazardous_level data) in
  if f_ge_int max_level 90 then CRITICAL
  else if f_ge_int max_level 80 then HIGH
  else if f_ge_int max_level 60 then MEDIUM
  else LOW.

(** The message of one category, e.g.
    [f"Organic waste level critical: {data.organic_level}%"]. *)
Definition alert_message (data : WasteBinData) (c : Category) : str :=
  match c with
  | Organic => lit "Organic waste level critical: "
  | Recyclable => lit "Recyclable waste level critical: "
  | Hazardous => lit "Hazardous waste level critical: "
  end ++ float_repr (level_of data c) ++ lit "%".

Definition _generate_alerts (data : WasteBinData) : list str :=
  let alerts := [] in
  let alerts :=
    if f_ge_int (organic_level data) 80
    then alerts ++ [alert_message data Organic] else alerts in
  let alerts :=
    if f_ge_int (recyclable_level data) 80
    then alerts ++ [alert_message data Recyclable] else alerts in
  let alerts :=
    if f_ge_int (hazardous_level data) 80
    then alerts ++ [alert_message data Hazardous] else alerts in
  alerts.

(** [store_bin_data], with [timestamp] the value [datetime.now()]
    returns.  Nothing in the [try] block can raise, so the [except]
    branch that returns [False] is never taken. *)
Definition store_bin_data (bins : bins_t) (timestamp : Z) (data : WasteBinData)
    : bool * bins_t :=
  let status := _calculate_bin_status data in
  let alerts := _generate_alerts data in
  (true,
   <[bin_id data :=
       {| rec_bin_id := bin_id data;
          rec_organic_level := organic_level data;
          rec_recyclable_level := recyclable_level data;
          rec_hazardous_level := hazardous_level data;
          rec_last_updated := timestamp;
          rec_status := status;
          rec_alerts := alerts |}]> bins).

Definition get_bin_status (bins : bins_t) (bin_id : str) : option BinRecord :=
  bins !! bin_id.

Definition get_all_bins (bins : bins_t) : bins_t := bins.

End WasteDatabase.

(** The database after a sequence of [store_bin_data] calls, each with
    the time it ran at. *)
Definition store_all (bins : gmap str BinRecord) (calls : list (Z * WasteBinData))
    : gmap str BinRecord :=
  fold_left (fun b c => snd (WasteDatabase.store_bin_data b (fst c) (snd c))) calls bins.

(* ================================================================== *)
(** ** [class NotificationManager] *)

(** The emoji that starts every notification.  Its characters lie
    outside the model's character range; the four octets it was written
    from stand for it. *)
Definition SIREN : str := [chr 240; chr 159; chr 154; chr 168].

Module NotificationManager.

Definition threshold : pyfloat := float_of_int 80.

Definition notification (data : WasteBinData) (c : Category) : str :=
  SIREN ++
  match c with
  | Organic => lit " ALERT: Bin " ++ bin_id data ++ lit " - Organic waste level is "
  | Recyclable => lit " ALERT: Bin " ++ bin_id data ++ lit " - Recyclable waste level is "
  | Hazardous =>
      lit " CRITICAL ALERT: Bin " ++ bin_id data ++ lit " - Hazardous waste level is "
  end ++ float_repr (level_of data c) ++ lit "% (exceeds " ++
  float_repr threshold ++ lit "%)".

Definition check_and_notify (data : WasteBinData) : list str :=
  let notifications := [] in
  let notifications :=
    if f_gt (organic_level data) threshold
    then notifications ++ [notification data Organic] else notifications in
  let notifications :=
    if f_gt (recyclable_level data) threshold
    then notifications ++ [notification data Recyclable] else notifications in
  let notifications :=
    if f_gt (hazardous_level data) threshold
    then notifications ++ [notification data Hazardous] else notifications in
  notifications.

End NotificationManager.
(* ================================================================== *)
(** ** Library functions on strings and bytes *)

Definition is_ascii (c : ascii) : bool := ord c <? 128.

(** [s.encode()]: UTF-8. *)
Definition utf8_encode (s : str) : bytes :=
  flat_map (fun c =>
    if ord c <? 128 then [c]
    else [chr (192 + ord c / 64); chr (128 + ord c mod 64)]) s.

(** A Python [str] in full is a sequence of code points, any of
    [0 .. 0x10FFFF]; a [text] gives a string by its code points.  The
    strings of the model are those whose code points are below 256. *)
Abbreviation text := (list Z).





(** [b.decode()]: UTF-8.  [None] when CPython raises
    [UnicodeDecodeError], and also when the text has a character outside
    the model's range. *)
Fixpoint utf8_decode (b : bytes) : option str :=
  match b with
  | [] => Some []
  | c :: rest =>
      if ord c <? 128 then option_map (cons c) (utf8_decode rest)
      else if (ord c =? 194) || (ord c =? 195) then
        match rest with
        | c2 :: rest' =>
            if (128 <=? ord c2) && (ord c2 <? 192)
            then option_map (cons (chr ((ord c - 192) * 64 + (ord c2 - 128))))
                            (utf8_decode rest')
            else None
        | [] => None
        end
      else None
  end.

Fixpoint drop_while (f : ascii -> bool) (s : str) : str :=
  match s with
  | [] => []
  | c :: rest => if f c then drop_while f rest else s
  end.

(** [s.rstrip(ch)] for a one-character argument. *)
Definition rstrip (ch : ascii) (s : str) : str :=
  rev (drop_while (Ascii.eqb ch) (rev s)).

(** [s.split(sep)] for a one-character separator. *)
Fixpoint split (sep : ascii) (s : str) : list str :=
  match s with
  | [] => [[]]
  | c :: rest =>
      if Ascii.eqb c sep then [] :: split sep rest
      else match split sep rest with
           | p :: ps => (c :: p) :: ps
           | [] => [[c]]
           end
  end.

(** [hmac.compare_digest(a, b)] on two [str]: [None] stands for the
    [TypeError] raised when either has a non-ASCII character. *)
Definition compare_digest (a b : str) : option bool :=
  if forallb is_ascii a && forallb is_ascii b
  then Some (bool_decide (a = b))
  else None.

(* ================================================================== *)
(** ** [base64.urlsafe_b64encode] and [base64.urlsafe_b64decode] *)

(** The URL-safe alphabet. *)
Definition b64_char (n : Z) : ascii :=
  if n <? 26 then chr (65 + n)
  else if n <? 52 then chr (71 + n)
  else if n <? 62 then chr (n - 4)
  else if n =? 62 then "-"%char
  else "_"%char.

Fixpoint urlsafe_b64encode (b : bytes) : bytes :=
  match b with
  | [] => []
  | [x] =>
      [b64_char (ord x / 4); b64_char (ord x mod 4 * 16); "="%char; "="%char]
  | [x; y] =>
      [b64_char (ord x / 4); b64_char (ord x mod 4 * 16 + ord y / 16);
       b64_char (ord y mod 16 * 4); "="%char]
  | x :: y :: z :: rest =>
      b64_char (ord x / 4) :: b64_char (ord x mod 4 * 16 + ord y / 16) ::
      b64_char (ord y mod 16 * 4 + ord z / 64) :: b64_char (ord z mod 64) ::
      urlsafe_b64encode rest
  end.

(** The value of a character of the alphabet.  [urlsafe_b64decode]
    first maps [-] to [+] and [_] to [/], so both spellings count. *)
Definition b64_value (c : ascii) : option Z :=
  let n := ord c in
  if (65 <=? n) && (n <=? 90) then Some (n - 65)
  else if (97 <=? n) && (n <=? 122) then Some (n - 71)
  else if (48 <=? n) && (n <=? 57) then Some (n + 4)
  else if (n =? 43) || (n =? 45) then Some 62
  else if (n =? 47) || (n =? 95) then Some 63
  else None.

(** [binascii.a2b_base64] in its default, lenient mode: characters
    outside the alphabet are skipped, a pad sequence that completes a
    quad ends the input, and a dangling quad raises.  [quad_pos],
    [leftchar] and [pads] are the variables of the C loop. *)
Fixpoint a2b_base64 (s : str) (quad_pos leftchar pads : Z) : option bytes :=
  match s with
  | [] => if quad_pos =? 0 then Some [] else None
  | c :: rest =>
      if Ascii.eqb c "="%char then
        if (2 <=? quad_pos) && (4 <=? quad_pos + (pads + 1)) then Some []
        else a2b_base64 rest quad_pos leftchar
               (if 2 <=? quad_pos then pads + 1 else pads)
      else
        match b64_value c with
        | None => a2b_base64 rest quad_pos leftchar pads
        | Some v =>
            if quad_pos =? 0 then a2b_base64 rest 1 v 0
            else if quad_pos =? 1 then
              option_map (cons (chr (leftchar * 4 + v / 16)))
                         (a2b_base64 rest 2 (v mod 16) 0)
            else if quad_pos =? 2 then
              option_map (cons (chr (leftchar * 16 + v / 4)))
                         (a2b_base64 rest 3 (v mod 4) 0)
            else
              option_map (cons (chr (leftchar * 64 + v)))
                         (a2b_base64 rest 0 0 0)
        end
  end.

(** [base64.urlsafe_b64decode(s)] for a [str] argument: [None] stands
    for the [ValueError] on a non-ASCII string and for [binascii.Error]. *)
Definition urlsafe_b64decode (s : str) : option bytes :=
  if forallb is_ascii s then a2b_base64 s 0 0 0 else None.
(* ================================================================== *)
(** ** [hmac.new(key, msg, hashlib.sha256).digest()] *)

Module SHA256.

(** 32-bit words are integers below [2 ^ 32]. *)
Definition w32 (x : Z) : Z := x mod 4294967296.

Definition rotr (n x : Z) : Z :=
  Z.lor (Z.shiftr x n) (w32 (Z.shiftl x (32 - n))).

Definition Ch (x y z : Z) : Z :=
  Z.lxor (Z.land x y) (Z.land (Z.lxor x 4294967295) z).

Definition Maj (x y z : Z) : Z :=
  Z.lxor (Z.lxor (Z.land x y) (Z.land x z)) (Z.land y z).

Definition Sigma0 (x : Z) : Z := Z.lxor (Z.lxor (rotr 2 x) (rotr 13 x)) (rotr 22 x).
Definition Sigma1 (x : Z) : Z := Z.lxor (Z.lxor (rotr 6 x) (rotr 11 x)) (rotr 25 x).
Definition sigma0 (x : Z) : Z := Z.lxor (Z.lxor (rotr 7 x) (rotr 18 x)) (Z.shiftr x 3).
Definition sigma1 (x : Z) : Z := Z.lxor (Z.lxor (rotr 17 x) (rotr 19 x)) (Z.shiftr x 10).

(** The constants of FIPS 180-4: the first 32 bits of the fractional
    parts of the cube roots of the first 64 primes, and of the square
    roots of the first 8 for the initial hash value. *)
Definition is_prime (n : nat) : bool :=
  forallb (fun d => negb (n mod d =? 0)%nat) (seq 2 (n - 2)).

Definition primes : list Z :=
  map Z.of_nat (List.filter is_prime (seq 2 310)).

(** The greatest [r] below [2 ^ 36] with [r ^ 3 <= n]. *)
Definition cube_root (n : Z) : Z :=
  fold_left (fun r b => let r' := r + 2 ^ Z.of_nat b in
                        if r' * r' * r' <=? n then r' else r)
            (rev (seq 0 36)) 0.

Definition K : list Z :=
  Eval vm_compute in map (fun p => w32 (cube_root (p * 2 ^ 96))) primes.

(** The eight working variables. *)
Record state := State { sa : Z; sb : Z; sc : Z; sd : Z; se : Z; sf : Z; sg : Z; sh : Z }.

Definition initial (i : nat) : Z :=
  w32 (Z.sqrt (nth i primes 0 * 2 ^ 64)).

Definition H0 : state :=
  Eval vm_compute in
    State (initial 0) (initial 1) (initial 2) (initial 3)
          (initial 4) (initial 5) (initial 6) (initial 7).

(** The big-endian words of a block. *)
Fixpoint words (b : bytes) : list Z :=
  match b with
  | x :: y :: z :: t :: rest =>
      (ord x * 16777216 + ord y * 65536 + ord z * 256 + ord t) :: words rest
  | _ => []
  end.

(** The message schedule: [w] holds the words so far, latest first. *)
Fixpoint schedule (n : nat) (w : list Z) : list Z :=
  match n with
  | O => rev w
  | S n' =>
      match w with
      | w1 :: w2 :: _ :: _ :: _ :: _ :: w7 :: _ :: _ :: _ :: _ :: _ :: _ :: _ :: w15 :: w16 :: _ =>
          schedule n' (w32 (sigma1 w2 + w7 + sigma0 w15 + w16) :: w)
      | _ => rev w
      end
  end.

Definition round (s : state) (kw : Z * Z) : state :=
  let t1 := sh s + Sigma1 (se s) + Ch (se s) (sf s) (sg s) + fst kw + snd kw in
  let t2 := Sigma0 (sa s) + Maj (sa s) (sb s) (sc s) in
  State (w32 (t1 + t2)) (sa s) (sb s) (sc s) (w32 (sd s + t1)) (se s) (sf s) (sg s).

Definition compress (h : state) (block : bytes) : state :=
  let w := schedule 48 (rev (words block)) in
  let s := fold_left round (combine K w) h in
  State (w32 (sa h + sa s)) (w32 (sb h + sb s)) (w32 (sc h + sc s))
        (w32 (sd h + sd s)) (w32 (se h + se s)) (w32 (sf h + sf s))
        (w32 (sg h + sg s)) (w32 (sh h + sh s)).

(** The big-endian bytes of the low [n] bytes of [x]. *)
Fixpoint be_bytes (n : nat) (x : Z) : bytes :=
  match n with
  | O => []
  | S n' => be_bytes n' (x / 256) ++ [chr (x mod 256)]
  end.

Definition pad (msg : bytes) : bytes :=
  let len := Z.of_nat (length msg) in
  msg ++ chr 128 :: repeat (chr 0) (Z.to_nat ((55 - len) mod 64))
      ++ be_bytes 8 (len * 8).

Fixpoint blocks (n : nat) (h : state) (b : bytes) : state :=
  match n with
  | O => h
  | S n' => blocks n' (compress h (firstn 64 b)) (skipn 64 b)
  end.

Definition sha256 (msg : bytes) : bytes :=
  let p := pad msg in
  let h := blocks (length p / 64) H0 p in
  be_bytes 4 (sa h) ++ be_bytes 4 (sb h) ++ be_bytes 4 (sc h) ++ be_bytes 4 (sd h) ++
  be_bytes 4 (se h) ++ be_bytes 4 (sf h) ++ be_bytes 4 (sg h) ++ be_bytes 4 (sh h).

End SHA256.

(** [hmac.new(key, msg, hashlib.sha256).digest()]. *)
Definition hmac_sha256 (key msg : bytes) : bytes :=
  let key := if (64 <? length key)%nat then SHA256.sha256 key else key in
  let key := key ++ repeat (chr 0) (64 - length key) in
  let ipad := map (fun c => chr (Z.lxor (ord c) 54)) key in
  let opad := map (fun c => chr (Z.lxor (ord c) 92)) key in
  SHA256.sha256 (opad ++ SHA256.sha256 (ipad ++ msg)).
(* ================================================================== *)
(** ** Python values and [json] *)

#[local] Set Warnings "-register-all".

(** The values a claims mapping is built from.  [PyObject] stands for a
    value [json.dumps] cannot serialise (a [datetime], a [set], ...).
    A [dict] keeps its keys in insertion order; its keys are strings. *)
Inductive pyval :=
| PyNone
| PyBool (b : bool)
| PyInt (n : Z)
| PyFloat (x : pyfloat)
| PyStr (s : str)
| PyList (l : list pyval)
| PyDict (d : list (str * pyval))
| PyObject.

(** [key in d] and [d.get(key)]. *)
Fixpoint dict_get (d : list (str * pyval)) (key : str) : option pyval :=
  match d with
  | [] => None
  | (k, v) :: rest => if bool_decide (k = key) then Some v else dict_get rest key
  end.

(** [d[key] = v]: an existing key keeps its place, a new one goes last. *)
Fixpoint dict_set (d : list (str * pyval)) (key : str) (v : pyval)
    : list (str * pyval) :=
  match d with
  | [] => [(key, v)]
  | (k, v0) :: rest =>
      if bool_decide (k = key) then (k, v) :: rest
      else (k, v0) :: dict_set rest key v
  end.

Definition QUOTE : ascii := chr 34.
Definition BACKSLASH : ascii := chr 92.

Definition hex_digit (n : Z) : ascii :=
  if n <? 10 then chr (48 + n) else chr (87 + n).

(** One character of a string, as [json.dumps] writes it with the
    default [ensure_ascii=True]. *)
Definition escape_char (c : ascii) : str :=
  let n := ord c in
  if n =? 34 then [BACKSLASH; QUOTE]
  else if n =? 92 then [BACKSLASH; BACKSLASH]
  else if n =? 10 then [BACKSLASH; "n"%char]
  else if n =? 13 then [BACKSLASH; "r"%char]
  else if n =? 9 then [BACKSLASH; "t"%char]
  else if n =? 8 then [BACKSLASH; "b"%char]
  else if n =? 12 then [BACKSLASH; "f"%char]
  else if (32 <=? n) && (n <=? 126) then [c]
  else [BACKSLASH; "u"%char; "0"%char; "0"%char; hex_digit (n / 16); hex_digit (n mod 16)].

Definition dumps_str (s : str) : str :=
  QUOTE :: flat_map escape_char s ++ [QUOTE].

(** The items of a list or of a dict, each written by [f], joined by
    the item separator. *)
Definition join_items {A : Type} (f : A -> option str) : list A -> option str :=
  fix items (l : list A) : option str :=
    match l with
    | [] => Some []
    | x :: rest =>
        match f x, items rest with
        | Some sx, Some sr =>
            Some (match rest with [] => sx | _ :: _ => sx ++ lit ", " ++ sr end)
        | _, _ => None
        end
    end.

(** [json.dumps(v)] with the default separators.  [None] stands for the
    [TypeError] on a value that is not serialisable. *)
Fixpoint json_dumps (v : pyval) : option str :=
  match v with
  | PyNone => Some (lit "null")
  | PyBool true => Some (lit "true")
  | PyBool false => Some (lit "false")
  | PyInt n => Some (int_repr n)
  | PyFloat x => Some (float_repr x)
  | PyStr s => Some (dumps_str s)
  | PyList l =>
      option_map (fun body => "["%char :: body ++ ["]"%char])
                 (join_items json_dumps l)
  | PyDict d =>
      option_map (fun body => "{"%char :: body ++ ["}"%char])
                 (join_items
                    (fun kv => option_map (fun sx => dumps_str (fst kv) ++ lit ": " ++ sx)
                                          (json_dumps (snd kv))) d)
  | PyObject => None
  end.

(** *** [json.loads] *)

Definition is_ws (c : ascii) : bool :=
  let n := ord c in (n =? 32) || (n =? 9) || (n =? 10) || (n =? 13).

Fixpoint skip_ws (s : str) : str :=
  match s with
  | [] => []
  | c :: rest => if is_ws c then skip_ws rest else s
  end.

Definition is_digit (c : ascii) : bool := (48 <=? ord c) && (ord c <=? 57).

(** The longest prefix of digits, and what follows it. *)
Fixpoint take_digits (s : str) : str * str :=
  match s with
  | [] => ([], [])
  | c :: rest =>
      if is_digit c
      then let (ds, r) := take_digits rest in (c :: ds, r)
      else ([], s)
  end.

(** The number a string of digits denotes. *)
Definition digits_value (ds : str) : Z :=
  fold_left (fun acc c => acc * 10 + (ord c - 48)) ds 0.

Definition hex_value (c : ascii) : option Z :=
  let n := ord c in
  if (48 <=? n) && (n <=? 57) then Some (n - 48)
  else if (97 <=? n) && (n <=? 102) then Some (n - 87)
  else if (65 <=? n) && (n <=? 70) then Some (n - 55)
  else None.

(** The character of a two-character escape. *)
Definition unescape (e : ascii) : option ascii :=
  let n := ord e in
  if n =? 34 then Some QUOTE
  else if n =? 92 then Some BACKSLASH
  else if n =? 47 then Some "/"%char
  else if n =? 98 then Some (chr 8)
  else if n =? 102 then Some (chr 12)
  else if n =? 110 then Some (chr 10)
  else if n =? 114 then Some (chr 13)
  else if n =? 116 then Some (chr 9)
  else None.

Definition cons_result (c : ascii) (r : option (str * str)) : option (str * str) :=
  match r with
  | Some (t, rest) => Some (c :: t, rest)
  | None => None
  end.

(** The body of a string literal, after its opening quote, and what
    follows its closing quote.  [None] when the decoder raises, and also
    for an escape that denotes a character outside the model's range. *)
Fixpoint scan_string (s : str) : option (str * str) :=
  match s with
  | [] => None
  | c :: rest =>
      if ord c =? 34 then Some ([], rest)
      else if ord c =? 92 then
        match rest with
        | [] => None
        | e :: rest1 =>
            if ord e =? 117 then
              match rest1 with
              | h1 :: h2 :: h3 :: h4 :: rest2 =>
                  match hex_value h1, hex_value h2, hex_value h3, hex_value h4 with
                  | Some a, Some b, Some c3, Some d =>
                      let code := ((a * 16 + b) * 16 + c3) * 16 + d in
                      if code <? 256 then cons_result (chr code) (scan_string rest2)
                      else None
                  | _, _, _, _ => None
                  end
              | _ => None
              end
            else
              match unescape e with
              | Some ch => cons_result ch (scan_string rest1)
              | None => None
              end
        end
      else if ord c <? 32 then None
      else cons_result c (scan_string rest)
  end.

(** The integer part of a number: [0], or a non-zero digit and more
    digits. *)
Definition scan_int (s : str) : option (str * str) :=
  match s with
  | [] => None
  | c :: rest =>
      if ord c =? 48 then Some ([c], rest)
      else if is_digit c then let (ds, r) := take_digits rest in Some (c :: ds, r)
      else None
  end.

(** An optional fraction: a point and at least one digit. *)
Definition scan_frac (s : str) : str * str :=
  match s with
  | c :: rest =>
      if ord c =? 46 then
        match take_digits rest with
        | ([], _) => ([], s)
        | (ds, r) => (ds, r)
        end
      else ([], s)
  | [] => ([], s)
  end.

(** An optional exponent: [e] or [E], an optional sign, and at least
    one digit. *)
Definition scan_exp (s : str) : option Z * str :=
  match s with
  | c :: rest =>
      if (ord c =? 101) || (ord c =? 69) then
        let (neg, rest1) :=
          match rest with
          | sg :: r => if ord sg =? 45 then (true, r)
                       else if ord sg =? 43 then (false, r) else (false, rest)
          | [] => (false, rest)
          end in
        match take_digits rest1 with
        | ([], _) => (None, s)
        | (ds, r) => (Some (if neg then - digits_value ds else digits_value ds), r)
        end
      else (None, s)
  | [] => (None, s)
  end.

(** The float [m * 10 ^ e]. *)
Definition make_float (m e : Z) : pyfloat :=
  if e <? 0 then PyF m (Z.to_pos (- e)) else PyF (m * 10 ^ (e + 1)) 1.

(** A number: an [int] when it has neither fraction nor exponent, a
    [float] otherwise. *)
Definition scan_number (s : str) : option (pyval * str) :=
  let (neg, s1) :=
    match s with
    | c :: rest => if ord c =? 45 then (true, rest) else (false, s)
    | [] => (false, s)
    end in
  match scan_int s1 with
  | None => None
  | Some (ip, s2) =>
      let (fp, s3) := scan_frac s2 in
      let (ex, s4) := scan_exp s3 in
      let m := digits_value (ip ++ fp) in
      let m := if neg then - m else m in
      match fp, ex with
      | [], None => Some (PyInt m, s4)
      | _, _ =>
          Some (PyFloat (make_float m (default 0 ex - Z.of_nat (length fp))), s4)
      end
  end.

(** [s] without the prefix [p], when it starts with it. *)
Fixpoint strip_prefix (p s : str) : option str :=
  match p, s with
  | [], _ => Some s
  | a :: p', b :: s' => if Ascii.eqb a b then strip_prefix p' s' else None
  | _ :: _, [] => None
  end.

(** [dict(pairs)]: a repeated key keeps its first place and its last
    value. *)
Definition dict_of_pairs (pairs : list (str * pyval)) : list (str * pyval) :=
  fold_left (fun d kv => dict_set d (fst kv) (snd kv)) pairs [].

(** The scanner of [json.loads]: a value at the head of [s], and what
    follows it.  [fuel] bounds the number of nested calls. *)
Fixpoint scan_once (fuel : nat) (s : str) : option (pyval * str) :=
  match fuel with
  | O => None
  | S f =>
      match s with
      | [] => None
      | c :: rest =>
          if ord c =? 34 then
            match scan_string rest with
            | Some (t, r) => Some (PyStr t, r)
            | None => None
            end
          else if ord c =? 123 then
            match skip_ws rest with
            | c1 :: r1 =>
                if ord c1 =? 125 then Some (PyDict [], r1)
                else match scan_members f (c1 :: r1) with
                     | Some (ms, r) => Some (PyDict (dict_of_pairs ms), r)
                     | None => None
                     end
            | [] => None
            end
          else if ord c =? 91 then
            match skip_ws rest with
            | c1 :: r1 =>
                if ord c1 =? 93 then Some (PyList [], r1)
                else match scan_elems f (c1 :: r1) with
                     | Some (vs, r) => Some (PyList vs, r)
                     | None => None
                     end
            | [] => None
            end
          else if ord c =? 110 then
            option_map (fun r => (PyNone, r)) (strip_prefix (lit "null") s)
          else if ord c =? 116 then
            option_map (fun r => (PyBool true, r)) (strip_prefix (lit "true") s)
          else if ord c =? 102 then
            option_map (fun r => (PyBool false, r)) (strip_prefix (lit "false") s)
          else scan_number s
      end
  end
with scan_elems (fuel : nat) (s : str) : option (list pyval * str) :=
  match fuel with
  | O => None
  | S f =>
      match scan_once f s with
      | None => None
      | Some (v, r) =>
          match skip_ws r with
          | c :: r1 =>
              if ord c =? 93 then Some ([v], r1)
              else if ord c =? 44 then
                match scan_elems f (skip_ws r1) with
                | Some (vs, r2) => Some (v :: vs, r2)
                | None => None
                end
              else None
          | [] => None
          end
      end
  end
with scan_members (fuel : nat) (s : str) : option (list (str * pyval) * str) :=
  match fuel with
  | O => None
  | S f =>
      match s with
      | q :: s1 =>
          if ord q =? 34 then
            match scan_string s1 with
            | None => None
            | Some (k, r) =>
                match skip_ws r with
                | c :: r1 =>
                    if ord c =? 58 then
                      match scan_once f (skip_ws r1) with
                      | None => None
                      | Some (v, r2) =>
                          match skip_ws r2 with
                          | c2 :: r3 =>
                              if ord c2 =? 125 then Some ([(k, v)], r3)
                              else if ord c2 =? 44 then
                                match scan_members f (skip_ws r3) with
                                | Some (ms, r4) => Some ((k, v) :: ms, r4)
                                | None => None
                                end
                              else None
                          | [] => None
                          end
                      end
                    else None
                | [] => None
                end
            end
          else None
      | [] => None
      end
  end.

(** [json.loads(s)].  [None] stands for [JSONDecodeError], and for a
    document the model has no value for (the constants [NaN] and
    [Infinity], characters outside its range). *)
Definition json_loads (s : str) : option pyval :=
  match scan_once (S (length s)) (skip_ws s) with
  | Some (v, r) =>
      match skip_ws r with
      | [] => Some v
      | _ :: _ => None
      end
  | None => None
  end.
(* ================================================================== *)
(** ** [class SimpleJWT] *)

(** Why [json.dumps], [hmac.compare_digest], [base64.urlsafe_b64decode],
    [bytes.decode], [json.loads] or an operation on the decoded payload
    raised. *)
Inductive library_error :=
| NotSerializable
| CompareDigestError
| Base64Error
| UnicodeError
| JSONError
| PayloadTypeError.

(** The reasons [SimpleJWT.decode] fails.  Every one of them reaches the
    caller as [ValueError(f"Token validation failed: {e}")]; the model
    keeps the exception [e]: the three the code raises itself, by their
    message, and those a library call raises. *)
Inductive decode_failure :=
| InvalidTokenFormat
| InvalidSignature
| TokenExpired
| Raised (e : library_error).

(** [needle in s] on strings. *)
Fixpoint is_infix (needle s : str) : bool :=
  match strip_prefix needle s with
  | Some _ => true
  | None => match s with [] => false | _ :: rest => is_infix needle rest end
  end.

(** ['exp' in payload]; [None] stands for the [TypeError] on a payload
    that is not a container. *)
Definition contains_exp (payload : pyval) : option bool :=
  match payload with
  | PyDict d => Some (bool_decide (is_Some (dict_get d (lit "exp"))))
  | PyList l =>
      Some (existsb (fun v => match v with
                              | PyStr s => bool_decide (s = lit "exp")
                              | _ => false
                              end) l)
  | PyStr s => Some (is_infix (lit "exp") s)
  | _ => None
  end.

(** [payload['exp']]. *)
Definition exp_item (payload : pyval) : option pyval :=
  match payload with
  | PyDict d => dict_get d (lit "exp")
  | _ => None
  end.

(** [v < time.time()]; [None] stands for the [TypeError] on a value that
    is not a number. *)
Definition lt_time (v : pyval) (now : pyfloat) : option bool :=
  match v with
  | PyInt n => Some (Qlt_bool (inject_Z n) (fval now))
  | PyFloat x => Some (f_lt x now)
  | PyBool b => Some (Qlt_bool (if b then 1 else 0) (fval now))
  | _ => None
  end.

Module SimpleJWT.

Definition header : pyval :=
  PyDict [(lit "alg", PyStr (lit "HS256")); (lit "typ", PyStr (lit "JWT"))].

(** [base64.urlsafe_b64encode(data).decode().rstrip('=')]. *)
Definition b64_segment (data : bytes) : option str :=
  option_map (rstrip "="%char) (utf8_decode (urlsafe_b64encode data)).

(** The signature segment of a message:
    [hmac.new(secret.encode(), message.encode(), hashlib.sha256).digest()],
    encoded. *)
Definition signature_of (secret message : str) : option str :=
  b64_segment (hmac_sha256 (utf8_encode secret) (utf8_encode message)).

(** [SimpleJWT.encode].  Whatever is raised in the [try] block is caught
    and the empty string returned. *)
Definition encode (payload : pyval) (secret : str) : str :=
  let result :=
    header_json ← json_dumps header;
    header_encoded ← b64_segment (utf8_encode header_json);
    payload_json ← json_dumps payload;
    payload_encoded ← b64_segment (utf8_encode payload_json);
    let message := header_encoded ++ "."%char :: payload_encoded in
    signature_encoded ← signature_of secret message;
    Some (message ++ "."%char :: signature_encoded) in
  default [] result.


(** The expiry check and the [return] of [decode]. *)
Definition check_expiration (payload : pyval) (now : pyfloat)
    : decode_failure + pyval :=
  match contains_exp payload with
  | None => inl (Raised PayloadTypeError)
  | Some false => inr payload
  | Some true =>
      match exp_item payload with
      | None => inl (Raised PayloadTypeError)
      | Some e =>
          match lt_time e now with
          | None => inl (Raised PayloadTypeError)
          | Some true => inl TokenExpired
          | Some false => inr payload
          end
      end
  end.

(** [SimpleJWT.decode], with [now] the value [time.time()] returns. *)
Definition decode (token secret : str) (now : pyfloat) : decode_failure + pyval :=
  match split "."%char token with
  | [header_encoded; payload_encoded; signature_encoded] =>
      let message := header_encoded ++ "."%char :: payload_encoded in
      match signature_of secret message with
      | None => inl (Raised UnicodeError)
      | Some expected_signature_encoded =>
          match compare_digest signature_encoded expected_signature_encoded with
          | None => inl (Raised CompareDigestError)
          | Some false => inl InvalidSignature
          | Some true =>
              match urlsafe_b64decode (payload_encoded ++ lit "==") with
              | None => inl (Raised Base64Error)
              | Some raw =>
                  match utf8_decode raw with
                  | None => inl (Raised UnicodeError)
                  | Some payload_json =>
                      match json_loads payload_json with
                      | None => inl (Raised JSONError)
                      | Some payload => check_expiration payload now
                      end
                  end
              end
          end
      end
  | _ => inl InvalidTokenFormat
  end.

End SimpleJWT.

(* ================================================================== *)
(** ** [class SecurityBearer] *)

(** What [__call__] does: it raises [HTTPException] with status 403 and
    a detail, or returns the credentials. *)
Inductive admission :=
| Forbidden (detail : str)
| Returned (credentials : str).

Module SecurityBearer.

(** [verify_jwt], with the module constant [SECRET_KEY] as a parameter.
    A payload that is not a [dict] has no [get]; the [AttributeError] is
    caught like every other exception. *)
Definition verify_jwt (SECRET_KEY token : str) (now : pyfloat) : bool :=
  match SimpleJWT.decode token SECRET_KEY now with
  | inr (PyDict d) =>
      match dict_get d (lit "sub") with
      | Some PyNone => false
      | Some _ => true
      | None => false
      end
  | inr _ => false
  | inl _ => false
  end.

(** [__call__], given what [HTTPBearer.__call__] returned: the scheme
    and the credentials of the [Authorization] header, or [None]. *)
Definition __call__ (SECRET_KEY : str) (credentials : option (str * str))
    (now : pyfloat) : admission :=
  match credentials with
  | Some (scheme, token) =>
      if negb (bool_decide (scheme = lit "Bearer")) then
        Forbidden (lit "Invalid authentication scheme. Bearer token required.")
      else if negb (verify_jwt SECRET_KEY token now) then
        Forbidden (lit "Invalid token or expired token.")
      else Returned token
  | None => Forbidden (lit "Invalid authorization code.")
  end.

End SecurityBearer.

(* ================================================================== *)
(** ** [create_access_token] and [/auth/token] *)

Definition ACCESS_TOKEN_EXPIRE_MINUTES : Z := 60.

(** [timedelta(minutes=m)], in microseconds. *)
Definition timedelta_minutes (m : Z) : Z := m * 60 * 1000000.

(** [dt.timestamp()] for a naive [datetime]: CPython reads it as local
    time.  [utcoffset] is what local time is ahead of UTC, in
    microseconds. *)
Definition timestamp (utcoffset : Z) (dt : Z) : pyfloat := PyF (dt - utcoffset) 6.

(** [create_access_token], with [utcnow] the value [datetime.utcnow()]
    returns.  A [timedelta] of zero is falsy, like [None]. *)
Definition create_access_token (SECRET_KEY : str) (utcoffset utcnow : Z)
    (data : list (str * pyval)) (expires_delta : option Z) : str :=
  let to_encode := data in
  let expire :=
    match expires_delta with
    | Some d =>
        if d =? 0 then utcnow + timedelta_minutes ACCESS_TOKEN_EXPIRE_MINUTES
        else utcnow + d
    | None => utcnow + timedelta_minutes ACCESS_TOKEN_EXPIRE_MINUTES
    end in
  let to_encode := dict_set to_encode (lit "exp") (PyFloat (timestamp utcoffset expire)) in
  SimpleJWT.encode (PyDict to_encode) SECRET_KEY.

(** The response of [POST /auth/token]. *)
Record token_response := {
  access_token : str;
  token_type : str;
  expires_in : Z
}.

Definition create_token (SECRET_KEY : str) (utcoffset utcnow : Z) : token_response :=
  let access_token_expires := timedelta_minutes ACCESS_TOKEN_EXPIRE_MINUTES in
  {| access_token :=
       create_access_token SECRET_KEY utcoffset utcnow
         [(lit "sub", PyStr (lit "test_user"))] (Some access_token_expires);
     token_type := lit "bearer";
     expires_in := ACCESS_TOKEN_EXPIRE_MINUTES * 60 |}.
(* ================================================================== *)
(** ** Vocabulary of the statements *)

(** The greatest of the three levels of a reading. *)
Definition max_of (d : WasteBinData) : Q :=
  Qmax (Qmax (fval (organic_level d)) (fval (recyclable_level d)))
       (fval (hazardous_level d)).

(** The reading whose three levels are all [x]. *)
Definition uniform (id : str) (x : pyfloat) : WasteBinData :=
  {| bin_id := id; organic_level := x; recyclable_level := x; hazardous_level := x |}.

#[global] Instance Category_eq_dec : EqDecision Category.
Proof. solve_decision. Defined.

(** The categories that get a stored alert, and those that get a
    notification. *)
Definition alert_categories (d : WasteBinData) : list Category :=
  List.filter (fun c => f_ge_int (level_of d c) 80) categories.

Definition notify_categories (d : WasteBinData) : list Category :=
  List.filter (fun c => f_gt (level_of d c) NotificationManager.threshold) categories.

(** The record [store_bin_data] derives from a reading at a time. *)
Definition derived_record (timestamp : Z) (d : WasteBinData) : BinRecord :=
  {| rec_bin_id := bin_id d;
     rec_organic_level := organic_level d;
     rec_recyclable_level := recyclable_level d;
     rec_hazardous_level := hazardous_level d;
     rec_last_updated := timestamp;
     rec_status := WasteDatabase._calculate_bin_status d;
     rec_alerts := WasteDatabase._generate_alerts d |}.

(** The identifiers of a sequence of [store_bin_data] calls. *)
Definition stored_ids (calls : list (Z * WasteBinData)) : list str :=
  map (fun c => bin_id (snd c)) calls.

(** The request times [self.requests] holds for an identifier. *)
Definition recorded (requests : gmap str (list pyfloat)) (identifier : str)
    : list pyfloat :=
  default [] (requests !! identifier).

(** The characters of the URL-safe alphabet. *)
Definition is_b64url_char (c : ascii) : bool :=
  let n := ord c in
  ((65 <=? n) && (n <=? 90)) || ((97 <=? n) && (n <=? 122)) ||
  ((48 <=? n) && (n <=? 57)) || (n =? 45) || (n =? 95).

(** [urlsafe_b64encode] without its padding, and the padding. *)
Fixpoint b64_body (b : bytes) : str :=
  match b with
  | [] => []
  | [x] => [b64_char (ord x / 4); b64_char (ord x mod 4 * 16)]
  | [x; y] =>
      [b64_char (ord x / 4); b64_char (ord x mod 4 * 16 + ord y / 16);
       b64_char (ord y mod 16 * 4)]
  | x :: y :: z :: rest =>
      b64_char (ord x / 4) :: b64_char (ord x mod 4 * 16 + ord y / 16) ::
      b64_char (ord y mod 16 * 4 + ord z / 64) :: b64_char (ord z mod 64) ::
      b64_body rest
  end.

Fixpoint b64_padding (b : bytes) : str :=
  match b with
  | [] => []
  | [_] => ["="%char; "="%char]
  | [_; _] => ["="%char]
  | _ :: _ :: _ :: rest => b64_padding rest
  end.

(** A bound on the nested calls the scanner needs for a value. *)
Fixpoint weight (v : pyval) : nat :=
  match v with
  | PyList l => S (list_sum (map (fun x => S (weight x)) l))
  | PyDict d => S (list_sum (map (fun kv => S (weight (snd kv))) d))
  | _ => 1
  end.

(** The values Python can hold: no [dict] has a key twice. *)
Fixpoint well_formed (v : pyval) : bool :=
  match v with
  | PyList l => forallb well_formed l
  | PyDict d =>
      bool_decide (NoDup (map fst d)) && forallb (fun kv => well_formed (snd kv)) d
  | _ => true
  end.

(** One step of reading a numeral. *)
Definition digit_step (acc : Z) (c : ascii) : Z := acc * 10 + (ord c - 48).

(** What may follow a number: nothing that could continue it. *)
Definition ends_number (rest : str) : Prop :=
  match rest with
  | [] => True
  | c :: _ => is_digit c = false /\ ord c <> 46 /\ ord c <> 101 /\ ord c <> 69
  end.

(** The integer part of a numeral: digits that start with [0] only when
    they are [0]. *)
Definition int_part (ip : str) : Prop :=
  forallb is_digit ip = true /\
  exists c t, ip = c :: t /\ (ord c = 48 -> t = []).

(** How a serialised value starts: not with white space, not with a
    closing bracket. *)
Definition starts_value (s : str) : Prop :=
  exists c t, s = c :: t /\ is_ws c = false /\ ord c <> 93 /\ ord c <> 125.

(** A value reads back: the scanner, given the text [json.dumps] wrote
    for it and enough fuel, returns the value and what follows it. *)
Definition reads_back (v : pyval) : Prop :=
  forall s, json_dumps v = Some s -> well_formed v = true ->
  forall fuel rest, (weight v <= fuel)%nat -> ends_number rest ->
  scan_once fuel (s ++ rest) = Some (v, rest).

(** How [json.dumps] writes a member of a dict. *)
Definition dumps_member (kv : str * pyval) : option str :=
  option_map (fun sx => dumps_str (fst kv) ++ lit ": " ++ sx) (json_dumps (snd kv)).

(** The segments of the token [SimpleJWT.encode] builds from the JSON
    text of a payload. *)
Definition header_segment : str :=
  b64_body (utf8_encode (default [] (json_dumps SimpleJWT.header))).

Definition payload_segment (payload_json : str) : str :=
  b64_body (utf8_encode payload_json).

Definition signing_input (payload_json : str) : str :=
  header_segment ++ "."%char :: payload_segment payload_json.

Definition signature_segment (secret message : str) : str :=
  b64_body (hmac_sha256 (utf8_encode secret) (utf8_encode message)).

Definition token_of (payload_json secret : str) : str :=
  signing_input payload_json ++
  "."%char :: signature_segment secret (signing_input payload_json).

(** A token with the signature segment [sig] in place of its own. *)
Definition with_signature (payload_json sig : str) : str :=
  signing_input payload_json ++ "."%char :: sig.

(** The number a value is compared as, when it is one. *)
Definition number_value (v : pyval) : option Q :=
  match v with
  | PyInt n => Some (inject_Z n)
  | PyFloat x => Some (fval x)
  | PyBool b => Some (if b then 1%Q else 0%Q)
  | _ => None
  end.

(** When a token issued at [utcnow] expires, as a naive [datetime]. *)
Definition expire_at (utcnow : Z) (expires_delta : option Z) : Z :=
  match expires_delta with
  | Some d =>
      if d =? 0 then utcnow + timedelta_minutes ACCESS_TOKEN_EXPIRE_MINUTES
      else utcnow + d
  | None => utcnow + timedelta_minutes ACCESS_TOKEN_EXPIRE_MINUTES
  end.

(** The payload [create_access_token] signs: the claims and [exp]. *)
Definition issued_payload (utcoffset utcnow : Z) (data : list (str * pyval))
    (expires_delta : option Z) : pyval :=
  PyDict (dict_set data (lit "exp")
            (PyFloat (timestamp utcoffset (expire_at utcnow expires_delta)))).

(** [time.time()] at the instant [datetime.utcnow()] returns [utcnow]. *)
Definition time_of (utcnow : Z) : pyfloat := PyF utcnow 6.


(* ================================================================== *)
(** ** Sample inputs *)

(** The reading of the end-to-end example: organic 85, the others 10. *)
Definition reading_85 : WasteBinData :=
  {| bin_id := lit "BIN-001";
     organic_level := PyF 850 1;
     recyclable_level := PyF 100 1;
     hazardous_level := PyF 100 1 |}.

(** The same bin with its organic level raised to 95. *)
Definition reading_95 : WasteBinData :=
  {| bin_id := lit "BIN-001";
     organic_level := PyF 950 1;
     recyclable_level := PyF 100 1;
     hazardous_level := PyF 100 1 |}.

(** A bin whose recyclable level is exactly 80. *)
Definition reading_80 : WasteBinData :=
  {| bin_id := lit "BIN-002";
     organic_level := PyF 125 1;
     recyclable_level := PyF 8000 2;
     hazardous_level := PyF 9001 2 |}.

(** The default of [SECRET_KEY]. *)
Definition DEFAULT_SECRET_KEY : str := lit "your-super-secret-key-change-in-production".

(** The claims [/auth/token] issues a token for. *)
Definition test_claims : list (str * pyval) := [(lit "sub", PyStr (lit "test_user"))].

(** A payload that expires at 1757745000 (2025-09-13 06:30:00 UTC), that
    instant, and one tenth of a second before and after it. *)
Definition payload_0 : pyval :=
  PyDict [(lit "sub", PyStr (lit "test_user")); (lit "exp", PyFloat (PyF 17577450000 1))].
Definition instant_0 : pyfloat := PyF 17577450000 1.
Definition instant_before : pyfloat := PyF 17577449999 1.
Definition instant_after : pyfloat := PyF 17577450001 1.

(** A correctly formed payload without a subject. *)
Definition payload_no_sub : pyval :=
  PyDict [(lit "role", PyStr (lit "admin")); (lit "exp", PyFloat (PyF 17577450000 1))].

(** India Standard Time is five and a half hours ahead of UTC. *)
Definition IST : Z := 19800 * 1000000.

(** 2025-09-13 06:30:00 UTC as [datetime.utcnow()] returns it. *)
Definition utcnow_0 : Z := 1757745000 * 1000000.


(* ================================================================== *)
(** ** Responses and errors of the HTTP layer *)

(** [raise HTTPException(status_code=..., detail=...)]. *)
Module HTTPException.
Record t := { status_code : Z; detail : str }.
End HTTPException.

(** [JSONResponse(status_code=..., content=...)]. *)
Module JSONResponse.
Record t := { status_code : Z; content : pyval }.
End JSONResponse.

(** [class APIResponse(BaseModel)]. *)
Module APIResponse.
Record t := { success : bool; message : str; data : option pyval; timestamp : Z }.
End APIResponse.

(** [class BinStatus(BaseModel)]. *)
Module BinStatus.
Record t := {
  bin_id : str;
  organic_level : pyfloat;
  recyclable_level : pyfloat;
  hazardous_level : pyfloat;
  last_updated : Z;
  status : str;
  alerts : list str
}.
End BinStatus.

(* ================================================================== *)
(** ** [datetime.isoformat] *)

Definition _DAYS_IN_MONTH : list Z :=
  [-1; 31; 28; 31; 30; 31; 30; 31; 31; 30; 31; 30; 31].

Definition _DAYS_BEFORE_MONTH : list Z :=
  [-1; 0; 31; 59; 90; 120; 151; 181; 212; 243; 273; 304; 334].

(** The year, month and day of a proleptic Gregorian ordinal, where
    day 1 is 0001-01-01: CPython's [_ord2ymd]. *)
Definition _ord2ymd (n : Z) : Z * Z * Z :=
  let n := n - 1 in
  let n400 := n / 146097 in
  let n := n mod 146097 in
  let year := n400 * 400 + 1 in
  let n100 := n / 36524 in
  let n := n mod 36524 in
  let n4 := n / 1461 in
  let n := n mod 1461 in
  let n1 := n / 365 in
  let n := n mod 365 in
  let year := year + n100 * 100 + n4 * 4 + n1 in
  if (n1 =? 4) || (n100 =? 4) then (year - 1, 12, 31)
  else
    let leapyear := (n1 =? 3) && (negb (n4 =? 24) || (n100 =? 3)) in
    let month := (n + 50) / 32 in
    let preceding :=
      nth (Z.to_nat month) _DAYS_BEFORE_MONTH 0 +
      (if (2 <? month) && leapyear then 1 else 0) in
    if n <? preceding then
      let month := month - 1 in
      let preceding :=
        preceding - (nth (Z.to_nat month) _DAYS_IN_MONTH 0 +
                     (if (month =? 2) && leapyear then 1 else 0)) in
      (year, month, n - preceding + 1)
    else (year, month, n - preceding + 1).

(** ["%0{width}d" % n] for [n >= 0]. *)
Definition zero_padded (width : nat) (n : Z) : str :=
  let ds := digits_of n in
  repeat "0"%char (width - length ds) ++ ds.

(** [dt.isoformat()] for a naive [datetime], given as the microseconds
    since 1970-01-01T00:00:00 on its own clock. *)
Definition isoformat (dt : Z) : str :=
  let days := dt / 86400000000 in
  let rest := dt mod 86400000000 in
  let '(year, month, day) := _ord2ymd (days + 719163) in
  let hour := rest / 3600000000 in
  let minute := rest mod 3600000000 / 60000000 in
  let second := rest mod 60000000 / 1000000 in
  let microsecond := rest mod 1000000 in
  zero_padded 4 year ++ "-"%char :: zero_padded 2 month ++ "-"%char ::
  zero_padded 2 day ++ "T"%char :: zero_padded 2 hour ++ ":"%char ::
  zero_padded 2 minute ++ ":"%char :: zero_padded 2 second ++
  (if microsecond =? 0 then [] else "."%char :: zero_padded 6 microsecond).

(* ================================================================== *)
(** ** [logging_and_rate_limit_middleware] *)

(** What the middleware returns: its own 429 response, or the response
    [call_next] produced. *)
Inductive served (Response : Type) :=
| Limited (response : JSONResponse.t)
| Passed (response : Response).
Arguments Limited {Response} response.
Arguments Passed {Response} response.

(** The middleware, with [now] the value [time.time()] returns inside
    [is_allowed] and [client] the host of [request.client], when there
    is one.  The rest of the application is [call_next], which runs on
    the application's state [app]; the rate limiter is the module-level
    [rate_limiter], which no handler touches.  [start_time] and
    [process_time] only reach the log. *)
Definition logging_and_rate_limit_middleware {App Response : Type}
    (requests : RateLimiter.requests_t) (app : App) (now : pyfloat)
    (client : option str) (call_next : App -> Response * App)
    : served Response * RateLimiter.requests_t * App :=
  let client_ip := match client with Some host => host | None => lit "unknown" end in
  let '(allowed, requests) :=
    RateLimiter.is_allowed requests now client_ip
      RATE_LIMIT_REQUESTS RATE_LIMIT_WINDOW in
  if negb allowed then
    let response :=
      {| JSONResponse.status_code := 429;
         JSONResponse.content :=
           PyDict [(lit "detail",
                    PyStr (lit "Rate limit exceeded. Please try again later."))] |} in
    (Limited response, requests, app)
  else
    let '(response, app) := call_next app in
    (Passed response, requests, app).

(* ================================================================== *)
(** ** [POST /data], [GET /status/{bin_id}] and [GET /status] *)

(** [notification_manager.check_and_notify(bin_data)] as the call it
    is inside a handler: every message is written with [print] before
    it is kept, and [print] raises when standard output does not take
    the message (it cannot encode it, or it is closed).  [stdout] tells
    which messages standard output takes; [None] stands for the
    exception.  The messages are those of
    [NotificationManager.check_and_notify], in its order. *)
Definition check_and_notify_printing (stdout : str -> bool) (data : WasteBinData)
    : option (list str) :=
  let notifications := NotificationManager.check_and_notify data in
  if forallb stdout notifications then Some notifications else None.

(** [receive_iot_data], with [stored_at] and [responded_at] the two
    values [datetime.now()] returns, in [store_bin_data] and for the
    response, and [stdout] what standard output takes.  A stored record
    is a [dict] with seven keys, so it is truthy.  The exception of
    [print] is caught by [except Exception] and answered with a 500,
    after the reading has been stored; nothing else in the [try] block
    raises but the two [HTTPException]s, which are raised again. *)
Definition receive_iot_data_on (stdout : str -> bool) (bins : WasteDatabase.bins_t)
    (stored_at responded_at : Z) (bin_data : WasteBinData)
    : (HTTPException.t + APIResponse.t) * WasteDatabase.bins_t :=
  let '(stored, bins) := WasteDatabase.store_bin_data bins stored_at bin_data in
  if negb stored then
    (inl {| HTTPException.status_code := 500;
            HTTPException.detail := lit "Failed to store bin data" |}, bins)
  else
    match check_and_notify_printing stdout bin_data with
    | None =>
        (inl {| HTTPException.status_code := 500;
                HTTPException.detail :=
                  lit "Internal server error while processing data" |}, bins)
    | Some notifications =>
        match WasteDatabase.get_bin_status bins (bin_id bin_data) with
        | None =>
            (inl {| HTTPException.status_code := 500;
                    HTTPException.detail :=
                      lit "Failed to retrieve bin status after storing data for bin "
                      ++ bin_id bin_data |}, bins)
        | Some current_status =>
            let response_data :=
              PyDict [(lit "bin_id", PyStr (bin_id bin_data));
                      (lit "status", PyStr (status_name (rec_status current_status)));
                      (lit "notifications_sent",
                       PyInt (Z.of_nat (length notifications)));
                      (lit "alerts", PyList (map PyStr notifications));
                      (lit "received_at",
                       PyStr (isoformat (rec_last_updated current_status)))] in
            (inr {| APIResponse.success := true;
                    APIResponse.message :=
                      lit "Data received and processed successfully for bin "
                      ++ bin_id bin_data;
                    APIResponse.data := Some response_data;
                    APIResponse.timestamp := responded_at |}, bins)
        end
    end.

(** [receive_iot_data] where standard output takes every message. *)
Definition receive_iot_data (bins : WasteDatabase.bins_t) (stored_at responded_at : Z)
    (bin_data : WasteBinData)
    : (HTTPException.t + APIResponse.t) * WasteDatabase.bins_t :=
  receive_iot_data_on (fun _ => true) bins stored_at responded_at bin_data.

(** The [BinStatus] model built from the keys of a stored record. *)
Definition BinStatus_of (bin_status : BinRecord) : BinStatus.t :=
  {| BinStatus.bin_id := rec_bin_id bin_status;
     BinStatus.organic_level := rec_organic_level bin_status;
     BinStatus.recyclable_level := rec_recyclable_level bin_status;
     BinStatus.hazardous_level := rec_hazardous_level bin_status;
     BinStatus.last_updated := rec_last_updated bin_status;
     BinStatus.status := status_name (rec_status bin_status);
     BinStatus.alerts := rec_alerts bin_status |}.

(** The endpoint [get_bin_status] of [GET /status/{bin_id}]. *)
Definition get_bin_status (bins : WasteDatabase.bins_t) (id : str)
    : HTTPException.t + BinStatus.t :=
  match WasteDatabase.get_bin_status bins id with
  | None =>
      inl {| HTTPException.status_code := 404;
             HTTPException.detail := lit "Bin with ID '" ++ id ++ lit "' not found" |}
  | Some bin_status => inr (BinStatus_of bin_status)
  end.

(** [status_summary[key] += 1]; [None] stands for the [KeyError]. *)
Fixpoint increment (status_summary : list (str * Z)) (key : str)
    : option (list (str * Z)) :=
  match status_summary with
  | [] => None
  | (k, n) :: rest =>
      if bool_decide (k = key) then Some ((k, n + 1) :: rest)
      else option_map (cons (k, n)) (increment rest key)
  end.

(** The loop of [get_all_bins_status] over [all_bins.values()]. *)
Fixpoint summarise (values : list BinRecord) (status_summary : list (str * Z))
    (bins_with_alerts : list str) : option (list (str * Z) * list str) :=
  match values with
  | [] => Some (status_summary, bins_with_alerts)
  | bin_data :: rest =>
      status_summary ← increment status_summary (status_name (rec_status bin_data));
      let bins_with_alerts :=
        match rec_alerts bin_data with
        | [] => bins_with_alerts
        | _ :: _ => bins_with_alerts ++ [rec_bin_id bin_data]
        end in
      summarise rest status_summary bins_with_alerts
  end.

(** The two dictionaries [get_all_bins_status] returns. *)
Inductive bins_overview :=
| NoBins (message : str) (total_bins : Z) (bins : list BinRecord)
| Overview (total_bins : Z) (status_summary : list (str * Z))
    (bins_with_alerts : list str) (bins : list BinRecord) (last_updated : Z).

(** [get_all_bins_status].  A Python [dict] is iterated in the order its
    keys were first inserted; [all_bins] is [database.get_all_bins()] as
    the sequence of its items in that order, and [now] the value
    [datetime.now()] returns. *)
Definition get_all_bins_status (all_bins : list (str * BinRecord)) (now : Z)
    : HTTPException.t + bins_overview :=
  match all_bins with
  | [] => inr (NoBins (lit "No bins currently monitored") 0 [])
  | _ :: _ =>
      let status_summary :=
        [(lit "LOW", 0); (lit "MEDIUM", 0); (lit "HIGH", 0); (lit "CRITICAL", 0)] in
      match summarise (map snd all_bins) status_summary [] with
      | Some (status_summary, bins_with_alerts) =>
          inr (Overview (Z.of_nat (length all_bins)) status_summary
                        bins_with_alerts (map snd all_bins) now)
      | None =>
          inl {| HTTPException.status_code := 500;
                 HTTPException.detail :=
                   lit "Internal server error while retrieving bins status" |}
      end
  end.

(* ================================================================== *)
(** ** Vocabulary of the further statements *)

(** The limiter after a sequence of [is_allowed] calls with one limit
    and one window, each call with the time it ran at and its
    identifier. *)
Definition limiter_after (limit window : Z) (requests : gmap str (list pyfloat))
    (calls : list (pyfloat * str)) : gmap str (list pyfloat) :=
  fold_left (fun r c => snd (RateLimiter.is_allowed r (fst c) (snd c) limit window))
            calls requests.

(** The 429 response of the middleware. *)
Definition too_many_requests : JSONResponse.t :=
  {| JSONResponse.status_code := 429;
     JSONResponse.content :=
       PyDict [(lit "detail",
                PyStr (lit "Rate limit exceeded. Please try again later."))] |}.

(** The requests of one client through the middleware, one after the
    other: each with the time it is checked at and the handler behind
    the middleware. *)
Fixpoint serve_all {App Response : Type} (requests : gmap str (list pyfloat))
    (app : App) (client : option str)
    (incoming : list (pyfloat * (App -> Response * App)))
    : list (served Response) * gmap str (list pyfloat) * App :=
  match incoming with
  | [] => ([], requests, app)
  | (now, call_next) :: rest =>
      let '(r, requests, app) :=
        logging_and_rate_limit_middleware requests app now client call_next in
      let '(rs, requests, app) := serve_all requests app client rest in
      (r :: rs, requests, app)
  end.

(** A burst of [n] requests, a tenth of a second apart, whose handlers
    count the requests that reached them. *)
Definition burst (n : nat) : list (pyfloat * (nat -> nat * nat)) :=
  map (fun i => (PyF (Z.of_nat i) 1, fun seen : nat => (seen, S seen))) (seq 0 n).

(** A standard output that takes ASCII text only. *)
Definition ascii_stdout (message : str) : bool := forallb is_ascii message.

(** The handlers alone, one after the other. *)
Fixpoint run_handlers {App Response : Type} (app : App)
    (handlers : list (App -> Response * App)) : list Response * App :=
  match handlers with
  | [] => ([], app)
  | call_next :: rest =>
      let '(r, app) := call_next app in
      let '(rs, app) := run_handlers app rest in
      (r :: rs, app)
  end.

(** The reading a stored record was derived from. *)
Definition reading_of (r : BinRecord) : WasteBinData :=
  {| bin_id := rec_bin_id r;
     organic_level := rec_organic_level r;
     recyclable_level := rec_recyclable_level r;
     hazardous_level := rec_hazardous_level r |}.

#[global] Instance Status_eq_dec : EqDecision Status.
Proof. solve_decision. Defined.

(** How many of the records have a status. *)
Definition count_status (s : Status) (values : list BinRecord) : Z :=
  Z.of_nat (length (List.filter (fun r => bool_decide (rec_status r = s)) values)).

(** The identifiers of the records that carry an alert, in order. *)
Definition alerted (values : list BinRecord) : list str :=
  map rec_bin_id
      (List.filter (fun r => match rec_alerts r with [] => false | _ :: _ => true end)
                   values).

(** [response.data[key]] of what [receive_iot_data] returned. *)
Definition response_field (r : HTTPException.t + APIResponse.t) (key : str)
    : option pyval :=
  match r with
  | inr {| APIResponse.data := Some (PyDict d) |} => dict_get d key
  | _ => None
  end.

(** [sep.join(parts)] for a one-character separator. *)
Fixpoint join (sep : ascii) (parts : list str) : str :=
  match parts with
  | [] => []
  | [p] => p
  | p :: rest => p ++ sep :: join sep rest
  end.

(** A token with the header segment [h] and the payload segment of a
    JSON text, signed with a secret. *)
Definition token_with_header (h payload_json secret : str) : str :=
  let message := h ++ "."%char :: payload_segment payload_json in
  message ++ "."%char :: signature_segment secret message.

(** A claims mapping with a value [json.dumps] refuses. *)
Definition claims_with_object : list (str * pyval) :=
  [(lit "sub", PyStr (lit "test_user")); (lit "issued", PyObject)].

(** A payload whose [exp] is not a number. *)
Definition payload_text_exp : pyval :=
  PyDict [(lit "sub", PyStr (lit "test_user")); (lit "exp", PyStr (lit "tomorrow"))].

(** A payload with no [exp]. *)
Definition payload_no_exp : pyval :=
  PyDict [(lit "sub", PyStr (lit "test_user"))].

(* ================================================================== *)
(** * Properties *)

(** ** Comparisons *)

Lemma Qlt_bool_iff (a b : Q) : Qlt_bool a b = true <-> (a < b)%Q.
Proof.
  unfold Qlt_bool. rewrite negb_true_iff.
  destruct (Qle_bool b a) eqn:E.
  - apply Qle_bool_iff in E. split; [discriminate | intros H; lra].
  - split; [intros _ | reflexivity].
    destruct (Qlt_le_dec a b) as [H | H]; [exact H |].
    apply Qle_bool_iff in H. congruence.
Qed.

Lemma Qlt_bool_false (a b : Q) : Qlt_bool a b = false <-> (b <= a)%Q.
Proof.
  unfold Qlt_bool. rewrite negb_false_iff. apply Qle_bool_iff.
Qed.

Lemma f_ge_int_iff (x : pyfloat) (n : Z) :
  f_ge_int x n = true <-> (inject_Z n <= fval x)%Q.
Proof. apply Qle_bool_iff. Qed.

Lemma f_ge_int_false (x : pyfloat) (n : Z) :
  f_ge_int x n = false <-> (fval x < inject_Z n)%Q.
Proof.
  unfold f_ge_int. destruct (Qle_bool (inject_Z n) (fval x)) eqn:E.
  - apply Qle_bool_iff in E. split; [discriminate | intros H; lra].
  - split; [intros _ | reflexivity].
    destruct (Qlt_le_dec (fval x) (inject_Z n)) as [H | H]; [exact H |].
    apply Qle_bool_iff in H. congruence.
Qed.

Lemma f_gt_iff (x y : pyfloat) : f_gt x y = true <-> (fval y < fval x)%Q.
Proof. apply Qlt_bool_iff. Qed.

Lemma f_gt_false (x y : pyfloat) : f_gt x y = false <-> (fval x <= fval y)%Q.
Proof. apply Qlt_bool_false. Qed.

(** Case analysis on the comparisons of a goal, leaving their meaning
    on rationals in the context. *)
Ltac cmp_cases :=
  repeat match goal with
  | |- context [f_ge_int ?x ?n] =>
      let E := fresh "E" in
      destruct (f_ge_int x n) eqn:E;
      [apply f_ge_int_iff in E | apply f_ge_int_false in E]
  | |- context [f_gt ?x ?y] =>
      let E := fresh "E" in
      destruct (f_gt x y) eqn:E;
      [apply f_gt_iff in E | apply f_gt_false in E]
  end.

(** ** [_calculate_bin_status] *)

(** [max] returns the greatest of its arguments. *)
Lemma py_max3_max (a b c : pyfloat) :
  (fval (py_max3 a b c) == Qmax (Qmax (fval a) (fval b)) (fval c))%Q.
Proof.
  unfold py_max3.
  pose proof (Q.max_spec (fval a) (fval b)) as H1.
  pose proof (Q.max_spec (Qmax (fval a) (fval b)) (fval c)) as H2.
  destruct (f_gt b a) eqn:E1;
    [apply f_gt_iff in E1 | apply f_gt_false in E1]; cmp_cases; lra.
Qed.

Lemma status_of_max (d : WasteBinData) :
  let s := WasteDatabase._calculate_bin_status d in
  (s = CRITICAL <-> 90 <= max_of d)%Q /\
  (s = HIGH <-> 80 <= max_of d /\ max_of d < 90)%Q /\
  (s = MEDIUM <-> 60 <= max_of d /\ max_of d < 80)%Q /\
  (s = LOW <-> max_of d < 60)%Q.
Proof.
  unfold WasteDatabase._calculate_bin_status, max_of.
  pose proof (py_max3_max (organic_level d) (recyclable_level d) (hazardous_level d)) as Hm.
  set (m := py_max3 _ _ _) in *. cbv zeta.
  cmp_cases; change (inject_Z 90) with 90%Q in *;
    change (inject_Z 80) with 80%Q in *; change (inject_Z 60) with 60%Q in *;
    repeat split; intros; try discriminate; try lra.
Qed.

Lemma uniform_max (id : str) (x : pyfloat) : (max_of (uniform id x) == fval x)%Q.
Proof.
  unfold max_of, uniform; simpl.
  pose proof (Q.max_spec (fval x) (fval x)) as H1.
  pose proof (Q.max_spec (Qmax (fval x) (fval x)) (fval x)) as H2. lra.
Qed.

(** C2.  For a reading whose levels lie in [0,100] the status is CRITICAL
    exactly when the greatest level is at least 90, HIGH exactly when it
    is at least 80 and below 90, MEDIUM exactly when it is at least 60
    and below 80, LOW exactly when it is below 60; three equal levels
    give LOW at 59.9, MEDIUM at 60 and 79.9, HIGH at 80 and 89.9 and
    CRITICAL at 90. *)
Theorem calculate_bin_status_bands (d : WasteBinData) :
  valid_reading d ->
  let s := WasteDatabase._calculate_bin_status d in
  ((s = CRITICAL <-> 90 <= max_of d) /\
   (s = HIGH <-> 80 <= max_of d /\ max_of d < 90) /\
   (s = MEDIUM <-> 60 <= max_of d /\ max_of d < 80) /\
   (s = LOW <-> max_of d < 60))%Q /\
  forall (id : str) (x : pyfloat),
    let c := WasteDatabase._calculate_bin_status (uniform id x) in
    ((fval x == 59.9 -> c = LOW) /\
     (fval x == 60 -> c = MEDIUM) /\
     (fval x == 79.9 -> c = MEDIUM) /\
     (fval x == 80 -> c = HIGH) /\
     (fval x == 89.9 -> c = HIGH) /\
     (fval x == 90 -> c = CRITICAL))%Q.
Proof.
  intros _. split; [apply status_of_max |].
  intros id x c.
  destruct (status_of_max (uniform id x)) as (Hc & Hh & Hm & Hl).
  fold c in Hc, Hh, Hm, Hl.
  pose proof (uniform_max id x) as Hx.
  repeat split; intros E;
    first [apply Hl | apply Hm | apply Hh | apply Hc]; lra.
Qed.

(** The status never decreases when no level decreases. *)
Lemma status_monotone (d d' : WasteBinData) :
  (forall c, fval (level_of d c) <= fval (level_of d' c))%Q ->
  (band (WasteDatabase._calculate_bin_status d)
   <= band (WasteDatabase._calculate_bin_status d'))%nat.
Proof.
  intros H.
  pose proof (H Organic) as Ho. pose proof (H Recyclable) as Hr.
  pose proof (H Hazardous) as Hh. simpl in Ho, Hr, Hh.
  assert (Hmax : (max_of d <= max_of d')%Q).
  { unfold max_of.
    pose proof (Q.max_spec (fval (organic_level d)) (fval (recyclable_level d))).
    pose proof (Q.max_spec (fval (organic_level d')) (fval (recyclable_level d'))).
    pose proof (Q.max_spec (Qmax (fval (organic_level d)) (fval (recyclable_level d)))
                  (fval (hazardous_level d))).
    pose proof (Q.max_spec (Qmax (fval (organic_level d')) (fval (recyclable_level d')))
                  (fval (hazardous_level d'))).
    lra. }
  destruct (status_of_max d) as (Hc & Hhi & Hm & Hl).
  destruct (status_of_max d') as (Hc' & Hhi' & Hm' & Hl').
  destruct (WasteDatabase._calculate_bin_status d) eqn:E;
    destruct (WasteDatabase._calculate_bin_status d') eqn:E'; simpl; try lia;
    exfalso;
    repeat match goal with
    | H : _ = _ <-> _ |- _ =>
        first [ pose proof (proj1 H eq_refl); clear H | clear H ]
    end; lra.
Qed.

(** C8.  For levels in [0,100], raising one of the three levels and
    keeping the other two never lowers the status, in the order
    LOW < MEDIUM < HIGH < CRITICAL. *)
Theorem calculate_bin_status_monotonic (d d' : WasteBinData) (c : Category) :
  valid_reading d -> valid_reading d' ->
  (fval (level_of d c) <= fval (level_of d' c))%Q ->
  (forall c', c' <> c -> level_of d' c' = level_of d c') ->
  (band (WasteDatabase._calculate_bin_status d)
   <= band (WasteDatabase._calculate_bin_status d'))%nat.
Proof.
  intros _ _ Hc Hother. apply status_monotone. intros c'.
  destruct (decide (c' = c)) as [-> | Hne]; [exact Hc |].
  rewrite (Hother c' Hne). lra.
Qed.

(** ** Alerts and notifications *)

Lemma generate_alerts_filter (d : WasteBinData) :
  WasteDatabase._generate_alerts d
  = map (WasteDatabase.alert_message d) (alert_categories d).
Proof.
  unfold WasteDatabase._generate_alerts, alert_categories, categories. simpl.
  destruct (f_ge_int (organic_level d) 80), (f_ge_int (recyclable_level d) 80),
    (f_ge_int (hazardous_level d) 80); reflexivity.
Qed.

Lemma check_and_notify_filter (d : WasteBinData) :
  NotificationManager.check_and_notify d
  = map (NotificationManager.notification d) (notify_categories d).
Proof.
  unfold NotificationManager.check_and_notify, notify_categories, categories. simpl.
  destruct (f_gt (organic_level d) _), (f_gt (recyclable_level d) _),
    (f_gt (hazardous_level d) _); reflexivity.
Qed.

Lemma alert_message_inj (d : WasteBinData) (c c' : Category) :
  WasteDatabase.alert_message d c = WasteDatabase.alert_message d c' -> c = c'.
Proof.
  unfold WasteDatabase.alert_message.
  destruct c, c'; intros H; try reflexivity; cbn in H; discriminate.
Qed.

Lemma notification_inj (d : WasteBinData) (c c' : Category) :
  NotificationManager.notification d c = NotificationManager.notification d c' -> c = c'.
Proof.
  unfold NotificationManager.notification, SIREN.
  destruct c, c'; intros H; try reflexivity; exfalso; cbn in H;
    repeat match type of H with
    | _ :: _ = _ :: _ => injection H as H; try discriminate
    end;
    try (rewrite <- !app_assoc in H; apply app_inv_head in H; cbn in H; discriminate).
Qed.

Lemma threshold_val : (fval NotificationManager.threshold == 80)%Q.
Proof. reflexivity. Qed.

Lemma in_alert_categories (d : WasteBinData) (c : Category) :
  In c (alert_categories d) <-> (80 <= fval (level_of d c))%Q.
Proof.
  unfold alert_categories. rewrite filter_In, f_ge_int_iff.
  change (inject_Z 80) with 80%Q.
  split; [intros [_ H]; exact H | intros H; split; [| exact H]].
  unfold categories. destruct c; simpl; tauto.
Qed.

Lemma in_notify_categories (d : WasteBinData) (c : Category) :
  In c (notify_categories d) <-> (80 < fval (level_of d c))%Q.
Proof.
  unfold notify_categories. rewrite filter_In, f_gt_iff, threshold_val.
  split; [intros [_ H]; exact H | intros H; split; [| exact H]].
  unfold categories. destruct c; simpl; tauto.
Qed.

(** C4.  The stored alerts are one message for each category whose level
    is at least 80, in the order organic, recyclable, hazardous; the
    notifications are one message for each category whose level is
    strictly above 80, in the same order; a category at exactly 80 has
    its stored alert and no notification. *)
Theorem alerts_ge_notifications_gt (d : WasteBinData) :
  WasteDatabase._generate_alerts d
  = map (WasteDatabase.alert_message d)
        (List.filter (fun c => f_ge_int (level_of d c) 80)
                     [Organic; Recyclable; Hazardous]) /\
  NotificationManager.check_and_notify d
  = map (NotificationManager.notification d)
        (List.filter (fun c => f_gt (level_of d c) (float_of_int 80))
                     [Organic; Recyclable; Hazardous]) /\
  (forall c : Category,
     (In (WasteDatabase.alert_message d c) (WasteDatabase._generate_alerts d)
      <-> (80 <= fval (level_of d c))%Q) /\
     (In (NotificationManager.notification d c) (NotificationManager.check_and_notify d)
      <-> (80 < fval (level_of d c))%Q)) /\
  (forall c : Category,
     (fval (level_of d c) == 80)%Q ->
     In (WasteDatabase.alert_message d c) (WasteDatabase._generate_alerts d) /\
     ~ In (NotificationManager.notification d c) (NotificationManager.check_and_notify d)).
Proof.
  assert (Ha : forall c,
    In (WasteDatabase.alert_message d c) (WasteDatabase._generate_alerts d)
    <-> (80 <= fval (level_of d c))%Q).
  { intros c. rewrite generate_alerts_filter, in_map_iff, <- in_alert_categories.
    split; [intros (c' & E & Hin) | intros Hin; exists c; auto].
    apply alert_message_inj in E. congruence. }
  assert (Hn : forall c,
    In (NotificationManager.notification d c) (NotificationManager.check_and_notify d)
    <-> (80 < fval (level_of d c))%Q).
  { intros c. rewrite check_and_notify_filter, in_map_iff, <- in_notify_categories.
    split; [intros (c' & E & Hin) | intros Hin; exists c; auto].
    apply notification_inj in E. congruence. }
  split; [apply generate_alerts_filter |].
  split; [apply check_and_notify_filter |].
  split; [intros c; split; [apply Ha | apply Hn] |].
  intros c E. split; [apply Ha; lra | rewrite Hn; lra].
Qed.

(** ** The bin store *)

Lemma store_bin_data_insert (bins : gmap str BinRecord) (t : Z) (d : WasteBinData) :
  WasteDatabase.store_bin_data bins t d
  = (true, <[bin_id d := derived_record t d]> bins).
Proof. reflexivity. Qed.

Lemma store_all_dom (calls : list (Z * WasteBinData)) (bins : gmap str BinRecord) :
  dom (store_all bins calls) = dom bins ∪ list_to_set (stored_ids calls).
Proof.
  revert bins. induction calls as [| [t d] calls IH]; intros bins.
  - simpl. set_solver.
  - unfold store_all in *. simpl. rewrite IH, dom_insert_L. set_solver.
Qed.

(** C7.  Storing a valid reading replaces the record of its bin: after two
    stores for one identifier the store is what the second store alone
    would have produced, it holds the record derived from the second
    reading, and it is no larger than after the first store; after any
    sequence of stores into an empty store, [get_all_bins] has as many
    entries as there are distinct identifiers in the sequence. *)
Theorem store_bin_data_overwrites :
  (forall (bins : gmap str BinRecord) (t1 t2 : Z) (d1 d2 : WasteBinData),
     valid_reading d1 -> valid_reading d2 -> bin_id d1 = bin_id d2 ->
     let r1 := WasteDatabase.store_bin_data bins t1 d1 in
     let r2 := WasteDatabase.store_bin_data (snd r1) t2 d2 in
     fst r1 = true /\ fst r2 = true /\
     snd r2 = snd (WasteDatabase.store_bin_data bins t2 d2) /\
     WasteDatabase.get_bin_status (snd r2) (bin_id d2) = Some (derived_record t2 d2) /\
     size (WasteDatabase.get_all_bins (snd r2))
     = size (WasteDatabase.get_all_bins (snd r1)) /\
     (forall id, id <> bin_id d2 ->
        WasteDatabase.get_bin_status (snd r2) id = WasteDatabase.get_bin_status bins id)) /\
  (forall calls : list (Z * WasteBinData),
     Forall (fun c => valid_reading (snd c)) calls ->
     size (WasteDatabase.get_all_bins (store_all WasteDatabase.init calls))
     = size (list_to_set (stored_ids calls) : gset str)).
Proof.
  split.
  - intros bins t1 t2 d1 d2 _ _ Eid r1 r2. subst r1 r2.
    rewrite !store_bin_data_insert. simpl.
    unfold WasteDatabase.get_bin_status, WasteDatabase.get_all_bins.
    rewrite Eid, insert_insert_eq.
    repeat split.
    + apply lookup_insert_eq.
    + rewrite <- !size_dom, !dom_insert_L. reflexivity.
    + intros id Hne. apply lookup_insert_ne. congruence.
  - intros calls _. unfold WasteDatabase.get_all_bins, WasteDatabase.init.
    rewrite <- size_dom, store_all_dom, dom_empty_L. f_equal. set_solver.
Qed.

(** ** The rate limiter *)

Lemma in_window_iff (now : pyfloat) (window : Z) (t : pyfloat) :
  RateLimiter.in_window now window t = true
  <-> (fval now - fval t < inject_Z window)%Q.
Proof. apply Qlt_bool_iff. Qed.

Lemma in_window_false (now : pyfloat) (window : Z) (t : pyfloat) :
  RateLimiter.in_window now window t = false
  <-> (inject_Z window <= fval now - fval t)%Q.
Proof. apply Qlt_bool_false. Qed.

(** What one call does to the record of its identifier, and to the
    records of the others. *)
Lemma is_allowed_step (requests : gmap str (list pyfloat)) (now : pyfloat)
    (identifier : str) (limit window : Z) :
  let kept := List.filter (RateLimiter.in_window now window) (recorded requests identifier) in
  let r := RateLimiter.is_allowed requests now identifier limit window in
  fst r = (Z.of_nat (length kept) <? limit) /\
  recorded (snd r) identifier = (if fst r then kept ++ [now] else kept) /\
  snd r !! identifier = Some (if fst r then kept ++ [now] else kept) /\
  forall other, other <> identifier -> snd r !! other = requests !! other.
Proof.
  unfold RateLimiter.is_allowed, recorded.
  destruct (requests !! identifier) as [l |] eqn:E; simpl.
  - rewrite E. simpl.
    destruct (Z.of_nat (length (List.filter _ l)) <? limit); simpl;
      rewrite ?lookup_insert_eq; (split; [| split; [| split]]);
      try reflexivity;
      intros other Hne; rewrite ?lookup_insert_ne by congruence; reflexivity.
  - rewrite lookup_insert_eq. simpl.
    destruct (_ <? limit); simpl;
      rewrite ?lookup_insert_eq; (split; [| split; [| split]]);
      try reflexivity;
      intros other Hne; rewrite ?lookup_insert_ne by congruence; reflexivity.
Qed.

Lemma filter_all_kept {A : Type} (f : A -> bool) (l : list A) :
  Forall (fun x => f x = true) l -> List.filter f l = l.
Proof.
  induction 1 as [| x l Hx _ IH]; simpl; [reflexivity |].
  rewrite Hx, IH. reflexivity.
Qed.

(** A call at which every recorded time is still inside the window. *)
Lemma is_allowed_all_kept (requests : gmap str (list pyfloat)) (now : pyfloat)
    (identifier : str) (limit window : Z) (l : list pyfloat) :
  recorded requests identifier = l ->
  Forall (fun t => RateLimiter.in_window now window t = true) l ->
  let r := RateLimiter.is_allowed requests now identifier limit window in
  fst r = (Z.of_nat (length l) <? limit) /\
  recorded (snd r) identifier
  = (if Z.of_nat (length l) <? limit then l ++ [now] else l).
Proof.
  intros Hl Hall r.
  destruct (is_allowed_step requests now identifier limit window) as (F & R & _).
  fold r in F, R. rewrite Hl, (filter_all_kept _ _ Hall) in F, R.
  rewrite F in R. auto.
Qed.

(** C3.  A call of [is_allowed] drops every recorded time of the
    identifier that is older than [now - window] (it keeps exactly the
    times [t] with [now - t < window]); if fewer than [limit] times
    remain it records [now] and allows the call, otherwise it denies the
    call and records nothing; the records of other identifiers do not
    change.  With a limit of 3 and a window of 60 seconds, three calls
    within one second are allowed, a fourth within that second is
    denied, and a call made once the window has passed is allowed. *)
Theorem is_allowed_sliding_window :
  (forall (requests : gmap str (list pyfloat)) (now : pyfloat)
          (identifier : str) (limit window : Z),
     let before := recorded requests identifier in
     let kept := List.filter (RateLimiter.in_window now window) before in
     let r := RateLimiter.is_allowed requests now identifier limit window in
     (forall t, In t before -> (fval t < fval now - inject_Z window)%Q -> ~ In t kept) /\
     (forall t, In t kept <-> In t before /\ (fval now - fval t < inject_Z window)%Q) /\
     (Z.of_nat (length kept) < limit ->
      fst r = true /\ recorded (snd r) identifier = kept ++ [now]) /\
     (limit <= Z.of_nat (length kept) ->
      fst r = false /\ recorded (snd r) identifier = kept) /\
     (forall other, other <> identifier -> snd r !! other = requests !! other)) /\
  (forall (requests : gmap str (list pyfloat)) (identifier : str)
          (t1 t2 t3 t4 t5 : pyfloat),
     recorded requests identifier = [] ->
     (fval t1 <= fval t2 /\ fval t2 <= fval t3 /\ fval t3 <= fval t4 /\
      fval t4 <= fval t1 + 1)%Q ->
     (fval t1 + 60 <= fval t5)%Q ->
     let r1 := RateLimiter.is_allowed requests t1 identifier 3 60 in
     let r2 := RateLimiter.is_allowed (snd r1) t2 identifier 3 60 in
     let r3 := RateLimiter.is_allowed (snd r2) t3 identifier 3 60 in
     let r4 := RateLimiter.is_allowed (snd r3) t4 identifier 3 60 in
     let r5 := RateLimiter.is_allowed (snd r4) t5 identifier 3 60 in
     fst r1 = true /\ fst r2 = true /\ fst r3 = true /\ fst r4 = false /\
     recorded (snd r4) identifier = [t1; t2; t3] /\
     fst r5 = true).
Proof.
  split.
  - intros requests now identifier limit window before kept r.
    destruct (is_allowed_step requests now identifier limit window)
      as (Hfst & Hrec & _ & Hother).
    fold before kept r in Hfst, Hrec.
    assert (Hkept : forall t,
      In t kept <-> In t before /\ (fval now - fval t < inject_Z window)%Q).
    { intros t. unfold kept. rewrite filter_In, in_window_iff. reflexivity. }
    split; [| split; [exact Hkept | split; [| split; [| exact Hother]]]].
    + intros t _ Hold Hin. apply Hkept in Hin. lra.
    + intros Hlt. apply Z.ltb_lt in Hlt. rewrite Hlt in Hfst.
      rewrite Hfst in Hrec. auto.
    + intros Hge. apply Z.ltb_ge in Hge. rewrite Hge in Hfst.
      rewrite Hfst in Hrec. auto.
  - intros requests identifier t1 t2 t3 t4 t5 H0 (H12 & H23 & H34 & H41) H5
      r1 r2 r3 r4 r5.
    assert (W : forall now t, (fval now - fval t < 60)%Q ->
                RateLimiter.in_window now 60 t = true).
    { intros now t H. apply in_window_iff. exact H. }
    destruct (is_allowed_all_kept requests t1 identifier 3 60 [] H0)
      as (F1 & R1); [constructor |]. fold r1 in F1, R1.
    change (fst r1 = true) in F1. change (recorded (snd r1) identifier = [t1]) in R1.
    destruct (is_allowed_all_kept (snd r1) t2 identifier 3 60 _ R1)
      as (F2 & R2); [repeat constructor; apply W; lra |]. fold r2 in F2, R2.
    change (fst r2 = true) in F2. change (recorded (snd r2) identifier = [t1; t2]) in R2.
    destruct (is_allowed_all_kept (snd r2) t3 identifier 3 60 _ R2)
      as (F3 & R3); [repeat constructor; apply W; lra |]. fold r3 in F3, R3.
    change (fst r3 = true) in F3.
    change (recorded (snd r3) identifier = [t1; t2; t3]) in R3.
    destruct (is_allowed_all_kept (snd r3) t4 identifier 3 60 _ R3)
      as (F4 & R4); [repeat constructor; apply W; lra |]. fold r4 in F4, R4.
    change (fst r4 = false) in F4.
    change (recorded (snd r4) identifier = [t1; t2; t3]) in R4.
    destruct (is_allowed_step (snd r4) t5 identifier 3 60) as (F5 & _).
    fold r5 in F5. rewrite R4 in F5.
    assert (P1 : RateLimiter.in_window t5 60 t1 = false).
    { apply in_window_false. change (inject_Z 60) with 60%Q. lra. }
    cbn [List.filter app] in F5. rewrite P1 in F5.
    repeat split; try assumption.
    rewrite F5.
    destruct (RateLimiter.in_window t5 60 t2), (RateLimiter.in_window t5 60 t3);
      reflexivity.
Qed.

(** ** The theorems at sample inputs *)

Lemma level_ok_intro (m : Z) (s : positive) :
  (0 <=? m) && (m <=? 100 * Z.pos (10 ^ s)) = true -> level_ok (PyF m s).
Proof.
  intros H. apply andb_true_iff in H as [H1 H2].
  apply Z.leb_le in H1, H2.
  unfold level_ok, fval, Qle; simpl. lia.
Qed.

Lemma reading_85_valid : valid_reading reading_85.
Proof.
  split; [simpl; lia |]. repeat split; apply level_ok_intro; reflexivity.
Qed.

Lemma reading_95_valid : valid_reading reading_95.
Proof.
  split; [simpl; lia |]. repeat split; apply level_ok_intro; reflexivity.
Qed.

Lemma reading_80_valid : valid_reading reading_80.
Proof.
  split; [simpl; lia |]. repeat split; apply level_ok_intro; reflexivity.
Qed.

Lemma calculate_bin_status_bands_witness :
  valid_reading reading_85 /\
  (WasteDatabase._calculate_bin_status reading_85 = HIGH
   <-> (80 <= max_of reading_85 /\ max_of reading_85 < 90)%Q).
Proof.
  split; [exact reading_85_valid |].
  exact (proj1 (proj2 (proj1 (calculate_bin_status_bands reading_85 reading_85_valid)))).
Defined.

Lemma calculate_bin_status_monotonic_witness :
  valid_reading reading_85 /\ valid_reading reading_95 /\
  (band (WasteDatabase._calculate_bin_status reading_85)
   <= band (WasteDatabase._calculate_bin_status reading_95))%nat.
Proof.
  split; [exact reading_85_valid |]. split; [exact reading_95_valid |].
  apply (calculate_bin_status_monotonic reading_85 reading_95 Organic
           reading_85_valid reading_95_valid).
  - vm_compute. discriminate.
  - intros c' Hc'. destruct c'; [congruence | reflexivity | reflexivity].
Defined.

Lemma alerts_ge_notifications_gt_witness :
  (fval (level_of reading_80 Recyclable) == 80)%Q /\
  In (WasteDatabase.alert_message reading_80 Recyclable)
     (WasteDatabase._generate_alerts reading_80) /\
  ~ In (NotificationManager.notification reading_80 Recyclable)
       (NotificationManager.check_and_notify reading_80).
Proof.
  assert (E : (fval (level_of reading_80 Recyclable) == 80)%Q) by reflexivity.
  split; [exact E |].
  exact (proj2 (proj2 (proj2 (alerts_ge_notifications_gt reading_80))) Recyclable E).
Defined.

Lemma store_bin_data_overwrites_witness :
  valid_reading reading_85 /\ valid_reading reading_95 /\
  bin_id reading_85 = bin_id reading_95 /\
  WasteDatabase.get_bin_status
    (snd (WasteDatabase.store_bin_data
            (snd (WasteDatabase.store_bin_data WasteDatabase.init 1000 reading_85))
            2000 reading_95))
    (lit "BIN-001")
  = Some (derived_record 2000 reading_95) /\
  size (WasteDatabase.get_all_bins
          (store_all WasteDatabase.init
             [(1000, reading_85); (2000, reading_95); (3000, reading_80)]))
  = size (list_to_set [lit "BIN-001"; lit "BIN-001"; lit "BIN-002"] : gset str).
Proof.
  split; [exact reading_85_valid |]. split; [exact reading_95_valid |].
  split; [reflexivity |]. split.
  - exact (proj1 (proj2 (proj2 (proj2
      (proj1 store_bin_data_overwrites WasteDatabase.init 1000 2000
         reading_85 reading_95 reading_85_valid reading_95_valid eq_refl))))).
  - apply (proj2 store_bin_data_overwrites
             [(1000, reading_85); (2000, reading_95); (3000, reading_80)]).
    constructor; [exact reading_85_valid |].
    constructor; [exact reading_95_valid |].
    constructor; [exact reading_80_valid | constructor].
Defined.

Lemma is_allowed_sliding_window_witness :
  let id := lit "10.0.0.7" in
  let r1 := RateLimiter.is_allowed RateLimiter.init (PyF 1000 1) id 3 60 in
  let r2 := RateLimiter.is_allowed (snd r1) (PyF 1002 1) id 3 60 in
  let r3 := RateLimiter.is_allowed (snd r2) (PyF 1005 1) id 3 60 in
  let r4 := RateLimiter.is_allowed (snd r3) (PyF 1009 1) id 3 60 in
  let r5 := RateLimiter.is_allowed (snd r4) (PyF 1600 1) id 3 60 in
  fst r1 = true /\ fst r2 = true /\ fst r3 = true /\ fst r4 = false /\
  recorded (snd r4) id = [PyF 1000 1; PyF 1002 1; PyF 1005 1] /\
  fst r5 = true.
Proof.
  apply (proj2 is_allowed_sliding_window RateLimiter.init (lit "10.0.0.7")
           (PyF 1000 1) (PyF 1002 1) (PyF 1005 1) (PyF 1009 1) (PyF 1600 1)).
  - reflexivity.
  - repeat split; vm_compute; discriminate.
  - vm_compute. discriminate.
Defined.

(** ** Characters *)

Lemma ord_range (c : ascii) : 0 <= ord c < 256.
Proof.
  unfold ord. pose proof (N_ascii_bounded c). lia.
Qed.

Lemma chr_ord (c : ascii) : chr (ord c) = c.
Proof.
  unfold chr, ord. rewrite N2Z.id. apply ascii_N_embedding.
Qed.

Lemma ord_chr (n : Z) : 0 <= n < 256 -> ord (chr n) = n.
Proof.
  intros H. unfold chr, ord. rewrite N_ascii_embedding by lia. lia.
Qed.

Lemma ord_inj (c d : ascii) : ord c = ord d -> c = d.
Proof.
  intros H. rewrite <- (chr_ord c), <- (chr_ord d), H. reflexivity.
Qed.

Lemma ascii_eqb_ord (c d : ascii) : Ascii.eqb c d = (ord c =? ord d).
Proof.
  destruct (Ascii.eqb_spec c d) as [-> | Hne].
  - symmetry. apply Z.eqb_refl.
  - symmetry. apply Z.eqb_neq. intros H. apply Hne, ord_inj, H.
Qed.

(** A property of the integers below a bound, checked on each of them. *)
Lemma check_below (f : Z -> bool) (bound : nat) :
  forallb f (map Z.of_nat (seq 0 bound)) = true ->
  forall n, 0 <= n < Z.of_nat bound -> f n = true.
Proof.
  intros H n Hn. rewrite forallb_forall in H. apply H.
  apply in_map_iff. exists (Z.to_nat n). split; [lia |].
  apply in_seq. lia.
Qed.

(** A property of characters, checked on each of the 256. *)
Lemma check_chars (f : ascii -> bool) :
  forallb (fun n => f (chr n)) (map Z.of_nat (seq 0 256)) = true ->
  forall c, f c = true.
Proof.
  intros H c. rewrite <- (chr_ord c).
  apply (check_below (fun n => f (chr n)) 256 H). apply ord_range.
Qed.

(** ** UTF-8 on ASCII text *)

Lemma utf8_encode_ascii (s : str) :
  forallb is_ascii s = true -> utf8_encode s = s.
Proof.
  induction s as [| c s IH]; simpl; [reflexivity |].
  intros H. apply andb_true_iff in H as [Hc Hs].
  unfold is_ascii in Hc. rewrite Hc. simpl. rewrite (IH Hs). reflexivity.
Qed.

Lemma utf8_decode_ascii (s : bytes) :
  forallb is_ascii s = true -> utf8_decode s = Some s.
Proof.
  induction s as [| c s IH]; simpl; [reflexivity |].
  intros H. apply andb_true_iff in H as [Hc Hs].
  unfold is_ascii in Hc. rewrite Hc, (IH Hs). reflexivity.
Qed.

(** ** [rstrip] and [split] *)

Lemma drop_while_all (f : ascii -> bool) (p s : str) :
  forallb f p = true -> drop_while f (p ++ s) = drop_while f s.
Proof.
  induction p as [| c p IH]; simpl; [reflexivity |].
  intros H. apply andb_true_iff in H as [Hc Hp]. rewrite Hc. apply IH, Hp.
Qed.

Lemma drop_while_keep (f : ascii -> bool) (s : str) :
  (forall c, In c s -> f c = false) -> drop_while f s = s.
Proof.
  destruct s as [| c s]; simpl; [reflexivity |].
  intros H. rewrite (H c) by (left; reflexivity). reflexivity.
Qed.

(** Stripping a run of [ch] from the end of a text that has no [ch]. *)
Lemma rstrip_app (ch : ascii) (body pad : str) :
  (forall c, In c body -> c <> ch) ->
  (forall c, In c pad -> c = ch) ->
  rstrip ch (body ++ pad) = body.
Proof.
  intros Hbody Hpad. unfold rstrip.
  rewrite rev_app_distr, drop_while_all.
  - rewrite drop_while_keep; [apply rev_involutive |].
    intros c Hc. apply in_rev in Hc.
    destruct (Ascii.eqb_spec ch c) as [-> | _]; [| reflexivity].
    exfalso. exact (Hbody c Hc eq_refl).
  - apply forallb_forall. intros c Hc. apply in_rev in Hc.
    rewrite (Hpad c Hc). apply Ascii.eqb_refl.
Qed.

Lemma split_no_sep (sep : ascii) (s : str) :
  (forall c, In c s -> c <> sep) -> split sep s = [s].
Proof.
  induction s as [| c s IH]; simpl; [reflexivity |].
  intros H. destruct (Ascii.eqb_spec c sep) as [E | _].
  - exfalso. exact (H c (or_introl eq_refl) E).
  - rewrite IH by (intros x Hx; apply H; right; exact Hx). reflexivity.
Qed.

Lemma split_app (sep : ascii) (s rest : str) :
  (forall c, In c s -> c <> sep) ->
  split sep (s ++ sep :: rest) = s :: split sep rest.
Proof.
  induction s as [| c s IH]; simpl.
  - intros _. rewrite Ascii.eqb_refl. reflexivity.
  - intros H. destruct (Ascii.eqb_spec c sep) as [E | _].
    + exfalso. exact (H c (or_introl eq_refl) E).
    + rewrite IH by (intros x Hx; apply H; right; exact Hx). reflexivity.
Qed.

(** The number of parts of a split is one more than the number of
    separators. *)
Lemma split_length (sep : ascii) (s : str) :
  length (split sep s) = S (length (List.filter (Ascii.eqb sep) s)).
Proof.
  induction s as [| c s IH]; simpl; [reflexivity |].
  rewrite (Ascii.eqb_sym sep c).
  destruct (Ascii.eqb c sep); simpl; [rewrite IH; reflexivity |].
  destruct (split sep s) as [| p ps]; simpl in *; [discriminate | exact IH].
Qed.

Lemma compare_digest_refl (a : str) :
  forallb is_ascii a = true -> compare_digest a a = Some true.
Proof.
  intros H. unfold compare_digest. rewrite H. simpl.
  rewrite bool_decide_eq_true_2 by reflexivity. reflexivity.
Qed.

(** ** Base64 *)

(** Induction on a list three elements at a time. *)
Lemma list_ind3 {A : Type} (P : list A -> Prop) :
  P [] -> (forall x, P [x]) -> (forall x y, P [x; y]) ->
  (forall x y z l, P l -> P (x :: y :: z :: l)) ->
  forall l, P l.
Proof.
  intros H0 H1 H2 H3 l.
  assert (H : P l /\ (forall x, P (x :: l)) /\ (forall x y, P (x :: y :: l))).
  { induction l as [| a l (IH0 & IH1 & IH2)].
    - auto.
    - split; [apply IH1 |]. split; [intros x; apply IH2 |].
      intros x y. apply H3, IH0. }
  apply H.
Qed.

Lemma b64_char_facts (n : Z) :
  0 <= n < 64 ->
  b64_value (b64_char n) = Some n /\
  is_b64url_char (b64_char n) = true /\
  is_ascii (b64_char n) = true /\
  b64_char n <> "="%char /\ b64_char n <> "."%char.
Proof.
  intros Hn.
  pose proof (check_below
    (fun n => bool_decide (b64_value (b64_char n) = Some n) &&
              is_b64url_char (b64_char n) && is_ascii (b64_char n) &&
              negb (Ascii.eqb (b64_char n) "=") && negb (Ascii.eqb (b64_char n) "."))
    64 eq_refl n Hn) as H.
  simpl in H.
  repeat (apply andb_true_iff in H as [H ?]).
  apply bool_decide_eq_true in H.
  repeat split; try assumption.
  - intros E. rewrite E in *. discriminate.
  - intros E. rewrite E in *. discriminate.
Qed.

(** The four sextets of three bytes. *)
Lemma sextet_ranges (x y z : ascii) :
  0 <= ord x / 4 < 64 /\ 0 <= ord x mod 4 * 16 < 64 /\
  0 <= ord x mod 4 * 16 + ord y / 16 < 64 /\
  0 <= ord y mod 16 * 4 < 64 /\
  0 <= ord y mod 16 * 4 + ord z / 64 < 64 /\ 0 <= ord z mod 64 < 64.
Proof.
  pose proof (ord_range x). pose proof (ord_range y). pose proof (ord_range z).
  repeat split; Z.div_mod_to_equations; lia.
Qed.

Lemma urlsafe_b64encode_split (b : bytes) :
  urlsafe_b64encode b = b64_body b ++ b64_padding b.
Proof.
  induction b as [| x | x y | x y z l IH] using list_ind3; try reflexivity.
  simpl. rewrite IH. reflexivity.
Qed.

Lemma b64_body_chars (b : bytes) (c : ascii) :
  In c (b64_body b) ->
  is_b64url_char c = true /\ is_ascii c = true /\
  c <> "="%char /\ c <> "."%char.
Proof.
  induction b as [| x | x y | x y z l IH] using list_ind3; simpl.
  - intros [].
  - pose proof (sextet_ranges x x x) as R.
    intros [<- | [<- | []]]; apply b64_char_facts; tauto.
  - pose proof (sextet_ranges x y y) as R.
    intros [<- | [<- | [<- | []]]]; apply b64_char_facts; tauto.
  - pose proof (sextet_ranges x y z) as R.
    intros [<- | [<- | [<- | [<- | H]]]];
      [apply b64_char_facts; tauto .. | apply IH, H].
Qed.

Lemma b64_padding_chars (b : bytes) (c : ascii) :
  In c (b64_padding b) -> c = "="%char.
Proof.
  induction b as [| x | x y | x y z l IH] using list_ind3; simpl.
  - intros [].
  - intros [<- | [<- | []]]; reflexivity.
  - intros [<- | []]; reflexivity.
  - exact IH.
Qed.


(** A segment is the body of the encoding. *)
Lemma b64_segment_body (b : bytes) : SimpleJWT.b64_segment b = Some (b64_body b).
Proof.
  unfold SimpleJWT.b64_segment.
  rewrite utf8_decode_ascii.
  - simpl. f_equal. rewrite urlsafe_b64encode_split. apply rstrip_app.
    + intros c Hc. apply (b64_body_chars b c Hc).
    + apply b64_padding_chars.
  - apply forallb_forall. intros c Hc.
    rewrite urlsafe_b64encode_split in Hc. apply in_app_or in Hc as [Hc | Hc].
    + apply (b64_body_chars b c Hc).
    + rewrite (b64_padding_chars b c Hc). reflexivity.
Qed.

(** One step of the decoder on a character of the alphabet. *)
Lemma a2b_base64_char (n : Z) (rest : str) (quad_pos leftchar pads : Z) :
  0 <= n < 64 ->
  a2b_base64 (b64_char n :: rest) quad_pos leftchar pads
  = if quad_pos =? 0 then a2b_base64 rest 1 n 0
    else if quad_pos =? 1 then
      option_map (cons (chr (leftchar * 4 + n / 16))) (a2b_base64 rest 2 (n mod 16) 0)
    else if quad_pos =? 2 then
      option_map (cons (chr (leftchar * 16 + n / 4))) (a2b_base64 rest 3 (n mod 4) 0)
    else option_map (cons (chr (leftchar * 64 + n))) (a2b_base64 rest 0 0 0).
Proof.
  intros Hn. destruct (b64_char_facts n Hn) as (Hv & _ & _ & Hne & _).
  cbn [a2b_base64]. rewrite Hv.
  destruct (Ascii.eqb_spec (b64_char n) "=") as [E | _]; [contradiction | reflexivity].
Qed.

Lemma chr_join (hi lo k : Z) (x : ascii) :
  hi * k + lo = ord x -> chr (hi * k + lo) = x.
Proof. intros ->. apply chr_ord. Qed.

(** Decoding a body followed by [==] gives the bytes back. *)
Lemma a2b_base64_body (b : bytes) :
  a2b_base64 (b64_body b ++ lit "==") 0 0 0 = Some b.
Proof.
  induction b as [| x | x y | x y z l IH] using list_ind3.
  - reflexivity.
  - pose proof (sextet_ranges x x x) as R. pose proof (ord_range x).
    cbn [b64_body app].
    rewrite !a2b_base64_char by tauto. cbn [Z.eqb Pos.eqb].
    change (a2b_base64 (lit "==") 2 (ord x mod 4 * 16 mod 16) 0) with (Some (@nil ascii)).
    simpl. do 2 f_equal. apply chr_join. Z.div_mod_to_equations; lia.
  - pose proof (sextet_ranges x y y) as R.
    pose proof (ord_range x). pose proof (ord_range y).
    cbn [b64_body app].
    rewrite !a2b_base64_char by tauto. cbn [Z.eqb Pos.eqb].
    change (a2b_base64 (lit "==") 3 (ord y mod 16 * 4 mod 4) 0) with (Some (@nil ascii)).
    simpl. f_equal. f_equal; [| f_equal]; apply chr_join; Z.div_mod_to_equations; lia.
  - pose proof (sextet_ranges x y z) as R.
    pose proof (ord_range x). pose proof (ord_range y). pose proof (ord_range z).
    cbn [b64_body app].
    rewrite !a2b_base64_char by tauto. cbn [Z.eqb Pos.eqb].
    rewrite IH. simpl. f_equal.
    f_equal; [| f_equal; [| f_equal]]; apply chr_join; Z.div_mod_to_equations; lia.
Qed.

Lemma urlsafe_b64decode_body (b : bytes) :
  urlsafe_b64decode (b64_body b ++ lit "==") = Some b.
Proof.
  unfold urlsafe_b64decode.
  rewrite forallb_app, a2b_base64_body.
  replace (forallb is_ascii (b64_body b)) with true; [reflexivity |].
  symmetry. apply forallb_forall. intros c Hc. apply (b64_body_chars b c Hc).
Qed.

(** ** The digest *)




(** The signature segment exists and is not empty. *)
Lemma signature_of_body (secret message : str) :
  SimpleJWT.signature_of secret message
  = Some (b64_body (hmac_sha256 (utf8_encode secret) (utf8_encode message))).
Proof. apply b64_segment_body. Qed.



(** ** Numerals *)

Lemma digit_char_facts (d : Z) :
  0 <= d < 10 -> is_digit (digit_char d) = true /\ ord (digit_char d) = 48 + d.
Proof.
  intros H. unfold is_digit, digit_char. rewrite ord_chr by lia. split; lia.
Qed.

Lemma digits_fuel_acc (f : nat) (n : Z) (acc : str) :
  digits_fuel f n acc = digits_fuel f n [] ++ acc.
Proof.
  revert n acc. induction f as [| f IH]; intros n acc; simpl; [reflexivity |].
  destruct (n <? 10); [reflexivity |].
  rewrite (IH (n / 10) (_ :: acc)), (IH (n / 10) [_]), <- app_assoc. reflexivity.
Qed.

(** With enough fuel, the digits of a number end with its last digit. *)
Lemma digits_fuel_step (f : nat) (n : Z) :
  10 <= n ->
  digits_fuel (S f) n [] = digits_fuel f (n / 10) [] ++ [digit_char (n mod 10)].
Proof.
  intros H. simpl. replace (n <? 10) with false by lia. apply digits_fuel_acc.
Qed.

Lemma digits_value_fold (ds : str) : digits_value ds = fold_left digit_step ds 0.
Proof. reflexivity. Qed.

Lemma digits_fuel_spec (f : nat) (n : Z) :
  0 <= n < 2 ^ Z.of_nat (S f) ->
  let ds := digits_fuel (S f) n [] in
  forallb is_digit ds = true /\
  fold_left digit_step ds 0 = n /\
  (0 < n -> exists c t, ds = c :: t /\ ord c <> 48) /\
  ds <> [].
Proof.
  assert (Hsmall : forall f n, 0 <= n < 10 ->
    let ds := digits_fuel (S f) n [] in
    forallb is_digit ds = true /\ fold_left digit_step ds 0 = n /\
    (0 < n -> exists c t, ds = c :: t /\ ord c <> 48) /\ ds <> []).
  { intros f' n' Hlt. simpl. replace (n' <? 10) with true by lia.
    destruct (digit_char_facts n' Hlt) as [Hd Ho].
    simpl. rewrite Hd. unfold digit_step. rewrite Ho.
    repeat split; try lia; try discriminate.
    intros Hpos. exists (digit_char n'), []. split; [reflexivity | lia]. }
  revert n. induction f as [| f IH]; intros n Hn.
  - apply Hsmall. simpl in Hn. lia.
  - destruct (Z_lt_le_dec n 10) as [Hlt | Hge]; [apply Hsmall; lia |].
    cbv zeta. rewrite digits_fuel_step by exact Hge.
    assert (Hq : 0 <= n / 10 < 2 ^ Z.of_nat (S f)).
    { rewrite (Nat2Z.inj_succ (S f)), Z.pow_succ_r in Hn by lia.
      Z.div_mod_to_equations. lia. }
    destruct (IH (n / 10) Hq) as (Hall & Hval & Hhead & Hne).
    destruct (digit_char_facts (n mod 10)) as [Hd Ho];
      [Z.div_mod_to_equations; lia |].
    repeat split.
    + rewrite forallb_app, Hall. simpl. rewrite Hd. reflexivity.
    + rewrite fold_left_app, Hval. simpl. unfold digit_step. rewrite Ho.
      Z.div_mod_to_equations. lia.
    + intros _. destruct Hhead as (c & t & E & Hc);
        [Z.div_mod_to_equations; lia |].
      exists c, (t ++ [digit_char (n mod 10)]). rewrite E. split; [reflexivity | exact Hc].
    + intros E. apply app_eq_nil in E as [_ E]. discriminate.
Qed.

Lemma digits_of_spec (n : Z) :
  0 <= n ->
  forallb is_digit (digits_of n) = true /\
  digits_value (digits_of n) = n /\
  (0 < n -> exists c t, digits_of n = c :: t /\ ord c <> 48) /\
  digits_of n <> [].
Proof.
  intros Hn. apply digits_fuel_spec. split; [exact Hn |].
  destruct (Z.eq_dec n 0) as [-> | Hnz]; [reflexivity |].
  rewrite Nat2Z.inj_succ, Z2Nat.id by apply Z.log2_nonneg.
  apply Z.log2_spec. lia.
Qed.

Lemma digits_of_zero : digits_of 0 = ["0"%char].
Proof. reflexivity. Qed.

Lemma take_digits_app (ds rest : str) :
  forallb is_digit ds = true ->
  match rest with [] => True | c :: _ => is_digit c = false end ->
  take_digits (ds ++ rest) = (ds, rest).
Proof.
  intros Hds Hrest. induction ds as [| c ds IH]; simpl.
  - destruct rest as [| c r]; [reflexivity |]. simpl. rewrite Hrest. reflexivity.
  - simpl in Hds. apply andb_true_iff in Hds as [Hc Hds].
    rewrite Hc, (IH Hds). reflexivity.
Qed.

Lemma is_digit_ord (c : ascii) : is_digit c = true -> 48 <= ord c <= 57.
Proof. unfold is_digit. lia. Qed.

Lemma ends_number_no_digit (rest : str) :
  ends_number rest -> match rest with [] => True | c :: _ => is_digit c = false end.
Proof. destruct rest; [trivial | intros H; apply H]. Qed.

Lemma scan_int_app (ip rest : str) :
  int_part ip ->
  match rest with [] => True | c :: _ => is_digit c = false end ->
  scan_int (ip ++ rest) = Some (ip, rest).
Proof.
  intros (Hall & c & t & -> & H0) Hrest. simpl in Hall.
  apply andb_true_iff in Hall as [Hc Ht]. simpl.
  destruct (ord c =? 48) eqn:E.
  - apply Z.eqb_eq in E. rewrite (H0 E). reflexivity.
  - rewrite Hc, (take_digits_app t rest Ht Hrest). reflexivity.
Qed.

Lemma scan_frac_none (rest : str) : ends_number rest -> scan_frac rest = ([], rest).
Proof.
  destruct rest as [| c r]; [reflexivity |]. intros (_ & H & _). simpl.
  replace (ord c =? 46) with false by lia. reflexivity.
Qed.

Lemma scan_frac_some (fp rest : str) :
  fp <> [] -> forallb is_digit fp = true ->
  match rest with [] => True | c :: _ => is_digit c = false end ->
  scan_frac ("."%char :: fp ++ rest) = (fp, rest).
Proof.
  intros Hne Hall Hrest. unfold scan_frac.
  change (ord "." =? 46) with true. cbv iota.
  rewrite (take_digits_app fp rest Hall Hrest).
  destruct fp; [contradiction | reflexivity].
Qed.

Lemma scan_exp_none (rest : str) : ends_number rest -> scan_exp rest = (None, rest).
Proof.
  destruct rest as [| c r]; [reflexivity |]. intros (_ & _ & H1 & H2). simpl.
  replace (ord c =? 101) with false by lia.
  replace (ord c =? 69) with false by lia. reflexivity.
Qed.

(** Reading back a numeral: a sign, an integer part, a fraction. *)
Lemma scan_number_numeral (neg : bool) (ip fp rest : str) :
  int_part ip -> forallb is_digit fp = true -> ends_number rest ->
  scan_number ((if neg then ["-"%char] else []) ++ ip ++
               match fp with [] => [] | _ :: _ => "."%char :: fp end ++ rest)
  = Some (let m := digits_value (ip ++ fp) in
          let m := if neg then - m else m in
          match fp with
          | [] => PyInt m
          | _ :: _ => PyFloat (make_float m (0 - Z.of_nat (length fp)))
          end, rest).
Proof.
  intros Hip Hfp Hrest.
  assert (Hhead : forall tail,
    scan_number ((if neg then ["-"%char] else []) ++ ip ++ tail)
    = match scan_int (ip ++ tail) with
      | None => None
      | Some (ip', s2) =>
          let (fp', s3) := scan_frac s2 in
          let (ex, s4) := scan_exp s3 in
          let m := digits_value (ip' ++ fp') in
          let m := if neg then - m else m in
          match fp', ex with
          | [], None => Some (PyInt m, s4)
          | _, _ =>
              Some (PyFloat (make_float m (default 0 ex - Z.of_nat (length fp'))), s4)
          end
      end).
  { intros tail. destruct neg; [reflexivity |].
    destruct Hip as (Hall & c & t & -> & _). simpl in Hall.
    apply andb_true_iff in Hall as [Hc _]. apply is_digit_ord in Hc.
    unfold scan_number. cbn [app].
    replace (ord c =? 45) with false by lia. reflexivity. }
  rewrite Hhead.
  pose proof (ends_number_no_digit rest Hrest) as Hnd.
  destruct fp as [| d fp].
  - cbn [app]. rewrite (scan_int_app ip rest Hip Hnd).
    rewrite (scan_frac_none rest Hrest), (scan_exp_none rest Hrest). reflexivity.
  - rewrite scan_int_app; [| exact Hip | reflexivity].
    rewrite <- app_comm_cons.
    rewrite (scan_frac_some (d :: fp) rest) by (try discriminate; assumption).
    rewrite (scan_exp_none rest Hrest). reflexivity.
Qed.

Lemma scan_number_int_repr (n : Z) (rest : str) :
  ends_number rest -> scan_number (int_repr n ++ rest) = Some (PyInt n, rest).
Proof.
  intros Hrest.
  assert (Hpart : forall k, 0 <= k -> int_part (digits_of k)).
  { intros k Hk. destruct (digits_of_spec k Hk) as (Hall & _ & Hhead & Hne).
    split; [exact Hall |].
    destruct (Z.eq_dec k 0) as [-> | Hnz].
    - exists "0"%char, []. split; [reflexivity | trivial].
    - destruct Hhead as (c & t & E & Hc); [lia |].
      exists c, t. split; [exact E | intros; contradiction]. }
  unfold int_repr. destruct (n <? 0) eqn:E.
  - pose proof (scan_number_numeral true (digits_of (- n)) [] rest
                  (Hpart (- n) ltac:(lia)) eq_refl Hrest) as H.
    cbn [app] in H. cbn [app]. rewrite H. cbv zeta. rewrite app_nil_r.
    destruct (digits_of_spec (- n) ltac:(lia)) as (_ & -> & _). do 3 f_equal. lia.
  - pose proof (scan_number_numeral false (digits_of n) [] rest
                  (Hpart n ltac:(lia)) eq_refl Hrest) as H.
    cbn [app] in H. rewrite H. cbv zeta. rewrite app_nil_r.
    destruct (digits_of_spec n ltac:(lia)) as (_ & -> & _). reflexivity.
Qed.

Lemma fold_digit_zeros (k : nat) :
  fold_left digit_step (repeat "0"%char k) 0 = 0.
Proof. induction k as [| k IH]; simpl; [reflexivity | exact IH]. Qed.

Lemma forallb_firstn_skipn {A : Type} (f : A -> bool) (n : nat) (l : list A) :
  forallb f l = true ->
  forallb f (firstn n l) = true /\ forallb f (skipn n l) = true.
Proof.
  intros H. rewrite <- (firstn_skipn n l), forallb_app in H.
  apply andb_true_iff in H. exact H.
Qed.

Lemma make_float_scale (m : Z) (s : positive) :
  make_float m (0 - Z.of_nat (Pos.to_nat s)) = PyF m s.
Proof.
  unfold make_float. rewrite positive_nat_Z.
  destruct (Z.ltb_spec (0 - Z.pos s) 0) as [_ | H]; [reflexivity |].
  pose proof (Pos2Z.is_pos s). lia.
Qed.

Lemma scan_number_fraction (neg : bool) (ip fp rest : str) :
  int_part ip -> forallb is_digit fp = true -> fp <> [] -> ends_number rest ->
  scan_number ((if neg then ["-"%char] else []) ++ ip ++ "."%char :: fp ++ rest)
  = Some (PyFloat (make_float (if neg then - digits_value (ip ++ fp)
                               else digits_value (ip ++ fp))
                              (0 - Z.of_nat (length fp))), rest).
Proof.
  intros Hip Hfp Hne Hrest.
  pose proof (scan_number_numeral neg ip fp rest Hip Hfp Hrest) as H.
  destruct fp; [contradiction | exact H].
Qed.

Lemma scan_number_float_repr (x : pyfloat) (rest : str) :
  ends_number rest -> scan_number (float_repr x ++ rest) = Some (PyFloat x, rest).
Proof.
  intros Hrest. destruct x as [m s]. unfold float_repr. cbn [mant scale].
  set (k := Pos.to_nat s). set (ds := digits_of (Z.abs m)).
  assert (Hk : (1 <= k)%nat) by (unfold k; lia).
  destruct (digits_of_spec (Z.abs m) (Z.abs_nonneg m)) as (Hall & Hval & Hhead & Hne).
  fold ds in Hall, Hval, Hhead, Hne.
  assert (Hsign : (if m <? 0 then - Z.abs m else Z.abs m) = m)
    by (destruct (m <? 0) eqn:E; lia).
  destruct (length ds <=? k)%nat eqn:Hcmp.
  - apply Nat.leb_le in Hcmp.
    set (fp := repeat "0"%char (k - length ds) ++ ds).
    assert (Hfp : forallb is_digit fp = true).
    { unfold fp. rewrite forallb_app, Hall, andb_true_r.
      apply forallb_forall. intros c Hc. apply repeat_spec in Hc. subst c. reflexivity. }
    assert (Hlen : length fp = k).
    { unfold fp. rewrite length_app, repeat_length. lia. }
    assert (Hfpne : fp <> []) by (intros E; rewrite E in Hlen; simpl in Hlen; lia).
    assert (Hv : digits_value (["0"%char] ++ fp) = Z.abs m).
    { unfold fp. rewrite digits_value_fold. cbn [app fold_left].
      change (digit_step 0 "0") with 0.
      rewrite fold_left_app, fold_digit_zeros. exact Hval. }
    replace (((if m <? 0 then ["-"%char] else []) ++
              "0"%char :: "."%char :: fp) ++ rest)
      with ((if m <? 0 then ["-"%char] else []) ++ ["0"%char] ++
            "."%char :: fp ++ rest)
      by (rewrite <- ?app_assoc; reflexivity).
    rewrite scan_number_fraction; [| | exact Hfp | exact Hfpne | exact Hrest].
    + rewrite Hv, Hsign, Hlen. unfold k. rewrite make_float_scale. reflexivity.
    + split; [reflexivity |]. exists "0"%char, []. split; [reflexivity | trivial].
  - apply Nat.leb_gt in Hcmp.
    set (n := length ds) in *.
    set (ip := firstn (n - k) ds). set (fp := skipn (n - k) ds).
    assert (Hjoin : ip ++ fp = ds) by apply firstn_skipn.
    assert (Hlen : length fp = k).
    { unfold fp. rewrite length_skipn. fold n. lia. }
    assert (Hfpne : fp <> []) by (intros E; rewrite E in Hlen; simpl in Hlen; lia).
    assert (Hip : int_part ip).
    { split; [apply (forallb_firstn_skipn _ _ _ Hall) |].
      destruct (Z.eq_dec (Z.abs m) 0) as [E0 | Hnz].
      - exfalso. unfold n, ds in Hcmp. rewrite E0 in Hcmp. simpl in Hcmp. lia.
      - destruct Hhead as (c & t & E & Hc); [lia |].
        unfold ip. rewrite E. destruct (n - k)%nat as [| j] eqn:Ej; [lia |].
        simpl. exists c, (firstn j t). split; [reflexivity | intros; contradiction]. }
    replace (((if m <? 0 then ["-"%char] else []) ++ ip ++ "."%char :: fp) ++ rest)
      with ((if m <? 0 then ["-"%char] else []) ++ ip ++ "."%char :: fp ++ rest)
      by (rewrite <- ?app_assoc; cbn [app]; rewrite <- ?app_assoc; reflexivity).
    rewrite scan_number_fraction;
      [| exact Hip | apply (forallb_firstn_skipn _ _ _ Hall) | exact Hfpne | exact Hrest].
    rewrite Hjoin, Hval, Hsign, Hlen. unfold k. rewrite make_float_scale. reflexivity.
Qed.

(** ** String literals *)

Lemma scan_string_escape (c : ascii) (rest : str) :
  scan_string (escape_char c ++ rest) = cons_result c (scan_string rest).
Proof.
  destruct c as [[] [] [] [] [] [] [] []]; reflexivity.
Qed.

Lemma scan_string_dumps (s rest : str) :
  scan_string (flat_map escape_char s ++ QUOTE :: rest) = Some (s, rest).
Proof.
  induction s as [| c s IH]; [reflexivity |].
  cbn [flat_map]. rewrite <- app_assoc, scan_string_escape, IH. reflexivity.
Qed.

Lemma escape_char_ascii (c : ascii) : forallb is_ascii (escape_char c) = true.
Proof.
  apply (check_chars (fun c => forallb is_ascii (escape_char c))). reflexivity.
Qed.

(** ** Values *)

(** Induction on values, with the hypothesis for every item of a list
    and of a dict. *)
Lemma pyval_nested_ind (P : pyval -> Prop) :
  P PyNone -> (forall b, P (PyBool b)) -> (forall n, P (PyInt n)) ->
  (forall x, P (PyFloat x)) -> (forall s, P (PyStr s)) ->
  (forall l, Forall P l -> P (PyList l)) ->
  (forall d, Forall (fun kv => P (snd kv)) d -> P (PyDict d)) ->
  P PyObject ->
  forall v, P v.
Proof.
  intros HN HB HI HF HS HL HD HO.
  fix IH 1. intros v. destruct v as [| b | n | x | s | l | d |].
  - exact HN.
  - apply HB.
  - apply HI.
  - apply HF.
  - apply HS.
  - apply HL.
    exact ((fix go (l : list pyval) : Forall P l :=
              match l with
              | [] => @List.Forall_nil _ P
              | x :: r => @List.Forall_cons _ P x r (IH x) (go r)
              end) l).
  - apply HD.
    exact ((fix go (d : list (str * pyval)) : Forall (fun kv => P (snd kv)) d :=
              match d with
              | [] => @List.Forall_nil _ _
              | kv :: r => @List.Forall_cons _ _ kv r (IH (snd kv)) (go r)
              end) d).
  - exact HO.
Qed.

(** How a serialised number starts. *)
Lemma int_repr_head (n : Z) :
  exists c t, int_repr n = c :: t /\ (ord c = 45 \/ is_digit c = true).
Proof.
  unfold int_repr. destruct (n <? 0) eqn:E.
  - exists "-"%char, (digits_of (- n)). split; [reflexivity | left; reflexivity].
  - destruct (digits_of_spec n ltac:(lia)) as (Hall & _ & _ & Hne).
    destruct (digits_of n) as [| c t]; [contradiction |].
    simpl in Hall. apply andb_true_iff in Hall as [Hc _].
    exists c, t. split; [reflexivity | right; exact Hc].
Qed.

Lemma float_repr_head (x : pyfloat) :
  exists c t, float_repr x = c :: t /\ (ord c = 45 \/ is_digit c = true).
Proof.
  unfold float_repr.
  destruct (digits_of_spec (Z.abs (mant x)) (Z.abs_nonneg _)) as (Hall & _ & _ & Hne).
  destruct (mant x <? 0).
  - eexists _, _. split; [reflexivity | left; reflexivity].
  - cbn [app]. destruct (_ <=? _)%nat eqn:Hcmp.
    + eexists _, _. split; [reflexivity | right; reflexivity].
    + apply Nat.leb_gt in Hcmp.
      destruct (digits_of (Z.abs (mant x))) as [| c t]; [contradiction |].
      simpl in Hall. apply andb_true_iff in Hall as [Hc _].
      destruct (length (c :: t) - Pos.to_nat (scale x))%nat eqn:E; [lia |].
      simpl. exists c. eexists. split; [reflexivity | right; exact Hc].
Qed.

Lemma json_dumps_head (v : pyval) (s : str) :
  json_dumps v = Some s -> starts_value s.
Proof.
  assert (Hnum : forall c, ord c = 45 \/ is_digit c = true ->
                 is_ws c = false /\ ord c <> 93 /\ ord c <> 125).
  { intros c [H | H]; [| apply is_digit_ord in H]; unfold is_ws; lia. }
  destruct v as [| [] | n | x | t | l | d |]; simpl; intros H;
    try (injection H as <-; eexists _, _; split; [reflexivity |]; repeat split;
         first [reflexivity | discriminate]).
  - injection H as <-. destruct (int_repr_head n) as (c & t & -> & Hc).
    exists c, t. split; [reflexivity | apply Hnum, Hc].
  - injection H as <-. destruct (float_repr_head x) as (c & t & -> & Hc).
    exists c, t. split; [reflexivity | apply Hnum, Hc].
  - destruct (join_items _ l); [| discriminate]. injection H as <-.
    eexists _, _. split; [reflexivity |]. repeat split; discriminate.
  - destruct (join_items _ d); [| discriminate]. injection H as <-.
    eexists _, _. split; [reflexivity |]. repeat split; discriminate.
  - discriminate.
Qed.

Lemma skip_ws_starts (s rest : str) :
  starts_value s -> skip_ws (s ++ rest) = s ++ rest.
Proof.
  intros (c & t & -> & Hc & _). simpl. rewrite Hc. reflexivity.
Qed.

Lemma scan_once_S (f : nat) (c : ascii) (rest : str) :
  scan_once (S f) (c :: rest)
  = if ord c =? 34 then
      match scan_string rest with
      | Some (t, r) => Some (PyStr t, r)
      | None => None
      end
    else if ord c =? 123 then
      match skip_ws rest with
      | c1 :: r1 =>
          if ord c1 =? 125 then Some (PyDict [], r1)
          else match scan_members f (c1 :: r1) with
               | Some (ms, r) => Some (PyDict (dict_of_pairs ms), r)
               | None => None
               end
      | [] => None
      end
    else if ord c =? 91 then
      match skip_ws rest with
      | c1 :: r1 =>
          if ord c1 =? 93 then Some (PyList [], r1)
          else match scan_elems f (c1 :: r1) with
               | Some (vs, r) => Some (PyList vs, r)
               | None => None
               end
      | [] => None
      end
    else if ord c =? 110 then
      option_map (fun r => (PyNone, r)) (strip_prefix (lit "null") (c :: rest))
    else if ord c =? 116 then
      option_map (fun r => (PyBool true, r)) (strip_prefix (lit "true") (c :: rest))
    else if ord c =? 102 then
      option_map (fun r => (PyBool false, r)) (strip_prefix (lit "false") (c :: rest))
    else scan_number (c :: rest).
Proof. reflexivity. Qed.

Lemma scan_elems_S (f : nat) (s : str) :
  scan_elems (S f) s
  = match scan_once f s with
    | None => None
    | Some (v, r) =>
        match skip_ws r with
        | c :: r1 =>
            if ord c =? 93 then Some ([v], r1)
            else if ord c =? 44 then
              match scan_elems f (skip_ws r1) with
              | Some (vs, r2) => Some (v :: vs, r2)
              | None => None
              end
            else None
        | [] => None
        end
    end.
Proof. reflexivity. Qed.

Lemma scan_members_S (f : nat) (s1 : str) :
  scan_members (S f) (QUOTE :: s1)
  = match scan_string s1 with
    | None => None
    | Some (k, r) =>
        match skip_ws r with
        | c :: r1 =>
            if ord c =? 58 then
              match scan_once f (skip_ws r1) with
              | None => None
              | Some (v, r2) =>
                  match skip_ws r2 with
                  | c2 :: r3 =>
                      if ord c2 =? 125 then Some ([(k, v)], r3)
                      else if ord c2 =? 44 then
                        match scan_members f (skip_ws r3) with
                        | Some (ms, r4) => Some ((k, v) :: ms, r4)
                        | None => None
                        end
                      else None
                  | [] => None
                  end
              end
            else None
        | [] => None
        end
    end.
Proof. reflexivity. Qed.

Lemma skip_ws_comma (t : str) : skip_ws (","%char :: t) = ","%char :: t.
Proof. reflexivity. Qed.

Lemma skip_ws_space (t : str) : skip_ws (" "%char :: t) = skip_ws t.
Proof. reflexivity. Qed.

(** The text of a non-empty list of items starts like its first item. *)
Lemma join_items_head {A : Type} (f : A -> option str) (l : list A) (body : str) :
  l <> [] -> join_items f l = Some body ->
  (forall x sx, In x l -> f x = Some sx -> starts_value sx) ->
  starts_value body.
Proof.
  destruct l as [| x r]; [contradiction |]. intros _ H Hf. simpl in H.
  destruct (f x) as [sx |] eqn:Ex; [| discriminate].
  destruct (join_items f r) as [sr |]; [| discriminate].
  destruct (Hf x sx (or_introl eq_refl) Ex) as (c & t & -> & Hc).
  injection H as <-. destruct r; exists c; eexists; (split; [reflexivity | exact Hc]).
Qed.

Lemma scan_elems_items (l : list pyval) :
  Forall reads_back l ->
  forall body, join_items json_dumps l = Some body -> l <> [] ->
  forallb well_formed l = true ->
  forall fuel rest,
    (list_sum (map (fun x => S (weight x)) l) <= fuel)%nat ->
    scan_elems fuel (body ++ "]"%char :: rest) = Some (l, rest).
Proof.
  induction 1 as [| x r Hx Hr IH]; [contradiction |].
  intros body Hbody _ Hwf fuel rest Hfuel.
  simpl in Hwf. apply andb_true_iff in Hwf as [Hwx Hwr].
  cbn [join_items] in Hbody.
  destruct (json_dumps x) as [sx |] eqn:Ex; [| discriminate].
  destruct (join_items json_dumps r) as [sr |] eqn:Er; [| discriminate].
  cbn [map list_sum] in Hfuel.
  destruct fuel as [| f]; [simpl in Hfuel; lia |].
  rewrite scan_elems_S.
  destruct r as [| y r'].
  - injection Hbody as <-.
    rewrite (Hx sx Ex Hwx f ("]"%char :: rest)); [reflexivity | simpl in Hfuel; lia |].
    repeat split; discriminate.
  - injection Hbody as <-.
    change (lit ", ") with [","%char; " "%char].
    rewrite <- !app_assoc. cbn [app].
    rewrite (Hx sx Ex Hwx f); [| simpl in Hfuel |- *; lia | repeat split; discriminate].
    rewrite skip_ws_comma. cbv beta iota.
    change (ord "," =? 93) with false. change (ord "," =? 44) with true.
    cbv iota.
    assert (Hs : starts_value sr).
    { apply (join_items_head json_dumps (y :: r') sr); [discriminate | exact Er |].
      intros z sz _ Hz. apply (json_dumps_head z sz Hz). }
    rewrite skip_ws_space.
    rewrite (skip_ws_starts sr _ Hs).
    rewrite (IH sr eq_refl ltac:(discriminate) Hwr f rest); [reflexivity |].
    simpl in Hfuel |- *. lia.
Qed.

Lemma skip_ws_colon (t : str) : skip_ws (":"%char :: t) = ":"%char :: t.
Proof. reflexivity. Qed.

Lemma skip_ws_brace (t : str) : skip_ws ("}"%char :: t) = "}"%char :: t.
Proof. reflexivity. Qed.

(** Bring a text to the form [c1 :: ... ++ (... ++ rest)]. *)
Ltac norm_app := repeat (progress (rewrite <- ?app_assoc; cbn [app])).

Lemma dumps_member_head (kv : str * pyval) (s : str) :
  dumps_member kv = Some s -> starts_value s /\ exists t, s = QUOTE :: t.
Proof.
  unfold dumps_member. destruct (json_dumps (snd kv)); [| discriminate].
  intros H. injection H as <-. unfold dumps_str. cbn [app]. split.
  - eexists _, _. split; [reflexivity |]. repeat split; discriminate.
  - eexists. reflexivity.
Qed.

Lemma scan_members_items (d : list (str * pyval)) :
  Forall (fun kv => reads_back (snd kv)) d ->
  forall body, join_items dumps_member d = Some body -> d <> [] ->
  forallb (fun kv => well_formed (snd kv)) d = true ->
  forall fuel rest,
    (list_sum (map (fun kv => S (weight (snd kv))) d) <= fuel)%nat ->
    scan_members fuel (body ++ "}"%char :: rest) = Some (d, rest).
Proof.
  induction 1 as [| [k x] r Hx Hr IH]; [contradiction |].
  intros body Hbody _ Hwf fuel rest Hfuel.
  cbn [forallb snd] in Hwf. apply andb_true_iff in Hwf as [Hwx Hwr].
  cbn [join_items] in Hbody. unfold dumps_member at 1 in Hbody.
  cbn [fst snd] in Hbody, Hx.
  destruct (json_dumps x) as [sx |] eqn:Ex; [| discriminate].
  cbn [option_map] in Hbody.
  destruct (join_items dumps_member r) as [sr |] eqn:Er; [| discriminate].
  cbn [map list_sum snd] in Hfuel.
  destruct fuel as [| f]; [simpl in Hfuel; lia |].
  assert (Hf : (weight x <= f)%nat) by (simpl in Hfuel; lia).
  pose proof (json_dumps_head x sx Ex) as Hsx.
  change (lit ": ") with [":"%char; " "%char] in Hbody.
  destruct r as [| kv' r'].
  - injection Hbody as <-. unfold dumps_str. norm_app.
    rewrite scan_members_S, scan_string_dumps, skip_ws_colon. cbv beta iota.
    change (ord ":" =? 58) with true. cbv iota.
    rewrite skip_ws_space, (skip_ws_starts sx _ Hsx).
    rewrite (Hx sx Ex Hwx f ("}"%char :: rest) Hf); [reflexivity |].
    repeat split; discriminate.
  - injection Hbody as <-. unfold dumps_str.
    change (lit ", ") with [","%char; " "%char]. norm_app.
    rewrite scan_members_S, scan_string_dumps, skip_ws_colon. cbv beta iota.
    change (ord ":" =? 58) with true. cbv iota.
    rewrite skip_ws_space, (skip_ws_starts sx _ Hsx).
    rewrite (Hx sx Ex Hwx f _ Hf); [| repeat split; discriminate].
    rewrite skip_ws_comma. cbv beta iota.
    change (ord "," =? 125) with false. change (ord "," =? 44) with true.
    cbv iota.
    assert (Hs : starts_value sr).
    { apply (join_items_head dumps_member (kv' :: r') sr); [discriminate | exact Er |].
      intros z sz _ Hz. apply (dumps_member_head z sz Hz). }
    rewrite skip_ws_space, (skip_ws_starts sr _ Hs).
    rewrite (IH sr eq_refl ltac:(discriminate) Hwr f rest); [reflexivity |].
    simpl in Hfuel |- *. lia.
Qed.

(** ** Dicts without repeated keys *)

Lemma dict_set_fresh (d : list (str * pyval)) (k : str) (v : pyval) :
  ~ In k (map fst d) -> dict_set d k v = d ++ [(k, v)].
Proof.
  induction d as [| [k0 v0] d IH]; simpl; [reflexivity |].
  intros H. rewrite bool_decide_eq_false_2 by (intros E; apply H; left; exact E).
  rewrite IH by (intros Hin; apply H; right; exact Hin). reflexivity.
Qed.

Lemma dict_of_pairs_acc (d acc : list (str * pyval)) :
  List.NoDup (map fst (acc ++ d)) ->
  fold_left (fun a kv => dict_set a (fst kv) (snd kv)) d acc = acc ++ d.
Proof.
  revert acc. induction d as [| [k v] d IH]; intros acc H; simpl.
  - rewrite app_nil_r. reflexivity.
  - rewrite dict_set_fresh.
    + rewrite IH; rewrite <- app_assoc; [reflexivity | exact H].
    + rewrite map_app in H. simpl in H.
      apply NoDup_remove_2 in H. intros Hin. apply H, in_or_app. left. exact Hin.
Qed.

Lemma dict_of_pairs_unique (d : list (str * pyval)) :
  List.NoDup (map fst d) -> dict_of_pairs d = d.
Proof. intros H. apply (dict_of_pairs_acc d [] H). Qed.

(** ** Reading back what [json.dumps] wrote *)

Lemma scan_once_number (f : nat) (c : ascii) (t : str) :
  ord c = 45 \/ is_digit c = true ->
  scan_once (S f) (c :: t) = scan_number (c :: t).
Proof.
  intros H. rewrite scan_once_S.
  assert (Hc : ord c = 45 \/ 48 <= ord c <= 57)
    by (destruct H as [H | H]; [left; exact H | right; apply is_digit_ord, H]).
  replace (ord c =? 34) with false by lia.
  replace (ord c =? 123) with false by lia.
  replace (ord c =? 91) with false by lia.
  replace (ord c =? 110) with false by lia.
  replace (ord c =? 116) with false by lia.
  replace (ord c =? 102) with false by lia.
  reflexivity.
Qed.

Theorem scan_once_dumps (v : pyval) : reads_back v.
Proof.
  induction v as [| b | n | x | t | l IHl | d IHd |] using pyval_nested_ind;
    intros s Hs Hwf fuel rest Hfuel Hrest;
    (destruct fuel as [| f]; [simpl in Hfuel; lia |]).
  - injection Hs as <-. reflexivity.
  - destruct b; injection Hs as <-; reflexivity.
  - injection Hs as <-. destruct (int_repr_head n) as (c & t & E & Hc).
    rewrite E. cbn [app]. rewrite (scan_once_number f c _ Hc).
    change (c :: t ++ rest) with ((c :: t) ++ rest). rewrite <- E.
    apply scan_number_int_repr, Hrest.
  - injection Hs as <-. destruct (float_repr_head x) as (c & t & E & Hc).
    rewrite E. cbn [app]. rewrite (scan_once_number f c _ Hc).
    change (c :: t ++ rest) with ((c :: t) ++ rest). rewrite <- E.
    apply scan_number_float_repr, Hrest.
  - injection Hs as <-. unfold dumps_str. norm_app.
    rewrite scan_once_S. change (ord QUOTE =? 34) with true. cbv iota.
    rewrite scan_string_dumps. reflexivity.
  - cbn [json_dumps] in Hs.
    destruct (join_items json_dumps l) as [body |] eqn:Eb; [| discriminate].
    injection Hs as <-. cbn [well_formed] in Hwf. cbn [weight] in Hfuel.
    norm_app. rewrite scan_once_S.
    change (ord "[" =? 34) with false. change (ord "[" =? 123) with false.
    change (ord "[" =? 91) with true. cbv iota.
    destruct l as [| y l'].
    + injection Eb as <-. reflexivity.
    + assert (Hb : starts_value body).
      { apply (join_items_head json_dumps (y :: l') body); [discriminate | exact Eb |].
        intros z sz _ Hz. apply (json_dumps_head z sz Hz). }
      rewrite (skip_ws_starts body _ Hb).
      pose proof (scan_elems_items (y :: l') IHl body Eb ltac:(discriminate) Hwf f rest
                    ltac:(lia)) as H.
      destruct Hb as (c1 & t1 & -> & _ & Hc1 & _). cbn [app] in H |- *.
      replace (ord c1 =? 93) with false by lia. rewrite H. reflexivity.
  - cbn [json_dumps] in Hs.
    change (join_items _ d) with (join_items dumps_member d) in Hs.
    destruct (join_items dumps_member d) as [body |] eqn:Eb; [| discriminate].
    injection Hs as <-. cbn [well_formed] in Hwf.
    apply andb_true_iff in Hwf as [Hnd Hwf]. apply bool_decide_eq_true in Hnd.
    cbn [weight] in Hfuel.
    norm_app. rewrite scan_once_S.
    change (ord "{" =? 34) with false. change (ord "{" =? 123) with true. cbv iota.
    destruct d as [| kv d'].
    + injection Eb as <-. reflexivity.
    + assert (Hb : starts_value body).
      { apply (join_items_head dumps_member (kv :: d') body); [discriminate | exact Eb |].
        intros z sz _ Hz. apply (dumps_member_head z sz Hz). }
      rewrite (skip_ws_starts body _ Hb).
      pose proof (scan_members_items (kv :: d') IHd body Eb ltac:(discriminate) Hwf f rest
                    ltac:(lia)) as H.
      destruct Hb as (c1 & t1 & -> & _ & _ & Hc1). cbn [app] in H |- *.
      replace (ord c1 =? 125) with false by lia. rewrite H.
      apply NoDup_ListNoDup in Hnd. rewrite (dict_of_pairs_unique _ Hnd). reflexivity.
  - discriminate.
Qed.

(** ** The text [json.dumps] writes *)

Lemma join_items_length {A : Type} (f : A -> option str) (w : A -> nat)
    (l : list A) (body : str) :
  join_items f l = Some body ->
  Forall (fun x => forall sx, f x = Some sx -> (w x <= length sx)%nat) l ->
  (list_sum (map (fun x => S (w x)) l) <= S (length body))%nat.
Proof.
  intros Hbody Hall. revert body Hbody.
  induction Hall as [| x r Hx _ IH]; intros body Hbody.
  - simpl. lia.
  - cbn [join_items] in Hbody.
    destruct (f x) as [sx |] eqn:Ex; [| discriminate].
    destruct (join_items f r) as [sr |] eqn:Er; [| discriminate].
    specialize (Hx sx eq_refl). specialize (IH sr eq_refl).
    cbn [map]. change (list_sum (?a :: ?l)) with (a + list_sum l)%nat.
    destruct r as [| y r']; injection Hbody as <-.
    + simpl. lia.
    + rewrite !length_app. simpl length at 2. lia.
Qed.

Lemma json_dumps_weight (v : pyval) (s : str) :
  json_dumps v = Some s -> (weight v <= length s)%nat.
Proof.
  revert s.
  induction v as [| b | n | x | t | l IHl | d IHd |] using pyval_nested_ind;
    intros s Hs;
    try (destruct (json_dumps_head _ s Hs) as (c & r & -> & _); simpl; lia).
  - cbn [json_dumps] in Hs.
    destruct (join_items json_dumps l) as [body |] eqn:Eb; [| discriminate].
    injection Hs as <-.
    pose proof (join_items_length json_dumps weight l body Eb IHl) as H.
    cbn [weight length]. rewrite length_app. simpl. lia.
  - cbn [json_dumps] in Hs.
    change (join_items _ d) with (join_items dumps_member d) in Hs.
    destruct (join_items dumps_member d) as [body |] eqn:Eb; [| discriminate].
    injection Hs as <-.
    assert (Hall : Forall (fun kv => forall sx, dumps_member kv = Some sx ->
                             (weight (snd kv) <= length sx)%nat) d).
    { eapply Forall_impl; [exact IHd |]. intros kv Hkv sx Hsx.
      unfold dumps_member in Hsx.
      destruct (json_dumps (snd kv)) as [sv |] eqn:Ev; [| discriminate].
      injection Hsx as <-. specialize (Hkv sv Ev).
      simpl length. rewrite !length_app. simpl length. lia. }
    pose proof (join_items_length dumps_member (fun kv => weight (snd kv)) d body Eb Hall)
      as H.
    cbn [weight length]. rewrite length_app. simpl. lia.
Qed.

(** [json.loads(json.dumps(v)) == v]. *)
Theorem json_loads_dumps (v : pyval) (s : str) :
  json_dumps v = Some s -> well_formed v = true -> json_loads s = Some v.
Proof.
  intros Hs Hwf. unfold json_loads.
  pose proof (json_dumps_head v s Hs) as Hhead.
  pose proof (skip_ws_starts s [] Hhead) as Hskip. rewrite app_nil_r in Hskip.
  rewrite Hskip.
  pose proof (scan_once_dumps v s Hs Hwf (S (length s)) []) as H.
  rewrite app_nil_r in H. rewrite H; [reflexivity | | exact I].
  pose proof (json_dumps_weight v s Hs). lia.
Qed.

Lemma is_digit_ascii (c : ascii) : is_digit c = true -> is_ascii c = true.
Proof. intros H. apply is_digit_ord in H. unfold is_ascii. lia. Qed.

Lemma digits_ascii (ds : str) :
  forallb is_digit ds = true -> forallb is_ascii ds = true.
Proof.
  intros H. apply forallb_forall. intros c Hc.
  rewrite forallb_forall in H. apply is_digit_ascii, H, Hc.
Qed.

Lemma int_repr_ascii (n : Z) : forallb is_ascii (int_repr n) = true.
Proof.
  unfold int_repr. destruct (n <? 0) eqn:E; cbn [forallb].
  - rewrite digits_ascii; [reflexivity | apply digits_of_spec; lia].
  - apply digits_ascii, digits_of_spec. lia.
Qed.

Lemma float_repr_ascii (x : pyfloat) : forallb is_ascii (float_repr x) = true.
Proof.
  unfold float_repr.
  pose proof (digits_ascii _ (proj1 (digits_of_spec (Z.abs (mant x)) (Z.abs_nonneg _))))
    as Hds.
  set (ds := digits_of (Z.abs (mant x))) in *.
  rewrite forallb_app. apply andb_true_iff. split.
  - destruct (mant x <? 0); reflexivity.
  - destruct (_ <=? _)%nat.
    + cbn [forallb]. rewrite forallb_app, Hds, andb_true_r.
      change (is_ascii "0" && (is_ascii "." && ?b)) with b.
      apply forallb_forall. intros c Hc. apply repeat_spec in Hc. subst c. reflexivity.
    + destruct (forallb_firstn_skipn is_ascii (length ds - Pos.to_nat (scale x)) ds Hds)
        as [H1 H2].
      rewrite forallb_app, H1. cbn [forallb]. rewrite H2. reflexivity.
Qed.

Lemma dumps_str_ascii (s : str) : forallb is_ascii (dumps_str s) = true.
Proof.
  unfold dumps_str. cbn [forallb]. rewrite forallb_app.
  change (is_ascii QUOTE) with true. cbn [andb forallb]. rewrite andb_true_r.
  induction s as [| c s IH]; [reflexivity |].
  cbn [flat_map]. rewrite forallb_app, escape_char_ascii, IH. reflexivity.
Qed.

Lemma join_items_ascii {A : Type} (f : A -> option str) (l : list A) (body : str) :
  join_items f l = Some body ->
  Forall (fun x => forall sx, f x = Some sx -> forallb is_ascii sx = true) l ->
  forallb is_ascii body = true.
Proof.
  intros Hbody Hall. revert body Hbody.
  induction Hall as [| x r Hx _ IH]; intros body Hbody.
  - injection Hbody as <-. reflexivity.
  - cbn [join_items] in Hbody.
    destruct (f x) as [sx |] eqn:Ex; [| discriminate].
    destruct (join_items f r) as [sr |] eqn:Er; [| discriminate].
    specialize (Hx sx eq_refl). specialize (IH sr eq_refl).
    destruct r as [| y r']; injection Hbody as <-; [exact Hx |].
    rewrite forallb_app, Hx. exact IH.
Qed.

(** With [ensure_ascii], the text is ASCII. *)
Lemma json_dumps_ascii (v : pyval) (s : str) :
  json_dumps v = Some s -> forallb is_ascii s = true.
Proof.
  revert s.
  induction v as [| b | n | x | t | l IHl | d IHd |] using pyval_nested_ind;
    intros s Hs.
  - injection Hs as <-. reflexivity.
  - destruct b; injection Hs as <-; reflexivity.
  - injection Hs as <-. apply int_repr_ascii.
  - injection Hs as <-. apply float_repr_ascii.
  - injection Hs as <-. apply dumps_str_ascii.
  - cbn [json_dumps] in Hs.
    destruct (join_items json_dumps l) as [body |] eqn:Eb; [| discriminate].
    injection Hs as <-. cbn [forallb].
    rewrite forallb_app, (join_items_ascii json_dumps l body Eb IHl). reflexivity.
  - cbn [json_dumps] in Hs.
    change (join_items _ d) with (join_items dumps_member d) in Hs.
    destruct (join_items dumps_member d) as [body |] eqn:Eb; [| discriminate].
    injection Hs as <-. cbn [forallb].
    rewrite forallb_app, (join_items_ascii dumps_member d body Eb); [reflexivity |].
    eapply Forall_impl; [exact IHd |]. intros kv Hkv sx Hsx.
    unfold dumps_member in Hsx.
    destruct (json_dumps (snd kv)) as [sv |] eqn:Ev; [| discriminate].
    injection Hsx as <-. specialize (Hkv sv Ev).
    change (forallb is_ascii (dumps_str (fst kv) ++ [":"%char; " "%char] ++ sv) = true).
    rewrite !forallb_app, dumps_str_ascii, Hkv. reflexivity.
  - discriminate.
Qed.

(** ** The token [SimpleJWT.encode] builds *)

Lemma header_segment_eq :
  json_dumps SimpleJWT.header = Some (default [] (json_dumps SimpleJWT.header)).
Proof. reflexivity. Qed.

Lemma encode_eq (payload : pyval) (secret : str) :
  SimpleJWT.encode payload secret
  = match json_dumps payload with
    | Some payload_json => token_of payload_json secret
    | None => []
    end.
Proof.
  unfold SimpleJWT.encode.
  rewrite header_segment_eq. set (hj := default [] (json_dumps SimpleJWT.header)).
  change (Some hj ≫= ?f) with (f hj). cbv beta.
  rewrite b64_segment_body. change (Some ?x ≫= ?f) with (f x). cbv beta.
  destruct (json_dumps payload) as [pj |]; [| reflexivity].
  change (Some pj ≫= ?f) with (f pj). cbv beta.
  rewrite b64_segment_body. change (Some ?x ≫= ?f) with (f x). cbv beta.
  rewrite signature_of_body. reflexivity.
Qed.

Lemma split_three (h p s : str) :
  (forall c, In c h -> c <> "."%char) ->
  (forall c, In c p -> c <> "."%char) ->
  (forall c, In c s -> c <> "."%char) ->
  split "."%char (h ++ "."%char :: p ++ "."%char :: s) = [h; p; s].
Proof.
  intros Hh Hp Hs.
  rewrite (split_app "." h _ Hh), (split_app "." p _ Hp), (split_no_sep "." s Hs).
  reflexivity.
Qed.

Lemma b64_body_no_dot (b : bytes) (c : ascii) : In c (b64_body b) -> c <> "."%char.
Proof. intros H. apply (b64_body_chars b c H). Qed.

Lemma b64_body_ascii (b : bytes) : forallb is_ascii (b64_body b) = true.
Proof. apply forallb_forall. intros c Hc. apply (b64_body_chars b c Hc). Qed.

(** What [decode] does with a token that has three segments, the first
    two those of a payload text. *)
Lemma decode_with_signature (payload_json sig secret : str) (now : pyfloat) :
  (forall c, In c sig -> c <> "."%char) ->
  SimpleJWT.decode (with_signature payload_json sig) secret now
  = match compare_digest sig (signature_segment secret (signing_input payload_json)) with
    | None => inl (Raised CompareDigestError)
    | Some false => inl InvalidSignature
    | Some true =>
        match utf8_decode (utf8_encode payload_json) with
        | None => inl (Raised UnicodeError)
        | Some text =>
            match json_loads text with
            | None => inl (Raised JSONError)
            | Some payload => SimpleJWT.check_expiration payload now
            end
        end
    end.
Proof.
  intros Hsig. unfold SimpleJWT.decode, with_signature, signing_input.
  rewrite <- app_assoc. cbn [app].
  rewrite (split_three header_segment (payload_segment payload_json) sig);
    [| apply b64_body_no_dot | apply b64_body_no_dot | exact Hsig].
  rewrite signature_of_body.
  change (b64_body (hmac_sha256 (utf8_encode secret) (utf8_encode ?m)))
    with (signature_segment secret m).
  change (header_segment ++ "."%char :: payload_segment payload_json)
    with (signing_input payload_json).
  destruct (compare_digest _ _) as [[] |]; [| reflexivity ..].
  unfold payload_segment. rewrite urlsafe_b64decode_body. reflexivity.
Qed.

(** Decoding a token [encode] built runs the expiry check on the
    payload that went in. *)
Theorem decode_encode (payload : pyval) (secret : str) (now : pyfloat) :
  well_formed payload = true ->
  is_Some (json_dumps payload) ->
  SimpleJWT.decode (SimpleJWT.encode payload secret) secret now
  = SimpleJWT.check_expiration payload now.
Proof.
  intros Hwf [pj Hpj]. rewrite encode_eq, Hpj.
  change (token_of pj secret)
    with (with_signature pj (signature_segment secret (signing_input pj))).
  rewrite decode_with_signature by apply b64_body_no_dot.
  rewrite compare_digest_refl by apply b64_body_ascii.
  pose proof (json_dumps_ascii payload pj Hpj) as Hascii.
  rewrite (utf8_encode_ascii pj Hascii), (utf8_decode_ascii pj Hascii).
  rewrite (json_loads_dumps payload pj Hpj Hwf). reflexivity.
Qed.










(** ** The expiry check *)

Lemma check_expiration_inr (p q : pyval) (now : pyfloat) :
  SimpleJWT.check_expiration p now = inr q -> q = p.
Proof.
  unfold SimpleJWT.check_expiration.
  destruct (contains_exp p) as [[] |]; try discriminate.
  - destruct (exp_item p) as [e |]; try discriminate.
    destruct (lt_time e now) as [[] |]; try discriminate. congruence.
  - congruence.
Qed.

Lemma lt_time_number (e : pyval) (q : Q) (now : pyfloat) :
  number_value e = Some q -> lt_time e now = Some (Qlt_bool q (fval now)).
Proof.
  destruct e as [| b | n | x | | | |]; simpl; intros H; try discriminate;
    injection H as <-; reflexivity.
Qed.

(** The check on a dict whose [exp] is a number. *)
Lemma check_expiration_number (d : list (str * pyval)) (e : pyval) (q : Q)
    (now : pyfloat) :
  dict_get d (lit "exp") = Some e -> number_value e = Some q ->
  SimpleJWT.check_expiration (PyDict d) now
  = if Qlt_bool q (fval now) then inl TokenExpired else inr (PyDict d).
Proof.
  intros Hd Hq. unfold SimpleJWT.check_expiration, contains_exp, exp_item.
  rewrite Hd, (lt_time_number e q now Hq).
  rewrite bool_decide_eq_true_2 by (eexists; reflexivity). reflexivity.
Qed.

(** The check on a dict without [exp]. *)
Lemma check_expiration_absent (d : list (str * pyval)) (now : pyfloat) :
  dict_get d (lit "exp") = None ->
  SimpleJWT.check_expiration (PyDict d) now = inr (PyDict d).
Proof.
  intros Hd. unfold SimpleJWT.check_expiration, contains_exp. rewrite Hd.
  rewrite bool_decide_eq_false_2; [reflexivity |]. intros [x Hx]. discriminate.
Qed.

(** A successful [decode] went through the expiry check. *)
Lemma decode_inr_check (token secret : str) (now : pyfloat) (payload : pyval) :
  SimpleJWT.decode token secret now = inr payload ->
  SimpleJWT.check_expiration payload now = inr payload.
Proof.
  unfold SimpleJWT.decode.
  destruct (split "." token) as [| h [| p [| s [| x l]]]]; try discriminate.
  destruct (SimpleJWT.signature_of _ _); try discriminate.
  destruct (compare_digest _ _) as [[] |]; try discriminate.
  destruct (urlsafe_b64decode _); try discriminate.
  destruct (utf8_decode _); try discriminate.
  destruct (json_loads _) as [p0 |]; try discriminate.
  intros H. pose proof (check_expiration_inr p0 payload now H) as E.
  subst payload. exact H.
Qed.

(** ** The admission check *)

(** C9.  [verify_jwt] accepts a token only if [decode] succeeds, so the
    signature and expiry checks pass, and the decoded claims are a dict
    with a [sub] that is not [None]; a correctly signed, unexpired token
    whose claims have no [sub], or a null one, is rejected, and the
    request that carries it fails with 403; [__call__] returns only for
    a [Bearer] credential whose token [verify_jwt] accepts. *)
Theorem verify_jwt_requires_subject (SECRET_KEY : str) :
  (forall (token : str) (now : pyfloat),
     SecurityBearer.verify_jwt SECRET_KEY token now = true ->
     exists (d : list (str * pyval)) (v : pyval),
       SimpleJWT.decode token SECRET_KEY now = inr (PyDict d) /\
       dict_get d (lit "sub") = Some v /\ v <> PyNone) /\
  (forall (d : list (str * pyval)) (now : pyfloat),
     well_formed (PyDict d) = true ->
     is_Some (json_dumps (PyDict d)) ->
     SimpleJWT.check_expiration (PyDict d) now = inr (PyDict d) ->
     dict_get d (lit "sub") = None \/ dict_get d (lit "sub") = Some PyNone ->
     let token := SimpleJWT.encode (PyDict d) SECRET_KEY in
     SimpleJWT.decode token SECRET_KEY now = inr (PyDict d) /\
     SecurityBearer.verify_jwt SECRET_KEY token now = false /\
     SecurityBearer.__call__ SECRET_KEY (Some (lit "Bearer", token)) now
     = Forbidden (lit "Invalid token or expired token.")) /\
  (forall (credentials : option (str * str)) (now : pyfloat) (token : str),
     SecurityBearer.__call__ SECRET_KEY credentials now = Returned token ->
     credentials = Some (lit "Bearer", token) /\
     SecurityBearer.verify_jwt SECRET_KEY token now = true).
Proof.
  split; [| split].
  - intros token now. unfold SecurityBearer.verify_jwt.
    destruct (SimpleJWT.decode token SECRET_KEY now) as [e | p]; [discriminate |].
    destruct p as [| | | | | | d |]; try discriminate.
    destruct (dict_get d (lit "sub")) as [v |] eqn:E; [| discriminate].
    intros H. exists d, v. split; [reflexivity |]. split; [exact E |].
    intros ->. discriminate.
  - intros d now Hwf Hser Hexp Hsub token.
    assert (Hdec : SimpleJWT.decode token SECRET_KEY now = inr (PyDict d)).
    { unfold token. rewrite (decode_encode _ _ _ Hwf Hser). exact Hexp. }
    assert (Hver : SecurityBearer.verify_jwt SECRET_KEY token now = false).
    { unfold SecurityBearer.verify_jwt. rewrite Hdec.
      destruct Hsub as [-> | ->]; reflexivity. }
    split; [exact Hdec |]. split; [exact Hver |].
    unfold SecurityBearer.__call__. rewrite Hver.
    rewrite bool_decide_eq_true_2 by reflexivity. reflexivity.
  - intros [[scheme tok] |] now token; unfold SecurityBearer.__call__;
      [| discriminate].
    destruct (bool_decide (scheme = lit "Bearer")) eqn:Es; [| discriminate].
    apply bool_decide_eq_true in Es. subst scheme. simpl.
    destruct (SecurityBearer.verify_jwt SECRET_KEY tok now) eqn:Ev; [| discriminate].
    simpl. intros H. injection H as ->. split; [reflexivity | exact Ev].
Qed.

Lemma verify_jwt_requires_subject_witness :
  well_formed payload_no_sub = true /\
  is_Some (json_dumps payload_no_sub) /\
  SimpleJWT.check_expiration payload_no_sub instant_before = inr payload_no_sub /\
  SecurityBearer.verify_jwt DEFAULT_SECRET_KEY
    (SimpleJWT.encode payload_no_sub DEFAULT_SECRET_KEY) instant_before = false /\
  SecurityBearer.__call__ DEFAULT_SECRET_KEY
    (Some (lit "Bearer", SimpleJWT.encode payload_no_sub DEFAULT_SECRET_KEY))
    instant_before
  = Forbidden (lit "Invalid token or expired token.").
Proof.
  assert (Hwf : well_formed payload_no_sub = true) by (vm_compute; reflexivity).
  assert (Hser : is_Some (json_dumps payload_no_sub)) by (eexists; reflexivity).
  assert (Hexp : SimpleJWT.check_expiration payload_no_sub instant_before
                 = inr payload_no_sub) by (vm_compute; reflexivity).
  split; [exact Hwf |]. split; [exact Hser |]. split; [exact Hexp |].
  exact (proj2 (proj1 (proj2 (verify_jwt_requires_subject DEFAULT_SECRET_KEY))
                  _ instant_before Hwf Hser Hexp (or_introl eq_refl))).
Defined.

(** ** Expiry *)

(** A token verified at the very instant it expires is accepted: the
    check rejects only an expiration strictly before the time of the
    check. *)
Lemma decode_at_expiry_instant_accepted :
  exp_item payload_0 = Some (PyFloat instant_0) /\
  (fval instant_0 <= fval instant_0)%Q /\
  SimpleJWT.decode (SimpleJWT.encode payload_0 DEFAULT_SECRET_KEY)
                   DEFAULT_SECRET_KEY instant_0
  = inr payload_0 /\
  SimpleJWT.decode (SimpleJWT.encode payload_0 DEFAULT_SECRET_KEY)
                   DEFAULT_SECRET_KEY instant_0
  <> inl TokenExpired.
Proof.
  assert (H : SimpleJWT.decode (SimpleJWT.encode payload_0 DEFAULT_SECRET_KEY)
                DEFAULT_SECRET_KEY instant_0 = inr payload_0)
    by (vm_compute; reflexivity).
  split; [reflexivity |]. split; [apply Qle_refl |]. split; [exact H |].
  rewrite H. discriminate.
Qed.

(** C5, as the code has it.  A successful [decode] returns claims whose
    [exp], when present and a number, is not before the time of the
    check.  For a token [encode] built from claims with a numeric [exp],
    [decode] fails with "Token has expired" when [exp] is strictly
    before the time of the check, and returns the claims when [exp] is
    at that time or after it. *)
Theorem decode_expiry_check :
  (forall (token secret : str) (now : pyfloat) (payload e : pyval) (q : Q),
     SimpleJWT.decode token secret now = inr payload ->
     exp_item payload = Some e -> number_value e = Some q ->
     (fval now <= q)%Q) /\
  (forall (d : list (str * pyval)) (secret : str) (now : pyfloat) (e : pyval) (q : Q),
     well_formed (PyDict d) = true -> is_Some (json_dumps (PyDict d)) ->
     dict_get d (lit "exp") = Some e -> number_value e = Some q ->
     let r := SimpleJWT.decode (SimpleJWT.encode (PyDict d) secret) secret now in
     ((q < fval now)%Q -> r = inl TokenExpired) /\
     ((fval now <= q)%Q -> r = inr (PyDict d))).
Proof.
  split.
  - intros token secret now payload e q Hdec He Hq.
    apply decode_inr_check in Hdec.
    destruct payload as [| | | | | | d |]; try discriminate.
    simpl in He. rewrite (check_expiration_number d e q now He Hq) in Hdec.
    destruct (Qlt_bool q (fval now)) eqn:E; [discriminate |].
    apply Qlt_bool_false in E. exact E.
  - intros d secret now e q Hwf Hser He Hq r. unfold r.
    rewrite (decode_encode _ _ _ Hwf Hser), (check_expiration_number d e q now He Hq).
    split; intros H.
    + apply Qlt_bool_iff in H. rewrite H. reflexivity.
    + apply Qlt_bool_false in H. rewrite H. reflexivity.
Qed.

Lemma decode_expiry_check_witness :
  well_formed payload_0 = true /\ is_Some (json_dumps payload_0) /\
  (fval instant_0 < fval instant_after)%Q /\
  (fval instant_before <= fval instant_0)%Q /\
  SimpleJWT.decode (SimpleJWT.encode payload_0 DEFAULT_SECRET_KEY)
                   DEFAULT_SECRET_KEY instant_after = inl TokenExpired /\
  SimpleJWT.decode (SimpleJWT.encode payload_0 DEFAULT_SECRET_KEY)
                   DEFAULT_SECRET_KEY instant_before = inr payload_0.
Proof.
  assert (Hwf : well_formed payload_0 = true) by (vm_compute; reflexivity).
  assert (Hser : is_Some (json_dumps payload_0)) by (eexists; reflexivity).
  assert (Hlt : (fval instant_0 < fval instant_after)%Q) by (vm_compute; reflexivity).
  assert (Hle : (fval instant_before <= fval instant_0)%Q) by (vm_compute; discriminate).
  split; [exact Hwf |]. split; [exact Hser |]. split; [exact Hlt |]. split; [exact Hle |].
  split.
  - exact (proj1 (proj2 decode_expiry_check _ DEFAULT_SECRET_KEY instant_after
                    (PyFloat instant_0) (fval instant_0) Hwf Hser eq_refl eq_refl) Hlt).
  - exact (proj2 (proj2 decode_expiry_check _ DEFAULT_SECRET_KEY instant_before
                    (PyFloat instant_0) (fval instant_0) Hwf Hser eq_refl eq_refl) Hle).
Defined.

(** ** Tampering with the signature *)

Lemma decode_wrong_parts (token secret : str) (now : pyfloat) :
  length (split "."%char token) <> 3%nat ->
  SimpleJWT.decode token secret now = inl InvalidTokenFormat.
Proof.
  unfold SimpleJWT.decode.
  destruct (split "." token) as [| h [| p [| s [| x l]]]]; intros H;
    try reflexivity.
  exfalso. apply H. reflexivity.
Qed.

Lemma filter_sep_none (sep : ascii) (s : str) :
  (forall c, In c s -> c <> sep) -> List.filter (Ascii.eqb sep) s = [].
Proof.
  induction s as [| c s IH]; simpl; [reflexivity |]. intros H.
  destruct (Ascii.eqb_spec sep c) as [E | _].
  - exfalso. apply (H c (or_introl eq_refl)). symmetry. exact E.
  - apply IH. intros x Hx. apply H. right. exact Hx.
Qed.

Lemma filter_sep_some (sep : ascii) (s : str) :
  In sep s -> (1 <= length (List.filter (Ascii.eqb sep) s))%nat.
Proof.
  induction s as [| c s IH]; simpl; [intros [] |]. intros [-> | H].
  - rewrite Ascii.eqb_refl. simpl. lia.
  - specialize (IH H). destruct (Ascii.eqb sep c); simpl; lia.
Qed.

Lemma insert_In (l : str) (i : nat) (c x : ascii) :
  In x (<[i:=c]> l) -> x = c \/ In x l.
Proof.
  revert i. induction l as [| a l IH]; intros i; [intros [] |].
  destruct i as [| i]; simpl.
  - intros [<- | H]; [left; reflexivity | right; right; exact H].
  - intros [<- | H]; [right; left; reflexivity |].
    destruct (IH i H) as [-> | Hin]; [left; reflexivity | right; right; exact Hin].
Qed.

Lemma insert_In_new (l : str) (i : nat) (c : ascii) :
  (i < length l)%nat -> In c (<[i:=c]> l).
Proof.
  revert i. induction l as [| a l IH]; intros i Hi; simpl in Hi; [lia |].
  destruct i as [| i]; simpl; [left; reflexivity | right; apply IH; lia].
Qed.

Lemma insert_differs (l : str) (i : nat) (c old : ascii) :
  l !! i = Some old -> c <> old -> <[i:=c]> l <> l.
Proof.
  intros Hold Hne E.
  assert (Hi : (i < length l)%nat) by (eapply lookup_lt_Some; exact Hold).
  pose proof (list_lookup_insert_eq l i c Hi) as Hnew.
  rewrite E, Hold in Hnew. congruence.
Qed.

(** Replacing a character of the signature by a dot gives a token of
    four segments: the format check rejects it before the signature is
    compared. *)
Lemma decode_dot_in_signature_format_error :
  let pj := default [] (json_dumps payload_0) in
  let sig := signature_segment DEFAULT_SECRET_KEY (signing_input pj) in
  SimpleJWT.encode payload_0 DEFAULT_SECRET_KEY = with_signature pj sig /\
  sig !! 0%nat = Some "L"%char /\
  SimpleJWT.decode (with_signature pj (<[0%nat := "."%char]> sig))
                   DEFAULT_SECRET_KEY instant_before
  = inl InvalidTokenFormat /\
  SimpleJWT.decode (with_signature pj (<[0%nat := "."%char]> sig))
                   DEFAULT_SECRET_KEY instant_before
  <> inl InvalidSignature.
Proof.
  cbv zeta.
  assert (H : SimpleJWT.decode
                (with_signature (default [] (json_dumps payload_0))
                   (<[0%nat := "."%char]>
                      (signature_segment DEFAULT_SECRET_KEY
                         (signing_input (default [] (json_dumps payload_0))))))
                DEFAULT_SECRET_KEY instant_before = inl InvalidTokenFormat)
    by (vm_compute; reflexivity).
  split; [vm_compute; reflexivity |]. split; [vm_compute; reflexivity |].
  split; [exact H |]. rewrite H. discriminate.
Qed.

(** C6, as the code has it.  In a token [encode] built, replacing a
    character of the signature segment by a different one makes [decode]
    fail: with "Invalid signature" when the new character is an ASCII
    character other than the dot, with "Invalid token format" when it is
    the dot, and with the [TypeError] of [compare_digest] when it is not
    ASCII. *)
Theorem decode_tampered_signature (payload : pyval) (payload_json secret : str)
    (now : pyfloat) (i : nat) (c old : ascii) :
  json_dumps payload = Some payload_json ->
  let sig := signature_segment secret (signing_input payload_json) in
  SimpleJWT.encode payload secret = with_signature payload_json sig /\
  (sig !! i = Some old -> c <> old ->
   SimpleJWT.decode (with_signature payload_json (<[i:=c]> sig)) secret now
   = if Ascii.eqb c "."%char then inl InvalidTokenFormat
     else if is_ascii c then inl InvalidSignature
     else inl (Raised CompareDigestError)).
Proof.
  intros Hpj sig. split; [rewrite encode_eq, Hpj; reflexivity |].
  intros Hold Hne.
  assert (Hi : (i < length sig)%nat) by (eapply lookup_lt_Some; exact Hold).
  destruct (Ascii.eqb_spec c ".") as [-> | Hdot].
  - apply decode_wrong_parts. rewrite split_length.
    unfold with_signature, signing_input.
    rewrite <- app_assoc. cbn [app].
    rewrite !List.filter_app. cbn [List.filter]. rewrite Ascii.eqb_refl.
    rewrite !List.filter_app. cbn [List.filter]. rewrite Ascii.eqb_refl.
    rewrite (filter_sep_none "." header_segment) by apply b64_body_no_dot.
    rewrite (filter_sep_none "." (payload_segment payload_json))
      by apply b64_body_no_dot.
    pose proof (filter_sep_some "." _ (insert_In_new sig i "." Hi)) as H.
    cbn [app length]. lia.
  - assert (Hnodot : forall x, In x (<[i:=c]> sig) -> x <> "."%char).
    { intros x Hx. apply insert_In in Hx as [-> | Hx];
        [exact Hdot | apply (b64_body_no_dot _ x Hx)]. }
    rewrite (decode_with_signature _ _ _ _ Hnodot). fold sig.
    unfold compare_digest.
    assert (Hsig : forallb is_ascii sig = true) by apply b64_body_ascii.
    rewrite Hsig, andb_true_r.
    destruct (is_ascii c) eqn:Ec.
    + replace (forallb is_ascii (<[i:=c]> sig)) with true.
      * rewrite bool_decide_eq_false_2; [reflexivity |].
        apply (insert_differs sig i c old Hold Hne).
      * symmetry. apply forallb_forall. intros x Hx.
        apply insert_In in Hx as [-> | Hx]; [exact Ec |].
        rewrite forallb_forall in Hsig. apply Hsig, Hx.
    + replace (forallb is_ascii (<[i:=c]> sig)) with false; [reflexivity |].
      symmetry. apply not_true_is_false. intros H.
      rewrite forallb_forall in H.
      rewrite (H c (insert_In_new sig i c Hi)) in Ec. discriminate.
Qed.

Lemma decode_tampered_signature_witness :
  let pj := default [] (json_dumps payload_0) in
  let sig := signature_segment DEFAULT_SECRET_KEY (signing_input pj) in
  json_dumps payload_0 = Some pj /\
  sig !! 5%nat = Some "W"%char /\ "X"%char <> "W"%char /\
  SimpleJWT.decode (with_signature pj (<[5%nat := "X"%char]> sig))
                   DEFAULT_SECRET_KEY instant_before
  = inl InvalidSignature.
Proof.
  cbv zeta.
  assert (Hpj : json_dumps payload_0 = Some (default [] (json_dumps payload_0)))
    by reflexivity.
  assert (Hold : signature_segment DEFAULT_SECRET_KEY
                   (signing_input (default [] (json_dumps payload_0))) !! 5%nat
                 = Some "W"%char) by (vm_compute; reflexivity).
  assert (Hne : "X"%char <> "W"%char) by discriminate.
  split; [exact Hpj |]. split; [exact Hold |]. split; [exact Hne |].
  exact (proj2 (decode_tampered_signature payload_0 _ DEFAULT_SECRET_KEY
                  instant_before 5 "X" "W" Hpj) Hold Hne).
Defined.

(** ** Issuing a token *)

Lemma dict_get_set (d : list (str * pyval)) (k : str) (v : pyval) :
  dict_get (dict_set d k v) k = Some v.
Proof.
  induction d as [| [k0 v0] d IH]; simpl.
  - rewrite bool_decide_eq_true_2 by reflexivity. reflexivity.
  - destruct (bool_decide (k0 = k)) eqn:E; simpl; rewrite E; [reflexivity | exact IH].
Qed.

Lemma dict_set_keys (d : list (str * pyval)) (k : str) (v : pyval) :
  (In k (map fst d) /\ map fst (dict_set d k v) = map fst d) \/
  (~ In k (map fst d) /\ map fst (dict_set d k v) = map fst d ++ [k]).
Proof.
  induction d as [| [k0 v0] d IH]; simpl.
  - right. split; [tauto | reflexivity].
  - destruct (bool_decide (k0 = k)) eqn:E.
    + apply bool_decide_eq_true in E. subst k0. left. split; [left; reflexivity | reflexivity].
    + apply bool_decide_eq_false in E. simpl.
      destruct IH as [[Hin ->] | [Hnin ->]].
      * left. split; [right; exact Hin | reflexivity].
      * right. split; [tauto | reflexivity].
Qed.

Lemma dict_set_items (d : list (str * pyval)) (k : str) (v : pyval) (kv : str * pyval) :
  In kv (dict_set d k v) -> kv = (k, v) \/ In kv d.
Proof.
  induction d as [| [k0 v0] d IH]; simpl.
  - intros [<- | []]. left. reflexivity.
  - destruct (bool_decide (k0 = k)) eqn:E; simpl.
    + apply bool_decide_eq_true in E. subst k0.
      intros [<- | H]; [left; reflexivity | right; right; exact H].
    + intros [<- | H]; [right; left; reflexivity |].
      destruct (IH H) as [-> | Hin]; [left; reflexivity | right; right; exact Hin].
Qed.

Lemma dict_set_well_formed (d : list (str * pyval)) (k : str) (x : pyfloat) :
  well_formed (PyDict d) = true ->
  well_formed (PyDict (dict_set d k (PyFloat x))) = true.
Proof.
  cbn [well_formed]. intros H. apply andb_true_iff in H as [Hnd Hall].
  apply bool_decide_eq_true, NoDup_ListNoDup in Hnd. apply andb_true_iff. split.
  - apply bool_decide_eq_true, NoDup_ListNoDup.
    destruct (dict_set_keys d k (PyFloat x)) as [[_ ->] | [Hnin ->]]; [exact Hnd |].
    apply List.NoDup_app; [exact Hnd | repeat constructor; intros [] |].
    intros a Ha [<- | []]. exact (Hnin Ha).
  - apply forallb_forall. intros kv Hkv.
    apply dict_set_items in Hkv as [-> | Hin]; [reflexivity |].
    rewrite forallb_forall in Hall. apply Hall, Hin.
Qed.

Lemma join_items_is_Some {A : Type} (f : A -> option str) (l : list A) :
  is_Some (join_items f l) <-> (forall x, In x l -> is_Some (f x)).
Proof.
  induction l as [| x r IH]; simpl.
  - split; [intros _ y [] | intros _; eexists; reflexivity].
  - split.
    + intros [body H] y [<- | Hy].
      * destruct (f x); [eexists; reflexivity | discriminate].
      * apply IH; [| exact Hy].
        destruct (f x); [| discriminate].
        destruct (join_items f r); [eexists; reflexivity | discriminate].
    + intros H. destruct (H x (or_introl eq_refl)) as [sx ->].
      destruct (proj2 IH (fun y Hy => H y (or_intror Hy))) as [sr ->].
      eexists. reflexivity.
Qed.

Lemma dict_serialisable (d : list (str * pyval)) :
  is_Some (json_dumps (PyDict d)) <-> (forall kv, In kv d -> is_Some (json_dumps (snd kv))).
Proof.
  cbn [json_dumps]. change (join_items _ d) with (join_items dumps_member d).
  split.
  - intros [s H] kv Hkv.
    assert (Hj : is_Some (join_items dumps_member d))
      by (destruct (join_items dumps_member d); [eexists; reflexivity | discriminate]).
    pose proof (proj1 (join_items_is_Some dumps_member d) Hj kv Hkv) as [m Hm].
    unfold dumps_member in Hm.
    destruct (json_dumps (snd kv)); [eexists; reflexivity | discriminate].
  - intros H.
    assert (Hj : is_Some (join_items dumps_member d)).
    { apply join_items_is_Some. intros kv Hkv. destruct (H kv Hkv) as [s Hs].
      unfold dumps_member. rewrite Hs. eexists. reflexivity. }
    destruct Hj as [body ->]. eexists. reflexivity.
Qed.

Lemma dict_set_serialisable (d : list (str * pyval)) (k : str) (x : pyfloat) :
  is_Some (json_dumps (PyDict d)) ->
  is_Some (json_dumps (PyDict (dict_set d k (PyFloat x)))).
Proof.
  rewrite !dict_serialisable. intros H kv Hkv.
  apply dict_set_items in Hkv as [-> | Hin]; [eexists; reflexivity | apply H, Hin].
Qed.

Lemma f_lt_same_scale (a b : Z) (s : positive) :
  f_lt (PyF a s) (PyF b s) = (a <? b).
Proof.
  unfold f_lt. destruct (a <? b) eqn:E.
  - apply Qlt_bool_iff. unfold fval, Qlt. simpl.
    apply Z.mul_lt_mono_pos_r; [reflexivity | lia].
  - apply Qlt_bool_false. unfold fval, Qle. simpl.
    apply Z.mul_le_mono_nonneg_r; [discriminate | lia].
Qed.

(** What [decode] returns for a token [create_access_token] issued. *)
Theorem create_access_token_decode (SECRET_KEY : str) (utcoffset utcnow : Z)
    (data : list (str * pyval)) (expires_delta : option Z) (now : pyfloat) :
  well_formed (PyDict data) = true ->
  is_Some (json_dumps (PyDict data)) ->
  SimpleJWT.decode
    (create_access_token SECRET_KEY utcoffset utcnow data expires_delta)
    SECRET_KEY now
  = if f_lt (timestamp utcoffset (expire_at utcnow expires_delta)) now
    then inl TokenExpired
    else inr (issued_payload utcoffset utcnow data expires_delta).
Proof.
  intros Hwf Hser.
  change (create_access_token SECRET_KEY utcoffset utcnow data expires_delta)
    with (SimpleJWT.encode (issued_payload utcoffset utcnow data expires_delta)
            SECRET_KEY).
  unfold issued_payload.
  rewrite decode_encode;
    [| apply dict_set_well_formed, Hwf | apply dict_set_serialisable, Hser].
  apply (check_expiration_number _ (PyFloat _) _ now (dict_get_set _ _ _) eq_refl).
Qed.

(** Where local time is UTC, a token verified at the instant it was
    issued, with the default expiry, decodes to the claims and [exp]. *)
Theorem create_access_token_round_trip_utc (SECRET_KEY : str) (utcnow : Z)
    (data : list (str * pyval)) :
  well_formed (PyDict data) = true ->
  is_Some (json_dumps (PyDict data)) ->
  SimpleJWT.decode (create_access_token SECRET_KEY 0 utcnow data None)
                   SECRET_KEY (time_of utcnow)
  = inr (PyDict (dict_set data (lit "exp")
                   (PyFloat (PyF (utcnow + 3600 * 1000000) 6)))).
Proof.
  intros Hwf Hser. rewrite (create_access_token_decode _ _ _ _ _ _ Hwf Hser).
  unfold timestamp, time_of, expire_at, issued_payload, timestamp, expire_at.
  rewrite f_lt_same_scale.
  change (timedelta_minutes ACCESS_TOKEN_EXPIRE_MINUTES) with (3600 * 1000000).
  replace (utcnow + 3600 * 1000000 - 0 <? utcnow) with false by lia.
  rewrite Z.sub_0_r. reflexivity.
Qed.

(** C1 at a failing input.  Where local time is India Standard Time, the
    token [/auth/token] issues is already expired when it is issued,
    though the response announces 3600 seconds: [decode] at the instant
    of issue fails with "Token has expired", whatever the secret. *)
Theorem fresh_token_expired_in_IST (SECRET_KEY : str) (utcnow : Z) :
  let response := create_token SECRET_KEY IST utcnow in
  expires_in response = 3600 /\
  SimpleJWT.decode (access_token response) SECRET_KEY (time_of utcnow)
  = inl TokenExpired /\
  SecurityBearer.verify_jwt SECRET_KEY (access_token response) (time_of utcnow) = false.
Proof.
  cbv zeta.
  assert (Hdec : SimpleJWT.decode (access_token (create_token SECRET_KEY IST utcnow))
                   SECRET_KEY (time_of utcnow) = inl TokenExpired).
  { unfold create_token, access_token.
    rewrite create_access_token_decode;
      [| vm_compute; reflexivity | eexists; reflexivity].
    unfold timestamp, time_of, expire_at. rewrite f_lt_same_scale.
    change (timedelta_minutes ACCESS_TOKEN_EXPIRE_MINUTES) with (3600 * 1000000).
    change (if 3600 * 1000000 =? 0 then ?a else ?b) with b.
    unfold IST. replace (_ <? utcnow) with true by lia. reflexivity. }
  split; [reflexivity |]. split; [exact Hdec |].
  unfold SecurityBearer.verify_jwt. rewrite Hdec. reflexivity.
Qed.

Lemma create_access_token_round_trip_utc_witness :
  well_formed (PyDict test_claims) = true /\
  is_Some (json_dumps (PyDict test_claims)) /\
  SimpleJWT.decode (create_access_token DEFAULT_SECRET_KEY 0 utcnow_0 test_claims None)
                   DEFAULT_SECRET_KEY (time_of utcnow_0)
  = inr (PyDict (dict_set test_claims (lit "exp")
                   (PyFloat (PyF (utcnow_0 + 3600 * 1000000) 6)))).
Proof.
  assert (Hwf : well_formed (PyDict test_claims) = true) by (vm_compute; reflexivity).
  assert (Hser : is_Some (json_dumps (PyDict test_claims))) by (eexists; reflexivity).
  split; [exact Hwf |]. split; [exact Hser |].
  exact (create_access_token_round_trip_utc DEFAULT_SECRET_KEY utcnow_0 test_claims Hwf Hser).
Defined.

(* ================================================================== *)
(** * Further properties *)

(** ** The limiter over many calls *)

Lemma recorded_other (requests requests' : gmap str (list pyfloat)) (id : str) :
  requests' !! id = requests !! id -> recorded requests' id = recorded requests id.
Proof. unfold recorded. intros ->. reflexivity. Qed.

Lemma limiter_after_cons (limit window : Z) (requests : gmap str (list pyfloat))
    (now : pyfloat) (identifier : str) (calls : list (pyfloat * str)) :
  limiter_after limit window requests ((now, identifier) :: calls)
  = limiter_after limit window
      (snd (RateLimiter.is_allowed requests now identifier limit window)) calls.
Proof. reflexivity. Qed.

Lemma limiter_after_bounded (limit window : Z) (calls : list (pyfloat * str))
    (requests : gmap str (list pyfloat)) :
  0 <= limit ->
  (forall id, Z.of_nat (length (recorded requests id)) <= limit) ->
  forall id, Z.of_nat (length (recorded (limiter_after limit window requests calls) id)) <= limit.
Proof.
  intros Hl. revert requests.
  induction calls as [| [now ident] calls IH]; intros requests Hinv id; [apply Hinv |].
  rewrite limiter_after_cons.
  apply IH. clear id IH. intros id.
  destruct (is_allowed_step requests now ident limit window) as (Hf & Hr & _ & Ho).
  destruct (decide (id = ident)) as [-> | Hne].
  - rewrite Hr, Hf.
    pose proof (List.filter_length_le (RateLimiter.in_window now window)
                  (recorded requests ident)) as Hlen.
    specialize (Hinv ident).
    destruct (Z.ltb_spec (Z.of_nat (length (List.filter (RateLimiter.in_window now window)
                                             (recorded requests ident)))) limit).
    + rewrite List.length_app. cbn [length]. lia.
    + lia.
  - rewrite (recorded_other _ _ _ (Ho id Hne)). apply Hinv.
Qed.

(** X1.  Started empty and called any number of times, for any
    identifiers and at any times, with one limit and one window, the
    limiter never holds more than [limit] request times for an
    identifier. *)
Theorem is_allowed_never_exceeds_limit (limit window : Z)
    (calls : list (pyfloat * str)) (identifier : str) :
  0 <= limit ->
  Z.of_nat (length (recorded (limiter_after limit window RateLimiter.init calls)
                             identifier)) <= limit.
Proof.
  intros Hl. apply limiter_after_bounded; [exact Hl |].
  intros id. unfold recorded, RateLimiter.init. rewrite lookup_empty. cbn. exact Hl.
Qed.

Lemma is_allowed_never_exceeds_limit_witness :
  0 <= 2 /\
  Z.of_nat (length (recorded
    (limiter_after 2 60 RateLimiter.init
       [(PyF 1000 1, lit "10.0.0.7"); (PyF 1001 1, lit "10.0.0.7");
        (PyF 1002 1, lit "10.0.0.7"); (PyF 1003 1, lit "10.0.0.9")])
    (lit "10.0.0.7"))) <= 2.
Proof.
  split; [lia |].
  apply (is_allowed_never_exceeds_limit 2 60
           [(PyF 1000 1, lit "10.0.0.7"); (PyF 1001 1, lit "10.0.0.7");
            (PyF 1002 1, lit "10.0.0.7"); (PyF 1003 1, lit "10.0.0.9")]
           (lit "10.0.0.7")).
  lia.
Defined.

Lemma is_allowed_dom (requests : gmap str (list pyfloat)) (now : pyfloat)
    (identifier : str) (limit window : Z) :
  dom (snd (RateLimiter.is_allowed requests now identifier limit window))
  = dom requests ∪ {[identifier]}.
Proof.
  unfold RateLimiter.is_allowed.
  destruct (requests !! identifier) eqn:E;
    destruct (_ <? limit); cbn [snd]; rewrite ?dom_insert_L;
    try (apply elem_of_dom_2 in E); set_solver.
Qed.

(** X2.  The limiter never forgets an identifier: after any sequence of
    calls its keys are the keys it started with and every identifier it
    was called for, whether the call was allowed or denied. *)
Theorem is_allowed_keeps_every_identifier (limit window : Z)
    (requests : gmap str (list pyfloat)) (calls : list (pyfloat * str)) :
  dom (limiter_after limit window requests calls)
  = dom requests ∪ list_to_set (map snd calls).
Proof.
  revert requests. induction calls as [| [now ident] calls IH]; intros requests.
  - cbn. set_solver.
  - rewrite limiter_after_cons, IH, is_allowed_dom. cbn [map snd list_to_set].
    set_solver.
Qed.

(** ** The middleware under a burst *)

Lemma serve_all_within (App Response : Type) (client : option str)
    (incoming : list (pyfloat * (App -> Response * App))) :
  forall (requests : gmap str (list pyfloat)) (app : App) (l : list pyfloat),
  recorded requests (match client with Some host => host | None => lit "unknown" end) = l ->
  (forall t t', In t (l ++ map fst incoming) -> In t' (l ++ map fst incoming) ->
                (fval t' - fval t < 3600)%Q) ->
  let k := (100 - length l)%nat in
  let served_by := run_handlers app (firstn k (map snd incoming)) in
  fst (fst (serve_all requests app client incoming))
  = map Passed (fst served_by)
    ++ repeat (Limited too_many_requests) (length incoming - k) /\
  snd (serve_all requests app client incoming) = snd served_by.
Proof.
  induction incoming as [| [now call_next] rest IH]; intros requests app l Hl Hspan.
  - cbn. destruct (100 - length l)%nat; cbn; auto.
  - cbn zeta. cbn [serve_all]. unfold logging_and_rate_limit_middleware.
    set (ip := match client with Some host => host | None => lit "unknown" end) in *.
    assert (Hkept : Forall (fun t => RateLimiter.in_window now RATE_LIMIT_WINDOW t = true) l).
    { apply List.Forall_forall. intros t Ht. apply in_window_iff.
      apply Hspan; apply in_or_app; [left; exact Ht | right; left; reflexivity]. }
    destruct (is_allowed_all_kept requests now ip RATE_LIMIT_REQUESTS RATE_LIMIT_WINDOW
                l Hl Hkept) as [Hf Hr].
    destruct (RateLimiter.is_allowed requests now ip RATE_LIMIT_REQUESTS RATE_LIMIT_WINDOW)
      as [allowed requests'] eqn:E.
    cbn [fst snd] in Hf, Hr. subst allowed. unfold RATE_LIMIT_REQUESTS in *.
    destruct (Z.ltb_spec (Z.of_nat (length l)) 100) as [Hlt | Hge]; cbn [negb].
    + destruct (call_next app) as [response app'] eqn:Ec.
      specialize (IH requests' app' (l ++ [now]) Hr).
      destruct IH as [IH1 IH2].
      { intros t t' Ht Ht'. apply Hspan.
        - rewrite <- List.app_assoc in Ht. exact Ht.
        - rewrite <- List.app_assoc in Ht'. exact Ht'. }
      rewrite List.length_app in IH1, IH2. cbn [length] in IH1, IH2.
      destruct (serve_all requests' app' client rest) as [[rs rq] ap] eqn:Es.
      cbn [fst snd] in *.
      replace (100 - length l)%nat with (S (100 - (length l + 1)))%nat by lia.
      cbn [map snd firstn run_handlers]. rewrite Ec.
      destruct (run_handlers app' (firstn (100 - (length l + 1)) (map snd rest)))
        as [ps ap'] eqn:Er.
      cbn [fst snd map List.app length] in *. subst. split; [| reflexivity].
      rewrite Nat.sub_succ. reflexivity.
    + specialize (IH requests' app l Hr). destruct IH as [IH1 IH2].
      { intros t t' Ht Ht'. apply Hspan.
        - apply in_app_or in Ht. apply in_or_app. destruct Ht; [left | right; right]; assumption.
        - apply in_app_or in Ht'. apply in_or_app. destruct Ht'; [left | right; right]; assumption. }
      destruct (serve_all requests' app client rest) as [[rs rq] ap] eqn:Es.
      cbn [fst snd] in *.
      replace (100 - length l)%nat with 0%nat in * by lia.
      cbn [firstn run_handlers fst snd map List.app length] in *. subst.
      rewrite Nat.sub_0_r. split; reflexivity.
Qed.

(** X3.  A burst through the middleware: of the requests of one client
    (or of the clients without an address, which share the identifier
    "unknown") that fall within less than an hour of each other, counted
    from an empty limiter, the first hundred reach their handlers and
    every later one is answered 429 without its handler being run. *)
Theorem middleware_passes_first_hundred (App Response : Type) (client : option str)
    (app : App) (incoming : list (pyfloat * (App -> Response * App))) :
  (forall t t', In t (map fst incoming) -> In t' (map fst incoming) ->
                (fval t' - fval t < 3600)%Q) ->
  let served_by := run_handlers app (firstn 100 (map snd incoming)) in
  fst (fst (serve_all RateLimiter.init app client incoming))
  = map Passed (fst served_by)
    ++ repeat (Limited too_many_requests) (length incoming - 100) /\
  snd (serve_all RateLimiter.init app client incoming) = snd served_by.
Proof.
  intros Hspan.
  apply (serve_all_within App Response client incoming RateLimiter.init app []).
  - unfold recorded, RateLimiter.init. rewrite lookup_empty. reflexivity.
  - exact Hspan.
Qed.

Lemma burst_times (n : nat) (t : pyfloat) :
  In t (map fst (burst n)) -> exists i : nat, (i < n)%nat /\ t = PyF (Z.of_nat i) 1.
Proof.
  unfold burst. rewrite map_map. cbn [fst]. intros H.
  apply in_map_iff in H. destruct H as (i & <- & Hi).
  apply in_seq in Hi. exists i. split; [lia | reflexivity].
Qed.

Lemma middleware_passes_first_hundred_witness :
  (forall t t', In t (map fst (burst 101)) -> In t' (map fst (burst 101)) ->
                (fval t' - fval t < 3600)%Q) /\
  fst (fst (serve_all RateLimiter.init 0%nat (Some (lit "10.0.0.7")) (burst 101)))
  = map Passed (seq 0 100) ++ [Limited too_many_requests] /\
  snd (serve_all RateLimiter.init 0%nat (Some (lit "10.0.0.7")) (burst 101)) = 100%nat.
Proof.
  assert (H : forall t t', In t (map fst (burst 101)) -> In t' (map fst (burst 101)) ->
                           (fval t' - fval t < 3600)%Q).
  { intros t t' Ht Ht'.
    destruct (burst_times 101 t Ht) as (i & Hi & ->).
    destruct (burst_times 101 t' Ht') as (j & Hj & ->).
    unfold fval, Qminus, Qplus, Qopp, Qlt. cbn [mant scale Qnum Qden]. lia. }
  split; [exact H |].
  exact (middleware_passes_first_hundred nat nat (Some (lit "10.0.0.7")) 0%nat
           (burst 101) H).
Defined.

(** ** Status, alerts and notifications of one reading *)

Lemma max_of_le (d : WasteBinData) (q : Q) :
  (q <= max_of d)%Q <-> exists c, (q <= fval (level_of d c))%Q.
Proof.
  unfold max_of.
  pose proof (Q.max_spec (fval (organic_level d)) (fval (recyclable_level d))) as H1.
  pose proof (Q.max_spec (Qmax (fval (organic_level d)) (fval (recyclable_level d)))
                         (fval (hazardous_level d))) as H2.
  split.
  - intros H.
    destruct H2 as [[H2 E2] | [H2 E2]]; rewrite E2 in H.
    + exists Hazardous. exact H.
    + destruct H1 as [[H1 E1] | [H1 E1]]; rewrite E1 in H.
      * exists Recyclable. exact H.
      * exists Organic. exact H.
  - intros [c H].
    pose proof (Q.le_max_l (fval (organic_level d)) (fval (recyclable_level d))).
    pose proof (Q.le_max_r (fval (organic_level d)) (fval (recyclable_level d))).
    pose proof (Q.le_max_l (Qmax (fval (organic_level d)) (fval (recyclable_level d)))
                           (fval (hazardous_level d))).
    pose proof (Q.le_max_r (Qmax (fval (organic_level d)) (fval (recyclable_level d)))
                           (fval (hazardous_level d))).
    destruct c; cbn [level_of] in H; lra.
Qed.

Lemma max_of_lt (d : WasteBinData) (q : Q) :
  (max_of d < q)%Q <-> forall c, (fval (level_of d c) < q)%Q.
Proof.
  split.
  - intros H c. apply Qnot_le_lt. intros Hc.
    assert (q <= max_of d)%Q by (apply max_of_le; exists c; exact Hc). lra.
  - intros H. apply Qnot_le_lt. intros Hc.
    apply max_of_le in Hc. destruct Hc as [c Hc]. specialize (H c). lra.
Qed.

Lemma status_high_iff (d : WasteBinData) :
  (WasteDatabase._calculate_bin_status d = HIGH
   \/ WasteDatabase._calculate_bin_status d = CRITICAL)
  <-> (80 <= max_of d)%Q.
Proof.
  destruct (status_of_max d) as (Hc & Hh & Hm & Hl).
  split.
  - intros [H | H]; [apply Hh in H | apply Hc in H]; lra.
  - intros H. destruct (Qlt_le_dec (max_of d) 90).
    + left. apply Hh. split; assumption.
    + right. apply Hc. assumption.
Qed.

Lemma status_low_iff (d : WasteBinData) :
  (WasteDatabase._calculate_bin_status d = LOW
   \/ WasteDatabase._calculate_bin_status d = MEDIUM)
  <-> (max_of d < 80)%Q.
Proof.
  destruct (status_of_max d) as (Hc & Hh & Hm & Hl).
  split.
  - intros [H | H]; [apply Hl in H | apply Hm in H]; lra.
  - intros H. destruct (Qlt_le_dec (max_of d) 60).
    + left. apply Hl. assumption.
    + right. apply Hm. split; assumption.
Qed.

Lemma map_nonempty {A B : Type} (f : A -> B) (l : list A) :
  map f l <> [] <-> exists x, In x l.
Proof.
  destruct l as [| x l]; cbn.
  - split; [intros H; contradiction | intros [x []]].
  - split; [intros _; exists x; left; reflexivity | intros _; discriminate].
Qed.

Lemma alerts_nonempty (d : WasteBinData) :
  WasteDatabase._generate_alerts d <> [] <-> (80 <= max_of d)%Q.
Proof.
  rewrite generate_alerts_filter, map_nonempty, max_of_le.
  split; intros [c H]; exists c; apply in_alert_categories; exact H.
Qed.

Lemma notifications_nonempty (d : WasteBinData) :
  NotificationManager.check_and_notify d <> []
  <-> exists c, (80 < fval (level_of d c))%Q.
Proof.
  rewrite check_and_notify_filter, map_nonempty.
  split; intros [c H]; exists c; apply in_notify_categories; exact H.
Qed.

Lemma not_nonempty {A : Type} (l : list A) : ~ l <> [] -> l = [].
Proof. destruct l; [reflexivity | intros H; exfalso; apply H; discriminate]. Qed.

(** X4.  A reading gets at least one stored alert exactly when its
    status is HIGH or CRITICAL: both are decided by a level of 80 or
    more. *)
Theorem alerts_iff_status_high (d : WasteBinData) :
  WasteDatabase._generate_alerts d <> []
  <-> (WasteDatabase._calculate_bin_status d = HIGH
       \/ WasteDatabase._calculate_bin_status d = CRITICAL).
Proof.
  rewrite alerts_nonempty. symmetry. apply status_high_iff.
Qed.

Lemma filter_length_implies {A : Type} (f g : A -> bool) (l : list A) :
  (forall x, f x = true -> g x = true) ->
  (length (List.filter f l) <= length (List.filter g l))%nat.
Proof.
  intros H. induction l as [| x l IH]; cbn; [lia |].
  destruct (f x) eqn:E.
  - rewrite (H x E). cbn. lia.
  - destruct (g x); cbn; lia.
Qed.

(** X5.  Every category that is notified also has a stored alert, so a
    reading never yields more notifications than alerts, and never
    more than three of either. *)
Theorem notifications_within_alerts (d : WasteBinData) :
  (forall c : Category,
     In (NotificationManager.notification d c) (NotificationManager.check_and_notify d) ->
     In (WasteDatabase.alert_message d c) (WasteDatabase._generate_alerts d)) /\
  (length (NotificationManager.check_and_notify d)
   <= length (WasteDatabase._generate_alerts d) <= 3)%nat.
Proof.
  split.
  - intros c H.
    rewrite check_and_notify_filter in H. apply in_map_iff in H.
    destruct H as (c' & E & H). apply notification_inj in E. subst c'.
    apply in_notify_categories in H.
    rewrite generate_alerts_filter. apply in_map. apply in_alert_categories. lra.
  - rewrite check_and_notify_filter, generate_alerts_filter, !length_map.
    unfold notify_categories, alert_categories. split.
    + apply filter_length_implies. intros c H.
      apply f_gt_iff in H. rewrite threshold_val in H. apply f_ge_int_iff.
      change (inject_Z 80) with 80%Q. lra.
    + apply (List.filter_length_le _ categories).
Qed.

Lemma notifications_within_alerts_witness :
  In (NotificationManager.notification reading_85 Organic)
     (NotificationManager.check_and_notify reading_85) /\
  In (WasteDatabase.alert_message reading_85 Organic)
     (WasteDatabase._generate_alerts reading_85).
Proof.
  assert (H : In (NotificationManager.notification reading_85 Organic)
                 (NotificationManager.check_and_notify reading_85))
    by (left; reflexivity).
  split; [exact H |].
  exact (proj1 (notifications_within_alerts reading_85) Organic H).
Defined.

(** X6.  Notifications follow the status: a CRITICAL reading always
    sends at least one notification, a reading that sends one is HIGH or
    CRITICAL, and a LOW or MEDIUM reading has neither alerts nor
    notifications. *)
Theorem notifications_follow_status (d : WasteBinData) :
  let s := WasteDatabase._calculate_bin_status d in
  (s = CRITICAL -> NotificationManager.check_and_notify d <> []) /\
  (NotificationManager.check_and_notify d <> [] -> s = HIGH \/ s = CRITICAL) /\
  (s = LOW \/ s = MEDIUM ->
   WasteDatabase._generate_alerts d = [] /\ NotificationManager.check_and_notify d = []).
Proof.
  cbn zeta. repeat split.
  - intros H. apply (proj1 (status_of_max d)) in H.
    apply max_of_le in H. destruct H as [c H].
    apply notifications_nonempty. exists c. lra.
  - intros H. apply notifications_nonempty in H. destruct H as [c H].
    apply status_high_iff. apply max_of_le. exists c. lra.
  - apply not_nonempty. intros Ha. apply alerts_nonempty in Ha.
    apply status_low_iff in H. lra.
  - apply not_nonempty. intros Hn. apply notifications_nonempty in Hn.
    destruct Hn as [c Hn]. apply status_low_iff in H.
    assert (80 <= max_of d)%Q by (apply max_of_le; exists c; lra). lra.
Qed.

Lemma notifications_follow_status_witness :
  WasteDatabase._calculate_bin_status reading_95 = CRITICAL /\
  NotificationManager.check_and_notify reading_95 <> [].
Proof.
  assert (H : WasteDatabase._calculate_bin_status reading_95 = CRITICAL) by reflexivity.
  split; [exact H |].
  exact (proj1 (notifications_follow_status reading_95) H).
Defined.

(** ** The bin store over many calls *)

Lemma store_all_cons (bins : gmap str BinRecord) (t : Z) (d : WasteBinData)
    (calls : list (Z * WasteBinData)) :
  store_all bins ((t, d) :: calls)
  = store_all (<[bin_id d := derived_record t d]> bins) calls.
Proof. unfold store_all. cbn [fold_left fst snd]. rewrite store_bin_data_insert. reflexivity. Qed.

Lemma store_all_app (bins : gmap str BinRecord) (a b : list (Z * WasteBinData)) :
  store_all bins (a ++ b) = store_all (store_all bins a) b.
Proof. unfold store_all. apply fold_left_app. Qed.

Lemma store_all_untouched (calls : list (Z * WasteBinData)) (bins : gmap str BinRecord)
    (id : str) :
  ~ In id (stored_ids calls) -> store_all bins calls !! id = bins !! id.
Proof.
  revert bins. induction calls as [| [t d] calls IH]; intros bins Hid; [reflexivity |].
  rewrite store_all_cons. cbn [stored_ids map snd] in Hid.
  rewrite IH by (intros H; apply Hid; right; exact H).
  apply lookup_insert_ne. intros E. apply Hid. left. exact E.
Qed.

Lemma store_all_last (before after : list (Z * WasteBinData)) (t : Z) (d : WasteBinData)
    (bins : gmap str BinRecord) :
  ~ In (bin_id d) (stored_ids after) ->
  store_all bins (before ++ (t, d) :: after) !! bin_id d = Some (derived_record t d).
Proof.
  intros Hid. rewrite store_all_app, store_all_cons, store_all_untouched by exact Hid.
  apply lookup_insert_eq.
Qed.

Lemma In_split_last (id : str) (calls : list (Z * WasteBinData)) :
  In id (stored_ids calls) ->
  exists before t d after,
    calls = before ++ (t, d) :: after /\ bin_id d = id /\ ~ In id (stored_ids after).
Proof.
  induction calls as [| [t d] calls IH]; intros H; [destruct H |].
  destruct (in_dec (fun a b : str => decide (a = b)) id (stored_ids calls)) as [Hin | Hout].
  - destruct (IH Hin) as (b & t' & d' & a & -> & E & Hn).
    exists ((t, d) :: b), t', d', a. repeat split; assumption.
  - destruct H as [E | H]; [| contradiction].
    exists [], t, d, calls. repeat split; assumption.
Qed.

Lemma reading_of_derived (t : Z) (d : WasteBinData) : reading_of (derived_record t d) = d.
Proof. destruct d. reflexivity. Qed.

Lemma store_all_derived (calls : list (Z * WasteBinData)) (id : str) (r : BinRecord) :
  store_all WasteDatabase.init calls !! id = Some r ->
  exists t d, bin_id d = id /\ r = derived_record t d.
Proof.
  intros H.
  destruct (in_dec (fun a b : str => decide (a = b)) id (stored_ids calls)) as [Hin | Hout].
  - destruct (In_split_last id calls Hin) as (b & t & d & a & -> & <- & Hn).
    rewrite store_all_last in H by exact Hn. injection H as <-.
    exists t, d. split; reflexivity.
  - rewrite store_all_untouched in H by exact Hout.
    unfold WasteDatabase.init in H. rewrite lookup_empty in H. discriminate.
Qed.

(** X7.  What the store holds is always consistent: however it was
    filled, a record found under an identifier carries that identifier,
    the status and the alerts computed from its own levels, and so has
    an alert exactly when its status is HIGH or CRITICAL. *)
Theorem stored_records_consistent (calls : list (Z * WasteBinData)) (id : str)
    (r : BinRecord) :
  WasteDatabase.get_bin_status (store_all WasteDatabase.init calls) id = Some r ->
  rec_bin_id r = id /\
  rec_status r = WasteDatabase._calculate_bin_status (reading_of r) /\
  rec_alerts r = WasteDatabase._generate_alerts (reading_of r) /\
  (rec_alerts r <> [] <-> rec_status r = HIGH \/ rec_status r = CRITICAL).
Proof.
  unfold WasteDatabase.get_bin_status. intros H.
  destruct (store_all_derived calls id r H) as (t & d & <- & ->).
  rewrite reading_of_derived. cbn [derived_record rec_bin_id rec_status rec_alerts].
  repeat split; try reflexivity.
  - intros Ha. apply status_high_iff, alerts_nonempty, Ha.
  - intros Hs. apply alerts_nonempty, status_high_iff, Hs.
Qed.

Lemma store_one_lookup (t : Z) (d : WasteBinData) :
  store_all WasteDatabase.init [(t, d)] !! bin_id d = Some (derived_record t d).
Proof. apply (store_all_last [] [] t d WasteDatabase.init). intros []. Qed.

Lemma stored_records_consistent_witness :
  WasteDatabase.get_bin_status (store_all WasteDatabase.init [(1000, reading_85)])
                               (lit "BIN-001")
  = Some (derived_record 1000 reading_85) /\
  rec_status (derived_record 1000 reading_85) = HIGH /\
  rec_alerts (derived_record 1000 reading_85) <> [].
Proof.
  pose proof (store_one_lookup 1000 reading_85) as H.
  change (bin_id reading_85) with (lit "BIN-001") in H.
  destruct (stored_records_consistent [(1000, reading_85)] (lit "BIN-001")
              (derived_record 1000 reading_85) H) as (_ & _ & _ & Ha).
  split; [exact H |]. split; [reflexivity |].
  apply Ha. left. reflexivity.
Defined.

(** ** [POST /data] and [GET /status/{bin_id}] *)

Lemma receive_iot_data_on_eq (stdout : str -> bool) (bins : gmap str BinRecord)
    (stored_at responded_at : Z) (bin_data : WasteBinData) :
  receive_iot_data_on stdout bins stored_at responded_at bin_data
  = (if forallb stdout (NotificationManager.check_and_notify bin_data) then
       inr {| APIResponse.success := true;
              APIResponse.message :=
                lit "Data received and processed successfully for bin "
                ++ bin_id bin_data;
              APIResponse.data :=
                Some (PyDict
                  [(lit "bin_id", PyStr (bin_id bin_data));
                   (lit "status",
                    PyStr (status_name (WasteDatabase._calculate_bin_status bin_data)));
                   (lit "notifications_sent",
                    PyInt (Z.of_nat
                             (length (NotificationManager.check_and_notify bin_data))));
                   (lit "alerts",
                    PyList (map PyStr (NotificationManager.check_and_notify bin_data)));
                   (lit "received_at", PyStr (isoformat stored_at))]);
              APIResponse.timestamp := responded_at |}
     else
       inl {| HTTPException.status_code := 500;
              HTTPException.detail :=
                lit "Internal server error while processing data" |},
     <[bin_id bin_data := derived_record stored_at bin_data]> bins).
Proof.
  unfold receive_iot_data_on, check_and_notify_printing.
  rewrite store_bin_data_insert. cbn [negb].
  destruct (forallb stdout _); [| reflexivity].
  unfold WasteDatabase.get_bin_status. rewrite lookup_insert_eq. reflexivity.
Qed.

Lemma forallb_always {A : Type} (l : list A) : forallb (fun _ => true) l = true.
Proof. induction l as [| x l IH]; [reflexivity | exact IH]. Qed.

Lemma receive_iot_data_eq (bins : gmap str BinRecord) (stored_at responded_at : Z)
    (bin_data : WasteBinData) :
  receive_iot_data bins stored_at responded_at bin_data
  = (inr {| APIResponse.success := true;
            APIResponse.message :=
              lit "Data received and processed successfully for bin " ++ bin_id bin_data;
            APIResponse.data :=
              Some (PyDict
                [(lit "bin_id", PyStr (bin_id bin_data));
                 (lit "status",
                  PyStr (status_name (WasteDatabase._calculate_bin_status bin_data)));
                 (lit "notifications_sent",
                  PyInt (Z.of_nat (length (NotificationManager.check_and_notify bin_data))));
                 (lit "alerts",
                  PyList (map PyStr (NotificationManager.check_and_notify bin_data)));
                 (lit "received_at", PyStr (isoformat stored_at))]);
            APIResponse.timestamp := responded_at |},
     <[bin_id bin_data := derived_record stored_at bin_data]> bins).
Proof.
  unfold receive_iot_data. rewrite receive_iot_data_on_eq, forallb_always. reflexivity.
Qed.

(** X8.  [POST /data] stores the reading whatever happens next, and
    answers 500 exactly when [print] cannot write one of the
    notifications to standard output: then the answer is "Internal
    server error while processing data" although the reading is in the
    store.  When every notification is written, and so whenever there is
    none, the answer is a success whose data carry the status of the
    reading, the notifications with their number, and the time of
    storing. *)
Theorem receive_iot_data_fails_only_on_print (stdout : str -> bool)
    (bins : gmap str BinRecord) (stored_at responded_at : Z) (bin_data : WasteBinData) :
  let result := receive_iot_data_on stdout bins stored_at responded_at bin_data in
  let notifications := NotificationManager.check_and_notify bin_data in
  WasteDatabase.get_bin_status (snd result) (bin_id bin_data)
  = Some (derived_record stored_at bin_data) /\
  (forallb stdout notifications = false ->
   fst result
   = inl {| HTTPException.status_code := 500;
            HTTPException.detail := lit "Internal server error while processing data" |}) /\
  (forallb stdout notifications = true ->
   exists response : APIResponse.t,
     fst result = inr response /\
     APIResponse.success response = true /\
     APIResponse.timestamp response = responded_at /\
     response_field (fst result) (lit "bin_id") = Some (PyStr (bin_id bin_data)) /\
     response_field (fst result) (lit "status")
     = Some (PyStr (status_name (WasteDatabase._calculate_bin_status bin_data))) /\
     response_field (fst result) (lit "notifications_sent")
     = Some (PyInt (Z.of_nat (length notifications))) /\
     response_field (fst result) (lit "alerts") = Some (PyList (map PyStr notifications)) /\
     response_field (fst result) (lit "received_at") = Some (PyStr (isoformat stored_at))) /\
  (notifications = [] -> exists response : APIResponse.t, fst result = inr response).
Proof.
  cbn zeta. rewrite receive_iot_data_on_eq. cbn [fst snd].
  split; [apply lookup_insert_eq |].
  split; [intros ->; reflexivity |].
  split.
  - intros ->. eexists. repeat split; reflexivity.
  - intros ->. cbn [forallb]. eexists. reflexivity.
Qed.

Lemma receive_iot_data_fails_only_on_print_witness :
  forallb ascii_stdout (NotificationManager.check_and_notify reading_85) = false /\
  fst (receive_iot_data_on ascii_stdout WasteDatabase.init 1000 1001 reading_85)
  = inl {| HTTPException.status_code := 500;
           HTTPException.detail := lit "Internal server error while processing data" |} /\
  WasteDatabase.get_bin_status
    (snd (receive_iot_data_on ascii_stdout WasteDatabase.init 1000 1001 reading_85))
    (lit "BIN-001")
  = Some (derived_record 1000 reading_85).
Proof.
  assert (H : forallb ascii_stdout (NotificationManager.check_and_notify reading_85)
              = false) by reflexivity.
  destruct (receive_iot_data_fails_only_on_print ascii_stdout WasteDatabase.init
              1000 1001 reading_85) as (Hstored & Hfail & _).
  split; [exact H |]. split; [exact (Hfail H) | exact Hstored].
Defined.

Lemma filter_lengths_80 (d : WasteBinData) :
  length (notify_categories d) = length (alert_categories d)
  <-> forall c, ~ (fval (level_of d c) == 80)%Q.
Proof.
  unfold notify_categories, alert_categories, categories.
  pose proof threshold_val as Ht.
  cbn [List.filter level_of].
  destruct (f_gt (organic_level d) NotificationManager.threshold) eqn:G1;
    [apply f_gt_iff in G1 | apply f_gt_false in G1];
  destruct (f_gt (recyclable_level d) NotificationManager.threshold) eqn:G2;
    [apply f_gt_iff in G2 | apply f_gt_false in G2 | apply f_gt_iff in G2
     | apply f_gt_false in G2];
  destruct (f_gt (hazardous_level d) NotificationManager.threshold) eqn:G3;
    try (apply f_gt_iff in G3); try (apply f_gt_false in G3);
  destruct (f_ge_int (organic_level d) 80) eqn:A1;
    try (apply f_ge_int_iff in A1); try (apply f_ge_int_false in A1);
  destruct (f_ge_int (recyclable_level d) 80) eqn:A2;
    try (apply f_ge_int_iff in A2); try (apply f_ge_int_false in A2);
  destruct (f_ge_int (hazardous_level d) 80) eqn:A3;
    try (apply f_ge_int_iff in A3); try (apply f_ge_int_false in A3);
  change (inject_Z 80) with 80%Q in *;
  try (exfalso; lra);
  (split;
   [ intros Hlen c; try discriminate Hlen; destruct c; cbn [level_of]; lra
   | intros Hall; try reflexivity; exfalso;
     first [ apply (Hall Organic); cbn [level_of]; lra
           | apply (Hall Recyclable); cbn [level_of]; lra
           | apply (Hall Hazardous); cbn [level_of]; lra ] ]).
Qed.

(** X9.  The alerts [POST /data] reports are the notifications, those
    of levels above 80, while the record it stores, which
    [GET /status/{bin_id}] then returns, holds the alerts of levels of
    80 or more: the two lists have the same length exactly when no
    level is 80. *)
Theorem posted_alerts_differ_at_80 (bins : gmap str BinRecord)
    (stored_at responded_at : Z) (bin_data : WasteBinData) :
  let result := receive_iot_data bins stored_at responded_at bin_data in
  exists status : BinStatus.t,
    get_bin_status (snd result) (bin_id bin_data) = inr status /\
    BinStatus.alerts status = WasteDatabase._generate_alerts bin_data /\
    response_field (fst result) (lit "alerts")
    = Some (PyList (map PyStr (NotificationManager.check_and_notify bin_data))) /\
    (length (NotificationManager.check_and_notify bin_data)
     = length (BinStatus.alerts status)
     <-> forall c, ~ (fval (level_of bin_data c) == 80)%Q).
Proof.
  cbn zeta. rewrite receive_iot_data_eq. cbn [fst snd].
  unfold get_bin_status, WasteDatabase.get_bin_status. rewrite lookup_insert_eq.
  eexists. split; [reflexivity |].
  cbn [BinStatus_of BinStatus.alerts derived_record rec_alerts].
  split; [reflexivity |]. split; [reflexivity |].
  rewrite check_and_notify_filter, generate_alerts_filter, !length_map.
  apply filter_lengths_80.
Qed.

(** X10.  [GET /status/{bin_id}] after any sequence of stored readings:
    404 with the identifier in the detail when no reading was stored
    under it, and otherwise the levels, status and alerts of the last
    reading stored under it, whatever was stored for other bins before
    or after. *)
Theorem get_bin_status_after_stores (calls : list (Z * WasteBinData)) (id : str) :
  (~ In id (stored_ids calls) ->
   get_bin_status (store_all WasteDatabase.init calls) id
   = inl {| HTTPException.status_code := 404;
            HTTPException.detail := lit "Bin with ID '" ++ id ++ lit "' not found" |}) /\
  (forall before t d after,
     calls = before ++ (t, d) :: after -> bin_id d = id ->
     ~ In id (stored_ids after) ->
     get_bin_status (store_all WasteDatabase.init calls) id
     = inr {| BinStatus.bin_id := id;
              BinStatus.organic_level := organic_level d;
              BinStatus.recyclable_level := recyclable_level d;
              BinStatus.hazardous_level := hazardous_level d;
              BinStatus.last_updated := t;
              BinStatus.status := status_name (WasteDatabase._calculate_bin_status d);
              BinStatus.alerts := WasteDatabase._generate_alerts d |}).
Proof.
  unfold get_bin_status, WasteDatabase.get_bin_status. split.
  - intros Hid. rewrite store_all_untouched by exact Hid.
    unfold WasteDatabase.init. rewrite lookup_empty. reflexivity.
  - intros before t d after -> <- Hid. rewrite store_all_last by exact Hid. reflexivity.
Qed.

Lemma get_bin_status_after_stores_witness :
  let calls := [(1000, reading_85); (2000, reading_80); (3000, reading_95)] in
  ~ In (lit "BIN-003") (stored_ids calls) /\
  get_bin_status (store_all WasteDatabase.init calls) (lit "BIN-003")
  = inl {| HTTPException.status_code := 404;
           HTTPException.detail := lit "Bin with ID 'BIN-003' not found" |} /\
  get_bin_status (store_all WasteDatabase.init calls) (lit "BIN-002")
  = inr {| BinStatus.bin_id := lit "BIN-002";
           BinStatus.organic_level := PyF 125 1;
           BinStatus.recyclable_level := PyF 8000 2;
           BinStatus.hazardous_level := PyF 9001 2;
           BinStatus.last_updated := 2000;
           BinStatus.status := lit "CRITICAL";
           BinStatus.alerts := WasteDatabase._generate_alerts reading_80 |}.
Proof.
  intros calls.
  assert (H3 : ~ In (lit "BIN-003") (stored_ids calls)).
  { cbn. intros [H | [H | [H | []]]]; discriminate H. }
  assert (H2 : ~ In (lit "BIN-002") (stored_ids [(3000, reading_95)])).
  { cbn. intros [H | []]; discriminate H. }
  split; [exact H3 |]. split.
  - exact (proj1 (get_bin_status_after_stores calls (lit "BIN-003")) H3).
  - exact (proj2 (get_bin_status_after_stores calls (lit "BIN-002"))
             [(1000, reading_85)] 2000 reading_80 [(3000, reading_95)]
             eq_refl eq_refl H2).
Defined.

(** ** [GET /status] *)

Lemma increment_summary (a b c e : Z) (s : Status) :
  increment [(lit "LOW", a); (lit "MEDIUM", b); (lit "HIGH", c); (lit "CRITICAL", e)]
            (status_name s)
  = Some [(lit "LOW", a + (if bool_decide (s = LOW) then 1 else 0));
          (lit "MEDIUM", b + (if bool_decide (s = MEDIUM) then 1 else 0));
          (lit "HIGH", c + (if bool_decide (s = HIGH) then 1 else 0));
          (lit "CRITICAL", e + (if bool_decide (s = CRITICAL) then 1 else 0))].
Proof. destruct s; cbn; rewrite ?Z.add_0_r; reflexivity. Qed.

Lemma count_status_cons (s : Status) (r : BinRecord) (values : list BinRecord) :
  count_status s (r :: values)
  = (if bool_decide (rec_status r = s) then 1 else 0) + count_status s values.
Proof.
  unfold count_status. cbn [List.filter].
  destruct (bool_decide (rec_status r = s)); cbn [length]; lia.
Qed.

Lemma alerted_cons (r : BinRecord) (values : list BinRecord) :
  alerted (r :: values)
  = match rec_alerts r with [] => [] | _ :: _ => [rec_bin_id r] end ++ alerted values.
Proof. unfold alerted. cbn [List.filter]. destruct (rec_alerts r); reflexivity. Qed.

Lemma summarise_counts (values : list BinRecord) :
  forall (a b c e : Z) (acc : list str),
  summarise values
    [(lit "LOW", a); (lit "MEDIUM", b); (lit "HIGH", c); (lit "CRITICAL", e)] acc
  = Some ([(lit "LOW", a + count_status LOW values);
           (lit "MEDIUM", b + count_status MEDIUM values);
           (lit "HIGH", c + count_status HIGH values);
           (lit "CRITICAL", e + count_status CRITICAL values)],
          acc ++ alerted values).
Proof.
  induction values as [| r values IH]; intros a b c e acc.
  - cbn. rewrite !Z.add_0_r, List.app_nil_r. reflexivity.
  - cbn [summarise]. rewrite increment_summary. cbn [mbind option_bind].
    rewrite IH, !count_status_cons, alerted_cons.
    rewrite !(bool_decide_ext (rec_status r = _) (_ = rec_status r))
      by (split; intros E; symmetry; exact E).
    rewrite !Z.add_assoc.
    destruct (rec_alerts r); cbn [List.app]; rewrite <- ?List.app_assoc; reflexivity.
Qed.

Ltac decide_status :=
  repeat first [ rewrite bool_decide_eq_true_2 by reflexivity
               | rewrite bool_decide_eq_false_2 by discriminate ].

Lemma count_status_total (values : list BinRecord) :
  count_status LOW values + count_status MEDIUM values
  + count_status HIGH values + count_status CRITICAL values
  = Z.of_nat (length values).
Proof.
  induction values as [| r values IH]; [reflexivity |].
  rewrite !count_status_cons. cbn [length]. rewrite Nat2Z.inj_succ.
  destruct (rec_status r); decide_status; lia.
Qed.

Lemma alerted_length (values : list BinRecord) :
  Forall (fun r => rec_alerts r <> [] <-> rec_status r = HIGH \/ rec_status r = CRITICAL)
         values ->
  Z.of_nat (length (alerted values))
  = count_status HIGH values + count_status CRITICAL values.
Proof.
  induction values as [| r values IH]; intros H; [reflexivity |].
  apply Forall_cons in H. destruct H as [Hr H].
  rewrite alerted_cons, List.length_app, !count_status_cons, Nat2Z.inj_add, (IH H).
  destruct (rec_alerts r) eqn:Ea.
  - assert (Hs : ~ (rec_status r = HIGH \/ rec_status r = CRITICAL))
      by (intros Hs; apply Hr in Hs; apply Hs; reflexivity).
    cbn [length].
    destruct (rec_status r); decide_status; try lia; exfalso; apply Hs; auto.
  - assert (Hs : rec_status r = HIGH \/ rec_status r = CRITICAL)
      by (apply Hr; discriminate).
    cbn [length]. destruct Hs as [-> | ->]; decide_status; lia.
Qed.

Lemma items_of_store (calls : list (Z * WasteBinData)) (all_bins : list (str * BinRecord)) :
  NoDup (map fst all_bins) ->
  (list_to_map all_bins : gmap str BinRecord) = store_all WasteDatabase.init calls ->
  length all_bins = size (list_to_set (stored_ids calls) : gset str) /\
  Forall (fun r => rec_alerts r <> [] <-> rec_status r = HIGH \/ rec_status r = CRITICAL)
         (map snd all_bins).
Proof.
  intros Hnd Hmap. split.
  - rewrite <- (Permutation_length (map_to_list_to_map all_bins Hnd)).
    rewrite length_map_to_list, Hmap, <- size_dom, store_all_dom.
    unfold WasteDatabase.init. rewrite dom_empty_L, union_empty_l_L. reflexivity.
  - apply List.Forall_forall. intros r Hr. apply in_map_iff in Hr.
    destruct Hr as ([id r'] & <- & Hin). cbn [snd].
    destruct (store_all_derived calls id r') as (t & d & _ & ->).
    { rewrite <- Hmap. apply elem_of_list_to_map_1; [exact Hnd |].
      apply list_elem_of_In. exact Hin. }
    cbn [derived_record rec_status rec_alerts].
    rewrite alerts_nonempty. symmetry. apply status_high_iff.
Qed.

(** X11.  [GET /status] over a store filled by any sequence of readings,
    whatever the order its items are listed in: with no reading stored
    it reports no bins; otherwise it never answers 500, the total is the
    number of distinct identifiers, the four counters add up to it, and
    the bins listed with alerts are as many as the HIGH and CRITICAL
    ones together. *)
Theorem get_all_bins_status_summary (calls : list (Z * WasteBinData))
    (all_bins : list (str * BinRecord)) (now : Z) :
  NoDup (map fst all_bins) ->
  (list_to_map all_bins : gmap str BinRecord) = store_all WasteDatabase.init calls ->
  let values := map snd all_bins in
  (calls = [] ->
   get_all_bins_status all_bins now
   = inr (NoBins (lit "No bins currently monitored") 0 [])) /\
  (calls <> [] ->
   get_all_bins_status all_bins now
   = inr (Overview (Z.of_nat (size (list_to_set (stored_ids calls) : gset str)))
            [(lit "LOW", count_status LOW values);
             (lit "MEDIUM", count_status MEDIUM values);
             (lit "HIGH", count_status HIGH values);
             (lit "CRITICAL", count_status CRITICAL values)]
            (alerted values) values now) /\
   count_status LOW values + count_status MEDIUM values
   + count_status HIGH values + count_status CRITICAL values
   = Z.of_nat (size (list_to_set (stored_ids calls) : gset str)) /\
   Z.of_nat (length (alerted values))
   = count_status HIGH values + count_status CRITICAL values).
Proof.
  intros Hnd Hmap. cbn zeta.
  destruct (items_of_store calls all_bins Hnd Hmap) as [Hlen Hcons].
  split.
  - intros ->. cbn in Hlen. rewrite size_empty in Hlen.
    destruct all_bins; [reflexivity | discriminate Hlen].
  - intros Hcalls. rewrite <- Hlen, count_status_total, length_map.
    split; [| split; [reflexivity | apply alerted_length; exact Hcons]].
    unfold get_all_bins_status. destruct all_bins as [| item rest] eqn:E.
    + exfalso. cbn [length] in Hlen. symmetry in Hlen.
      apply size_empty_inv in Hlen.
      destruct calls as [| [t d] calls]; [apply Hcalls; reflexivity |].
      cbn [stored_ids map snd list_to_set] in Hlen. set_solver.
    + rewrite summarise_counts. reflexivity.
Qed.

Lemma get_all_bins_status_summary_witness :
  let calls := [(1000, reading_85); (2000, reading_80); (3000, reading_95)] in
  let all_bins := [(lit "BIN-001", derived_record 3000 reading_95);
                   (lit "BIN-002", derived_record 2000 reading_80)] in
  calls <> [] /\
  get_all_bins_status all_bins 4000
  = inr (Overview 2
           [(lit "LOW", 0); (lit "MEDIUM", 0); (lit "HIGH", 0); (lit "CRITICAL", 2)]
           [lit "BIN-001"; lit "BIN-002"] (map snd all_bins) 4000).
Proof.
  intros calls all_bins.
  assert (Hc : calls <> []) by discriminate.
  assert (Hnd : NoDup (map fst all_bins)).
  { apply NoDup_cons. split; [| apply NoDup_singleton].
    intros H. apply list_elem_of_singleton in H. discriminate H. }
  assert (Hmap : (list_to_map all_bins : gmap str BinRecord)
                 = store_all WasteDatabase.init calls).
  { unfold calls, all_bins. rewrite !store_all_cons. cbn [store_all fold_left list_to_map foldr].
    change (bin_id reading_85) with (lit "BIN-001").
    change (bin_id reading_95) with (lit "BIN-001").
    change (bin_id reading_80) with (lit "BIN-002").
    unfold WasteDatabase.init.
    rewrite (insert_insert_ne _ (lit "BIN-002") (lit "BIN-001")) by discriminate.
    rewrite insert_insert_eq. reflexivity. }
  split; [exact Hc |].
  destruct (proj2 (get_all_bins_status_summary calls all_bins 4000 Hnd Hmap) Hc)
    as [Heq _].
  rewrite Heq. reflexivity.
Defined.

(** ** Tokens [decode] refuses *)

Lemma verify_jwt_of_failure (SECRET_KEY token : str) (now : pyfloat) (e : decode_failure) :
  SimpleJWT.decode token SECRET_KEY now = inl e ->
  SecurityBearer.verify_jwt SECRET_KEY token now = false.
Proof. unfold SecurityBearer.verify_jwt. intros ->. reflexivity. Qed.

(** X12.  A token that does not have exactly two dots is refused as
    malformed, whatever the secret and the time; this includes the
    empty token. *)
Theorem decode_needs_two_dots (token secret : str) (now : pyfloat) :
  length (List.filter (Ascii.eqb "."%char) token) <> 2%nat ->
  SimpleJWT.decode token secret now = inl InvalidTokenFormat /\
  SecurityBearer.verify_jwt secret token now = false.
Proof.
  intros H.
  assert (Hd : SimpleJWT.decode token secret now = inl InvalidTokenFormat).
  { apply decode_wrong_parts. rewrite split_length. lia. }
  split; [exact Hd | exact (verify_jwt_of_failure _ _ _ _ Hd)].
Qed.

Lemma decode_needs_two_dots_witness :
  length (List.filter (Ascii.eqb "."%char) (lit "eyJhbGciOiAiSFMyNTYifQ.e30")) <> 2%nat /\
  SimpleJWT.decode (lit "eyJhbGciOiAiSFMyNTYifQ.e30") DEFAULT_SECRET_KEY instant_before
  = inl InvalidTokenFormat.
Proof.
  assert (H : length (List.filter (Ascii.eqb "."%char)
                        (lit "eyJhbGciOiAiSFMyNTYifQ.e30")) <> 2%nat)
    by (vm_compute; lia).
  split; [exact H |].
  exact (proj1 (decode_needs_two_dots (lit "eyJhbGciOiAiSFMyNTYifQ.e30")
                  DEFAULT_SECRET_KEY instant_before H)).
Defined.

Lemma dict_set_keeps (d : list (str * pyval)) (k key : str) (v x : pyval) :
  In (k, v) d -> k <> key -> In (k, v) (dict_set d key x).
Proof.
  intros Hin Hne. induction d as [| [k0 v0] d IH]; [destruct Hin |].
  cbn [dict_set]. destruct (bool_decide (k0 = key)) eqn:E.
  - apply bool_decide_eq_true in E. destruct Hin as [Hin | Hin].
    + injection Hin as -> ->. contradiction.
    + right. exact Hin.
  - destruct Hin as [Hin | Hin]; [left; exact Hin | right; apply IH; exact Hin].
Qed.

Lemma decode_empty (secret : str) (now : pyfloat) :
  SimpleJWT.decode [] secret now = inl InvalidTokenFormat.
Proof. reflexivity. Qed.

(** X13.  Claims with a value [json.dumps] cannot serialise, under any
    key but ["exp"], make [create_access_token] return the empty string
    instead of raising, and the empty string never verifies. *)
Theorem create_access_token_unserialisable (SECRET_KEY : str) (utcoffset utcnow : Z)
    (data : list (str * pyval)) (expires_delta : option Z) (k : str) (v : pyval)
    (now : pyfloat) :
  In (k, v) data -> k <> lit "exp" -> json_dumps v = None ->
  let token := create_access_token SECRET_KEY utcoffset utcnow data expires_delta in
  token = [] /\
  SimpleJWT.decode token SECRET_KEY now = inl InvalidTokenFormat /\
  SecurityBearer.verify_jwt SECRET_KEY token now = false.
Proof.
  intros Hin Hk Hv. cbn zeta.
  assert (E : create_access_token SECRET_KEY utcoffset utcnow data expires_delta = []).
  { change (create_access_token SECRET_KEY utcoffset utcnow data expires_delta)
      with (SimpleJWT.encode (issued_payload utcoffset utcnow data expires_delta)
              SECRET_KEY).
    rewrite encode_eq. unfold issued_payload.
    destruct (json_dumps (PyDict _)) as [pj |] eqn:Ed; [| reflexivity].
    exfalso.
    assert (Hs : is_Some (json_dumps v)).
    { apply (proj1 (dict_serialisable _) (ex_intro _ pj Ed) (k, v)).
      apply dict_set_keeps; assumption. }
    rewrite Hv in Hs. destruct Hs as [x Hx]. discriminate Hx. }
  rewrite E. split; [reflexivity |]. split; [apply decode_empty |].
  exact (verify_jwt_of_failure _ _ _ _ (decode_empty SECRET_KEY now)).
Qed.

Lemma create_access_token_unserialisable_witness :
  In (lit "issued", PyObject) claims_with_object /\
  lit "issued" <> lit "exp" /\ json_dumps PyObject = None /\
  create_access_token DEFAULT_SECRET_KEY 0 utcnow_0 claims_with_object None = [].
Proof.
  assert (Hin : In (lit "issued", PyObject) claims_with_object)
    by (right; left; reflexivity).
  assert (Hk : lit "issued" <> lit "exp") by discriminate.
  split; [exact Hin |]. split; [exact Hk |]. split; [reflexivity |].
  exact (proj1 (create_access_token_unserialisable DEFAULT_SECRET_KEY 0 utcnow_0
                  claims_with_object None (lit "issued") PyObject instant_before
                  Hin Hk eq_refl)).
Defined.

(** ** What [decode] accepts *)

Lemma token_with_header_decode (h : str) (payload : pyval) (payload_json secret : str)
    (now : pyfloat) :
  (forall c, In c h -> c <> "."%char) ->
  json_dumps payload = Some payload_json -> well_formed payload = true ->
  SimpleJWT.decode (token_with_header h payload_json secret) secret now
  = SimpleJWT.check_expiration payload now.
Proof.
  intros Hh Hpj Hwf. unfold SimpleJWT.decode, token_with_header.
  rewrite <- List.app_assoc. cbn [List.app].
  rewrite (split_three h (payload_segment payload_json)
             (signature_segment secret (h ++ "."%char :: payload_segment payload_json)));
    [| exact Hh | apply b64_body_no_dot | apply b64_body_no_dot].
  rewrite signature_of_body.
  change (b64_body (hmac_sha256 (utf8_encode secret) (utf8_encode ?m)))
    with (signature_segment secret m).
  rewrite compare_digest_refl by apply b64_body_ascii.
  unfold payload_segment. rewrite urlsafe_b64decode_body.
  pose proof (json_dumps_ascii payload payload_json Hpj) as Hascii.
  rewrite (utf8_encode_ascii payload_json Hascii), (utf8_decode_ascii payload_json Hascii).
  rewrite (json_loads_dumps payload payload_json Hpj Hwf). reflexivity.
Qed.

(** X14.  [decode] never looks at the header segment: with any text
    without a dot in its place, even none, a token whose signature is
    that of its first two segments is accepted exactly as an issued one
    is; the header's [alg] and [typ] play no part. *)
Theorem decode_ignores_header (h : str) (payload : pyval) (payload_json secret : str)
    (now : pyfloat) :
  (forall c, In c h -> c <> "."%char) ->
  json_dumps payload = Some payload_json -> well_formed payload = true ->
  SimpleJWT.decode (token_with_header h payload_json secret) secret now
  = SimpleJWT.check_expiration payload now /\
  SimpleJWT.decode (token_with_header h payload_json secret) secret now
  = SimpleJWT.decode (SimpleJWT.encode payload secret) secret now.
Proof.
  intros Hh Hpj Hwf.
  rewrite (token_with_header_decode h payload payload_json secret now Hh Hpj Hwf).
  split; [reflexivity |].
  symmetry. apply decode_encode; [exact Hwf | eexists; exact Hpj].
Qed.

Lemma decode_ignores_header_witness :
  let pj := default [] (json_dumps payload_0) in
  (forall c, In c (@nil ascii) -> c <> "."%char) /\
  json_dumps payload_0 = Some pj /\ well_formed payload_0 = true /\
  SimpleJWT.decode (token_with_header [] pj DEFAULT_SECRET_KEY)
                   DEFAULT_SECRET_KEY instant_before
  = SimpleJWT.check_expiration payload_0 instant_before.
Proof.
  intros pj.
  assert (Hh : forall c, In c (@nil ascii) -> c <> "."%char) by (intros c []).
  assert (Hpj : json_dumps payload_0 = Some pj) by reflexivity.
  assert (Hwf : well_formed payload_0 = true) by reflexivity.
  split; [exact Hh |]. split; [exact Hpj |]. split; [exact Hwf |].
  exact (proj1 (decode_ignores_header [] payload_0 pj DEFAULT_SECRET_KEY
                  instant_before Hh Hpj Hwf)).
Defined.

Lemma split_nonempty (sep : ascii) (s : str) : split sep s <> [].
Proof.
  destruct s as [| c s]; cbn; [discriminate |].
  destruct (Ascii.eqb c sep); [discriminate |].
  destruct (split sep s); discriminate.
Qed.

Lemma join_split (sep : ascii) (s : str) : join sep (split sep s) = s.
Proof.
  induction s as [| c s IH]; [reflexivity |].
  cbn [split]. destruct (Ascii.eqb c sep) eqn:E.
  - apply Ascii.eqb_eq in E. subst c.
    pose proof (split_nonempty sep s) as Hn.
    destruct (split sep s) as [| p ps]; [contradiction |].
    cbn [join List.app]. cbn [join] in IH. rewrite IH. reflexivity.
  - pose proof (split_nonempty sep s) as Hn.
    destruct (split sep s) as [| p ps]; [contradiction |].
    destruct ps as [| q ps]; cbn [join] in *; cbn [List.app]; rewrite IH; reflexivity.
Qed.

Lemma compare_digest_true (a b : str) : compare_digest a b = Some true -> a = b.
Proof.
  unfold compare_digest. destruct (_ && _); [| discriminate].
  intros H. injection H as H. apply bool_decide_eq_true in H. exact H.
Qed.

(** X15.  [decode] accepts a token only when its third segment is the
    encoded HMAC-SHA256, under the secret, of its first two segments
    joined by a dot, and only a payload that passes the expiry check. *)
Theorem decode_accepts_only_signed (token secret : str) (now : pyfloat)
    (payload : pyval) :
  SimpleJWT.decode token secret now = inr payload ->
  exists h p : str,
    token = h ++ "."%char :: p ++ "."%char
              :: signature_segment secret (h ++ "."%char :: p) /\
    SimpleJWT.check_expiration payload now = inr payload.
Proof.
  intros H. pose proof (decode_inr_check token secret now payload H) as Hc.
  unfold SimpleJWT.decode in H.
  pose proof (join_split "."%char token) as Hj.
  destruct (split "."%char token) as [| h [| p [| s [| x l]]]]; try discriminate H.
  rewrite signature_of_body in H.
  destruct (compare_digest _ _) as [[] |] eqn:Ecd; try discriminate H.
  apply compare_digest_true in Ecd. subst s.
  exists h, p. split; [| exact Hc].
  symmetry. exact Hj.
Qed.

Lemma decode_accepts_only_signed_witness :
  SimpleJWT.decode (SimpleJWT.encode payload_0 DEFAULT_SECRET_KEY)
                   DEFAULT_SECRET_KEY instant_before = inr payload_0 /\
  exists h p : str,
    SimpleJWT.encode payload_0 DEFAULT_SECRET_KEY
    = h ++ "."%char :: p ++ "."%char
        :: signature_segment DEFAULT_SECRET_KEY (h ++ "."%char :: p) /\
    SimpleJWT.check_expiration payload_0 instant_before = inr payload_0.
Proof.
  assert (H : SimpleJWT.decode (SimpleJWT.encode payload_0 DEFAULT_SECRET_KEY)
                DEFAULT_SECRET_KEY instant_before = inr payload_0).
  { rewrite decode_encode; [reflexivity | reflexivity | eexists; reflexivity]. }
  split; [exact H |].
  exact (decode_accepts_only_signed _ DEFAULT_SECRET_KEY instant_before payload_0 H).
Defined.

(** ** The expiry claim *)

(** X16.  A token whose payload has no ["exp"] never expires: it decodes
    to its payload at every time. *)
Theorem decode_without_exp_never_expires (d : list (str * pyval)) (secret : str)
    (now : pyfloat) :
  well_formed (PyDict d) = true -> is_Some (json_dumps (PyDict d)) ->
  dict_get d (lit "exp") = None ->
  SimpleJWT.decode (SimpleJWT.encode (PyDict d) secret) secret now = inr (PyDict d).
Proof.
  intros Hwf Hser Hexp. rewrite decode_encode by assumption.
  apply check_expiration_absent. exact Hexp.
Qed.

Lemma decode_without_exp_never_expires_witness :
  well_formed payload_no_exp = true /\ is_Some (json_dumps payload_no_exp) /\
  SimpleJWT.decode (SimpleJWT.encode payload_no_exp DEFAULT_SECRET_KEY)
                   DEFAULT_SECRET_KEY instant_after = inr payload_no_exp.
Proof.
  assert (Hwf : well_formed payload_no_exp = true) by reflexivity.
  assert (Hser : is_Some (json_dumps payload_no_exp)) by (eexists; reflexivity).
  split; [exact Hwf |]. split; [exact Hser |].
  exact (decode_without_exp_never_expires [(lit "sub", PyStr (lit "test_user"))]
           DEFAULT_SECRET_KEY instant_after Hwf Hser eq_refl).
Defined.

Lemma lt_time_not_number (e : pyval) (now : pyfloat) :
  number_value e = None -> lt_time e now = None.
Proof. destruct e; cbn; intros H; try reflexivity; discriminate H. Qed.

(** X17.  A token whose ["exp"] is not a number (a string, [null], a
    list, an object) is refused at every time: the comparison with the
    clock raises, and the error is reported as a validation failure, so
    the bearer of the token is not admitted. *)
Theorem decode_non_numeric_exp_refused (d : list (str * pyval)) (secret : str)
    (now : pyfloat) (e : pyval) :
  well_formed (PyDict d) = true -> is_Some (json_dumps (PyDict d)) ->
  dict_get d (lit "exp") = Some e -> number_value e = None ->
  SimpleJWT.decode (SimpleJWT.encode (PyDict d) secret) secret now
  = inl (Raised PayloadTypeError) /\
  SecurityBearer.verify_jwt secret (SimpleJWT.encode (PyDict d) secret) now = false.
Proof.
  intros Hwf Hser Hexp Hnum.
  assert (Hd : SimpleJWT.decode (SimpleJWT.encode (PyDict d) secret) secret now
               = inl (Raised PayloadTypeError)).
  { rewrite decode_encode by assumption.
    unfold SimpleJWT.check_expiration, contains_exp, exp_item.
    rewrite Hexp, (lt_time_not_number e now Hnum).
    rewrite bool_decide_eq_true_2 by (eexists; reflexivity). reflexivity. }
  split; [exact Hd | exact (verify_jwt_of_failure _ _ _ _ Hd)].
Qed.

Lemma decode_non_numeric_exp_refused_witness :
  well_formed payload_text_exp = true /\ is_Some (json_dumps payload_text_exp) /\
  SimpleJWT.decode (SimpleJWT.encode payload_text_exp DEFAULT_SECRET_KEY)
                   DEFAULT_SECRET_KEY instant_before
  = inl (Raised PayloadTypeError).
Proof.
  assert (Hwf : well_formed payload_text_exp = true) by reflexivity.
  assert (Hser : is_Some (json_dumps payload_text_exp)) by (eexists; reflexivity).
  split; [exact Hwf |]. split; [exact Hser |].
  exact (proj1 (decode_non_numeric_exp_refused
                  [(lit "sub", PyStr (lit "test_user"));
                   (lit "exp", PyStr (lit "tomorrow"))]
                  DEFAULT_SECRET_KEY instant_before (PyStr (lit "tomorrow"))
                  Hwf Hser eq_refl eq_refl)).
Defined.

(** ** Issuing and presenting a token *)

Lemma test_claims_ok :
  well_formed (PyDict test_claims) = true /\ is_Some (json_dumps (PyDict test_claims)).
Proof. split; [reflexivity | eexists; reflexivity]. Qed.

(** X18.  Where local time is UTC, the token [POST /auth/token] issues,
    presented with the scheme [Bearer], is admitted until 3600 seconds
    after it was issued, that instant included, and refused with 403
    from then on. *)
Theorem create_token_accepted_until_expiry (SECRET_KEY : str) (utcnow : Z)
    (now : pyfloat) :
  let token := access_token (create_token SECRET_KEY 0 utcnow) in
  SecurityBearer.__call__ SECRET_KEY (Some (lit "Bearer", token)) now
  = if f_lt (PyF (utcnow + 3600 * 1000000) 6) now
    then Forbidden (lit "Invalid token or expired token.")
    else Returned token.
Proof.
  cbn zeta. unfold create_token, access_token.
  set (token := create_access_token SECRET_KEY 0 utcnow _ _).
  assert (Hd : SimpleJWT.decode token SECRET_KEY now
               = if f_lt (PyF (utcnow + 3600 * 1000000) 6) now
                 then inl TokenExpired
                 else inr (issued_payload 0 utcnow test_claims
                             (Some (timedelta_minutes ACCESS_TOKEN_EXPIRE_MINUTES)))).
  { unfold token.
    change [(lit "sub", PyStr (lit "test_user"))] with test_claims.
    rewrite create_access_token_decode by apply test_claims_ok.
    unfold timestamp, expire_at.
    change (timedelta_minutes ACCESS_TOKEN_EXPIRE_MINUTES) with (3600 * 1000000).
    change (if 3600 * 1000000 =? 0 then ?a else ?b) with b.
    rewrite Z.sub_0_r. reflexivity. }
  unfold SecurityBearer.__call__, SecurityBearer.verify_jwt.
  rewrite bool_decide_eq_true_2 by reflexivity. cbn [negb].
  rewrite Hd. destruct (f_lt _ now); reflexivity.
Qed.

(** X19.  [timedelta(0)] is falsy, so asking for a token that expires at
    once gives the token of the default sixty minutes: where local time
    is UTC it is still accepted an hour after it was issued. *)
Theorem create_access_token_zero_delta (SECRET_KEY : str) (utcoffset utcnow : Z)
    (data : list (str * pyval)) :
  well_formed (PyDict data) = true -> is_Some (json_dumps (PyDict data)) ->
  create_access_token SECRET_KEY utcoffset utcnow data (Some 0)
  = create_access_token SECRET_KEY utcoffset utcnow data None /\
  SimpleJWT.decode (create_access_token SECRET_KEY 0 utcnow data (Some 0))
                   SECRET_KEY (time_of (utcnow + 3600 * 1000000))
  = inr (PyDict (dict_set data (lit "exp")
                   (PyFloat (PyF (utcnow + 3600 * 1000000) 6)))).
Proof.
  intros Hwf Hser. split; [reflexivity |].
  rewrite create_access_token_decode by assumption.
  unfold issued_payload, timestamp, expire_at, time_of.
  change (if 0 =? 0 then ?a else ?b) with a.
  change (timedelta_minutes ACCESS_TOKEN_EXPIRE_MINUTES) with (3600 * 1000000).
  rewrite Z.sub_0_r, f_lt_same_scale, Z.ltb_irrefl. reflexivity.
Qed.

Lemma create_access_token_zero_delta_witness :
  well_formed (PyDict test_claims) = true /\ is_Some (json_dumps (PyDict test_claims)) /\
  SimpleJWT.decode (create_access_token DEFAULT_SECRET_KEY 0 utcnow_0 test_claims (Some 0))
                   DEFAULT_SECRET_KEY (time_of (utcnow_0 + 3600 * 1000000))
  = inr (PyDict (dict_set test_claims (lit "exp")
                   (PyFloat (PyF (utcnow_0 + 3600 * 1000000) 6)))).
Proof.
  destruct test_claims_ok as [Hwf Hser].
  split; [exact Hwf |]. split; [exact Hser |].
  exact (proj2 (create_access_token_zero_delta DEFAULT_SECRET_KEY 0 utcnow_0
                  test_claims Hwf Hser)).
Defined.

Lemma dict_set_twice (d : list (str * pyval)) (k : str) (v v' : pyval) :
  dict_set (dict_set d k v) k v' = dict_set d k v'.
Proof.
  induction d as [| [k0 v0] d IH]; cbn [dict_set].
  - rewrite bool_decide_eq_true_2 by reflexivity. reflexivity.
  - destruct (bool_decide (k0 = k)) eqn:E; cbn [dict_set]; rewrite E.
    + reflexivity.
    + rewrite IH. reflexivity.
Qed.

(** X20.  An ["exp"] the caller puts in the claims never reaches the
    token: [create_access_token] replaces it by the expiry it computes,
    so the token is the same whatever value the caller gave it. *)
Theorem create_access_token_replaces_exp (SECRET_KEY : str) (utcoffset utcnow : Z)
    (data : list (str * pyval)) (v v' : pyval) (expires_delta : option Z) :
  create_access_token SECRET_KEY utcoffset utcnow (dict_set data (lit "exp") v)
    expires_delta
  = create_access_token SECRET_KEY utcoffset utcnow (dict_set data (lit "exp") v')
      expires_delta.
Proof. unfold create_access_token. rewrite !dict_set_twice. reflexivity. Qed.

(** X21.  How long a fresh token lives depends on the host's time zone:
    verified at the instant it was issued, a token with a lifetime other
    than zero is already expired exactly when the lifetime is shorter
    than the offset of local time from UTC, and is accepted otherwise. *)
Theorem fresh_token_expired_iff_below_offset (SECRET_KEY : str) (utcoffset utcnow : Z)
    (data : list (str * pyval)) (lifetime : Z) :
  well_formed (PyDict data) = true -> is_Some (json_dumps (PyDict data)) ->
  lifetime <> 0 ->
  SimpleJWT.decode
    (create_access_token SECRET_KEY utcoffset utcnow data (Some lifetime))
    SECRET_KEY (time_of utcnow)
  = if lifetime <? utcoffset then inl TokenExpired
    else inr (PyDict (dict_set data (lit "exp")
                        (PyFloat (PyF (utcnow + lifetime - utcoffset) 6)))).
Proof.
  intros Hwf Hser Hl.
  rewrite create_access_token_decode by assumption.
  unfold issued_payload, timestamp, expire_at, time_of.
  rewrite (proj2 (Z.eqb_neq lifetime 0) Hl), f_lt_same_scale.
  destruct (Z.ltb_spec lifetime utcoffset);
    destruct (Z.ltb_spec (utcnow + lifetime - utcoffset) utcnow); try lia; reflexivity.
Qed.

Lemma fresh_token_expired_iff_below_offset_witness :
  well_formed (PyDict test_claims) = true /\ is_Some (json_dumps (PyDict test_claims)) /\
  3600 * 1000000 <> 0 /\
  SimpleJWT.decode
    (create_access_token DEFAULT_SECRET_KEY (-18000 * 1000000) utcnow_0 test_claims
       (Some (3600 * 1000000)))
    DEFAULT_SECRET_KEY (time_of utcnow_0)
  = inr (PyDict (dict_set test_claims (lit "exp")
                   (PyFloat (PyF (utcnow_0 + 3600 * 1000000 - -18000 * 1000000) 6)))).
Proof.
  destruct test_claims_ok as [Hwf Hser].
  assert (Hl : 3600 * 1000000 <> 0) by lia.
  split; [exact Hwf |]. split; [exact Hser |]. split; [exact Hl |].
  exact (fresh_token_expired_iff_below_offset DEFAULT_SECRET_KEY (-18000 * 1000000)
           utcnow_0 test_claims (3600 * 1000000) Hwf Hser Hl).
Defined.

(** ** Degenerate limits and payloads *)

(** X22.  With a limit of zero or less the limiter denies every call,
    and the denied call leaves no request time behind: what it holds for
    the identifier afterwards is only what was still inside the
    window. *)
Theorem is_allowed_zero_limit (requests : gmap str (list pyfloat)) (now : pyfloat)
    (identifier : str) (limit window : Z) :
  limit <= 0 ->
  let r := RateLimiter.is_allowed requests now identifier limit window in
  fst r = false /\
  recorded (snd r) identifier
  = List.filter (RateLimiter.in_window now window) (recorded requests identifier) /\
  ~ In now (recorded (snd (RateLimiter.is_allowed RateLimiter.init now identifier
                             limit window)) identifier).
Proof.
  intros Hl. cbn zeta.
  destruct (is_allowed_step requests now identifier limit window) as (Hf & Hr & _).
  destruct (is_allowed_step RateLimiter.init now identifier limit window)
    as (Hf0 & Hr0 & _).
  assert (E : forall l : list pyfloat, (Z.of_nat (length l) <? limit) = false)
    by (intros l; apply Z.ltb_ge; lia).
  rewrite E in Hf, Hf0. rewrite Hf in Hr. rewrite Hf0 in Hr0.
  split; [exact Hf |]. split; [exact Hr |].
  rewrite Hr0. unfold recorded, RateLimiter.init. rewrite lookup_empty. intros [].
Qed.

Lemma is_allowed_zero_limit_witness :
  0 <= 0 /\
  fst (RateLimiter.is_allowed RateLimiter.init (PyF 1000 1) (lit "10.0.0.7") 0 60) = false.
Proof.
  split; [lia |].
  exact (proj1 (is_allowed_zero_limit RateLimiter.init (PyF 1000 1) (lit "10.0.0.7")
                  0 60 (Z.le_refl 0))).
Defined.

(** X23.  A correctly signed token whose payload is not a JSON object (a
    list, a string, a number, [null]) is never admitted: either its
    expiry check raises, or [payload.get] does, and [verify_jwt]
    answers [False] both times. *)
Theorem verify_jwt_refuses_non_object (payload : pyval) (SECRET_KEY : str)
    (now : pyfloat) :
  well_formed payload = true -> is_Some (json_dumps payload) ->
  (forall d, payload <> PyDict d) ->
  SecurityBearer.verify_jwt SECRET_KEY (SimpleJWT.encode payload SECRET_KEY) now = false.
Proof.
  intros Hwf Hser Hnd. unfold SecurityBearer.verify_jwt.
  rewrite decode_encode by assumption.
  destruct (SimpleJWT.check_expiration payload now) as [e | q] eqn:E; [reflexivity |].
  apply check_expiration_inr in E. subst q.
  destruct payload; try reflexivity.
  exfalso. exact (Hnd d eq_refl).
Qed.

Lemma verify_jwt_refuses_non_object_witness :
  well_formed (PyList [PyStr (lit "sub")]) = true /\
  is_Some (json_dumps (PyList [PyStr (lit "sub")])) /\
  (forall d, PyList [PyStr (lit "sub")] <> PyDict d) /\
  SecurityBearer.verify_jwt DEFAULT_SECRET_KEY
    (SimpleJWT.encode (PyList [PyStr (lit "sub")]) DEFAULT_SECRET_KEY) instant_before
  = false.
Proof.
  assert (Hwf : well_formed (PyList [PyStr (lit "sub")]) = true) by reflexivity.
  assert (Hser : is_Some (json_dumps (PyList [PyStr (lit "sub")])))
    by (eexists; reflexivity).
  assert (Hnd : forall d, PyList [PyStr (lit "sub")] <> PyDict d) by discriminate.
  split; [exact Hwf |]. split; [exact Hser |]. split; [exact Hnd |].
  exact (verify_jwt_refuses_non_object (PyList [PyStr (lit "sub")]) DEFAULT_SECRET_KEY
           instant_before Hwf Hser Hnd).
Defined.
